(** * strava-mcp: the resilient API client and the sync / enrichment workers

    A shallow embedding of
      - internal/strava/client.go   (module [strava] for its types and pure
                                     functions, module [client] for the
                                     methods of [Client], module
                                     [retryablehttp] for the retrying client
                                     it configures),
      - internal/sync/sync.go       (module [syncsvc], the name workers.go
                                     imports the package under),
      - internal/workers/workers.go (module [workers]),
      - internal/auth               (module [auth], with the token
                                     refresher of workers.go),
    followed by the properties of the specification that concern them.

    Go's [int], [int64] and [time.Duration] are modelled as [Z]; the places
    where 64-bit wrap-around can be reached are written with [goint.wrap].
    Effects (clock, context, HTTP, database, logging, callbacks) are threaded
    through an explicit state with a trace of events. *)

From Stdlib Require Import ZArith Lia.
From Stdlib Require Import Ascii SpecFloat QArith Qround.
From stdpp Require Import base gmap strings list pretty.

Local Open Scope Z_scope.

(* ================================================================== *)
(** * Go base types                                                     *)
(* ================================================================== *)

Module goint.

Definition MaxInt64 : Z := 9223372036854775807.
Definition MinInt64 : Z := -9223372036854775808.

(** Two's-complement wrap-around of a 64-bit signed result. *)
Definition wrap (x : Z) : Z := (x + 2 ^ 63) mod 2 ^ 64 - 2 ^ 63.

Definition in_range (x : Z) : Prop := MinInt64 <= x <= MaxInt64.

End goint.

(** Go's [error] values that the modelled code creates or compares.
    The two sentinels are package-level variables compared with [==];
    [Wrapped p e] is [fmt.Errorf(p + ": %w", e)]. *)
Inductive error : Type :=
| ErrPremiumRequired
| ErrRateLimited
| ContextCanceled
| ContextDeadlineExceeded
| ErrExternal (msg : string)
| ErrUnexpectedStatus (code : Z)
| Wrapped (prefix : string) (e : error).

#[global] Instance error_eq_dec : EqDecision error.
Proof. solve_decision. Defined.

Module gotime.

(** [time.Duration]: a count of nanoseconds. *)
Definition Duration := Z.

Definition Nanosecond : Duration := 1.
Definition Millisecond : Duration := 1000000.
Definition Second : Duration := 1000000000.
Definition Minute : Duration := 60 * Second.
Definition Hour : Duration := 60 * Minute.

(** [time.Time]: an instant (seconds since the Unix epoch plus nanoseconds
    within the second) and the offset, in seconds east of UTC, of the
    location it is displayed in. *)
Record Time : Type := mkTime {
  unixSec : Z;
  nsec : Z;
  zoneOffset : Z
}.

(** The nanosecond field of a [time.Time] is always within one second. *)
Definition wf (t : Time) : Prop := 0 <= nsec t < 1000000000.

(** [t.Minute()], [t.Second()], [t.Nanosecond()]: clock reading in the
    location of [t]. *)
Definition Time_Minute (t : Time) : Z := ((unixSec t + zoneOffset t) mod 3600) / 60.
Definition Time_Second (t : Time) : Z := (unixSec t + zoneOffset t) mod 60.
Definition Time_Nanosecond (t : Time) : Z := nsec t.

(** [time.Date(y, m, d+1, 0, 0, 0, 0, time.UTC).Sub(t.UTC())] for the
    calendar day [y, m, d] of [t.UTC()]: the time left until the next
    midnight UTC. *)
Definition untilNextMidnightUTC (t : Time) : Duration :=
  (86400 - unixSec t mod 86400) * Second - nsec t.

(** The zero [time.Time{}] is January 1, year 1, 00:00:00 UTC. *)
Definition zeroTime : Time := mkTime (-62135596800) 0 0.

Definition IsZero (t : Time) : bool :=
  bool_decide (unixSec t = -62135596800) && bool_decide (nsec t = 0).

End gotime.

Module gostrings.

(** [strings.Split(s, sep)] for a one-byte separator: the substrings
    between the separators, so one more element than there are
    separators. *)
Fixpoint Split (s : string) (sep : Ascii.ascii) : list string :=
  match s with
  | EmptyString => [EmptyString]
  | String c s' =>
      if decide (c = sep) then EmptyString :: Split s' sep
      else match Split s' sep with
           | p :: ps => String c p :: ps
           | [] => [String c EmptyString]
           end
  end.

End gostrings.

Module strconv.

Definition digit (c : Ascii.ascii) : option Z :=
  let n := Z.of_N (Ascii.N_of_ascii c) in
  if decide (48 <= n <= 57) then Some (n - 48) else None.

Definition maxUint64 : Z := 18446744073709551615.

(** How the digit loop of [strconv.ParseUint] ends. *)
Inductive Scan : Type :=
| SyntaxError
| RangeError
| Scanned (n : Z).

(** The digit loop of [ParseUint] in base 10 at 64 bits, entered with
    the value read so far. A byte that is no digit ends it with a syntax
    error; a value that cannot take one more digit ends it with a range
    error, before the bytes that follow are looked at. *)
Fixpoint digits (s : string) (acc : Z) : Scan :=
  match s with
  | EmptyString => Scanned acc
  | String c s' =>
      match digit c with
      | None => SyntaxError
      | Some d =>
          if decide (maxUint64 / 10 + 1 <= acc) then RangeError
          else if decide (maxUint64 < acc * 10 + d) then RangeError
          else digits s' (acc * 10 + d)
      end
  end.

(** [strconv.Atoi]: an optional sign followed by one or more decimal
    digits. The pair is the value and whether an error is returned: a
    syntax error comes with the value 0, a range error with the nearest
    64-bit bound. (The fast path of [Atoi] for strings of fewer than 19
    bytes returns what [ParseInt], followed here, returns for them.) *)
Definition Atoi (s : string) : Z * bool :=
  let '(neg, ds) :=
    match s with
    | String "-"%char r => (true, r)
    | String "+"%char r => (false, r)
    | _ => (false, s)
    end in
  match ds with
  | EmptyString => (0, true)
  | _ =>
      match digits ds 0 with
      | SyntaxError => (0, true)
      | RangeError => if neg then (goint.MinInt64, true) else (goint.MaxInt64, true)
      | Scanned un =>
          if neg then
            if decide (2 ^ 63 < un) then (goint.MinInt64, true) else (- un, false)
          else
            if decide (2 ^ 63 <= un) then (goint.MaxInt64, true) else (un, false)
      end
  end.

End strconv.

Module http.

Definition StatusOK : Z := 200.
Definition StatusPaymentRequired : Z := 402.
Definition StatusNotFound : Z := 404.
Definition StatusTooManyRequests : Z := 429.

Definition is_lower (c : Ascii.ascii) : bool :=
  let n := Ascii.N_of_ascii c in (97 <=? n)%N && (n <=? 122)%N.
Definition is_upper (c : Ascii.ascii) : bool :=
  let n := Ascii.N_of_ascii c in (65 <=? n)%N && (n <=? 90)%N.
Definition to_upper (c : Ascii.ascii) : Ascii.ascii :=
  if is_lower c then Ascii.ascii_of_N (Ascii.N_of_ascii c - 32) else c.
Definition to_lower (c : Ascii.ascii) : Ascii.ascii :=
  if is_upper c then Ascii.ascii_of_N (Ascii.N_of_ascii c + 32) else c.

Fixpoint canon (upper : bool) (s : string) : string :=
  match s with
  | EmptyString => EmptyString
  | String c s' =>
      let c' := if upper then to_upper c else to_lower c in
      String c' (canon (bool_decide (c' = "-"%char)) s')
  end.

(** [textproto.CanonicalMIMEHeaderKey] on a key made of letters, digits
    and hyphens (all the keys client.go asks for are): the first letter
    and every letter after a hyphen in upper case, the others in lower
    case. *)
Definition CanonicalMIMEHeaderKey (k : string) : string := canon true k.

(** [http.Header] is [map[string][]string], filled under canonical keys. *)
Abbreviation Header := (gmap string (list string)).

(** [h.Get(key)]: the first value stored under the canonical form of
    [key], or the empty string. *)
Definition Get (h : Header) (key : string) : string :=
  match h !! CanonicalMIMEHeaderKey key with
  | Some (v :: _) => v
  | _ => EmptyString
  end.

(** The parts of [*http.Response] that the client reads. [Body] is the
    raw payload, decoded by the [encoding/json] oracle of the
    environment. *)
Record Response : Type := mkResponse {
  StatusCode : Z;
  Headers : Header;
  Body : string
}.

End http.

(** [int64(f)] for a [float64]: the fraction is discarded (truncation
    toward zero). Where the value does not fit, Go leaves the result to
    the implementation; amd64 yields the smallest [int64]. *)
Definition float64_to_int64 (f : spec_float) : Z :=
  match f with
  | S754_zero _ => 0
  | S754_finite s m e =>
      let mag := if decide (0 <= e) then Z.pos m * 2 ^ e else Z.pos m / 2 ^ (- e) in
      let v := if s then - mag else mag in
      if decide (goint.MinInt64 <= v <= goint.MaxInt64) then v else goint.MinInt64
  | _ => goint.MinInt64
  end.

(* ================================================================== *)
(** * internal/strava/client.go: data and pure functions                *)
(* ================================================================== *)

Module strava.

Definition perPage : Z := 200.
Definition requestTimeout : gotime.Duration := 30 * gotime.Second.

Definition defaultMaxRetries : Z := 5.
Definition defaultInitialBackoff : gotime.Duration := 1 * gotime.Second.
Definition defaultMaxBackoff : gotime.Duration := 5 * gotime.Minute.

Definition baseURL : string := "https://www.strava.com/api/v3".

Record RetryConfig : Type := mkRetryConfig {
  MaxRetries : Z;
  MinWait : gotime.Duration;
  MaxWait : gotime.Duration
}.

Definition DefaultRetryConfig : RetryConfig :=
  mkRetryConfig defaultMaxRetries defaultInitialBackoff defaultMaxBackoff.

(** [Activity]: the identity, the name and the type ([Type] in Go) are
    what the modelled code reads; the remaining fields (distances,
    speeds, dates, ...) are payload that is copied to the database
    parameters and never inspected. *)
Record Activity : Type := mkActivity {
  ID : Z;
  Name : string;
  Type_ : string
}.

Record TimedZoneRange : Type := mkTimedZoneRange {
  Min : Z;
  Max : Z;
  Time : spec_float
}.

Record ActivityZone : Type := mkActivityZone {
  ZoneType : string;
  SensorBased : bool;
  DistributionBuckets : list TimedZoneRange
}.

Record RateLimitInfo : Type := mkRateLimitInfo {
  Limit15Min : Z;
  Usage15Min : Z;
  LimitDaily : Z;
  UsageDaily : Z;
  IsRateLimited : bool;
  TimeUntil15MinReset : gotime.Duration;
  TimeUntilDailyReset : gotime.Duration;
  RecommendedWait : gotime.Duration
}.

(** The zero value [RateLimitInfo{}]. *)
Definition RateLimitInfo_zero : RateLimitInfo :=
  mkRateLimitInfo 0 0 0 0 false 0 0 0.

Definition rateLimitBuffer : Z := 5.

Definition timeUntilNext15MinWindow (now : gotime.Time) : gotime.Duration :=
  let minute := gotime.Time_Minute now in
  let second := gotime.Time_Second now in
  let nano := gotime.Time_Nanosecond now in
  let nextBoundary := (Z.quot minute 15 + 1) * 15 in
  let nextBoundary := if decide (60 <= nextBoundary) then 0 else nextBoundary in
  let minutesUntil :=
    if decide (nextBoundary = 0) then 60 - minute else nextBoundary - minute in
  let waitDuration :=
    minutesUntil * gotime.Minute - second * gotime.Second - nano * gotime.Nanosecond in
  waitDuration + 2 * gotime.Second.

Definition timeUntilMidnightUTC (now : gotime.Time) : gotime.Duration :=
  gotime.untilNextMidnightUTC now + 2 * gotime.Second.

Definition ShouldWaitForRateLimit (info : RateLimitInfo) : gotime.Duration :=
  RecommendedWait info.

Definition IsApproaching15MinLimit (info : RateLimitInfo) : bool :=
  if decide (Limit15Min info = 0) then false
  else bool_decide (goint.wrap (Limit15Min info - rateLimitBuffer) <= Usage15Min info).

Definition IsApproachingDailyLimit (info : RateLimitInfo) : bool :=
  if decide (LimitDaily info = 0) then false
  else bool_decide (goint.wrap (LimitDaily info - rateLimitBuffer) <= UsageDaily info).

Record FetchResult : Type := mkFetchResult {
  Activities : list Activity;
  RateLimit : RateLimitInfo;
  Page : Z;
  TotalFetched : Z;
  Error : option error;
  RetryCount : Z;
  IsRetrying : bool
}.

(** The retry policy installed as [client.CheckRetry]. [ctxErr] is
    [ctx.Err()], [resp] and [err] are what the transport returned. The
    result is [None] where the Go code would dereference a nil response
    (no error and no response, which the transport never produces). *)
Definition CheckRetry (ctxErr : option error) (resp : option http.Response)
    (err : option error) : option (bool * option error) :=
  match ctxErr with
  | Some e => Some (false, Some e)
  | None =>
      match err with
      | Some _ => Some (true, None)
      | None =>
          match resp with
          | None => None
          | Some r =>
              if decide (http.StatusCode r = http.StatusPaymentRequired) then Some (false, None)
              else if decide (http.StatusCode r = http.StatusNotFound) then Some (false, None)
              else if decide (http.StatusCode r = http.StatusTooManyRequests) then Some (true, None)
              else if decide (500 <= http.StatusCode r) then Some (true, None)
              else Some (false, None)
          end
      end
  end.

Definition minPositive (a b : Z) : Z :=
  if decide (a <= 0) then b
  else if decide (b <= 0) then a
  else if decide (a < b) then a
  else b.

(** One of the four header blocks of [parseRateLimitHeaders]: both values
    start at zero and are overwritten by the first two comma-separated
    parts when the header is present; the error of [Atoi] is dropped. *)
Definition parsePair (header : string) : Z * Z :=
  if decide (header = EmptyString) then (0, 0)
  else
    let parts := gostrings.Split header ","%char in
    let v15 := match parts with p0 :: _ => fst (strconv.Atoi p0) | [] => 0 end in
    let vDaily := match parts with _ :: p1 :: _ => fst (strconv.Atoi p1) | _ => 0 end in
    (v15, vDaily).

(** The if / else-if chain that closes both [parseRateLimitHeaders] and
    [GetRateLimit]: [RecommendedWait] starts at zero. *)
Definition recommend (info : RateLimitInfo) : RateLimitInfo :=
  let setWait (limited : bool) (w : gotime.Duration) :=
    mkRateLimitInfo (Limit15Min info) (Usage15Min info) (LimitDaily info) (UsageDaily info)
      limited (TimeUntil15MinReset info) (TimeUntilDailyReset info) w in
  if decide (0 < Limit15Min info ∧ Limit15Min info <= Usage15Min info)
  then setWait true (TimeUntil15MinReset info)
  else if decide (0 < LimitDaily info ∧ LimitDaily info <= UsageDaily info)
  then setWait true (TimeUntilDailyReset info)
  else if IsApproaching15MinLimit info
  then setWait (IsRateLimited info) (TimeUntil15MinReset info)
  else if IsApproachingDailyLimit info
  then setWait (IsRateLimited info) (TimeUntilDailyReset info)
  else setWait (IsRateLimited info) 0.

Definition parseRateLimitHeaders (headers : http.Header) (now : gotime.Time) : RateLimitInfo :=
  let '(generalLimit15Min, generalLimitDaily) := parsePair (http.Get headers "X-RateLimit-Limit") in
  let '(generalUsage15Min, generalUsageDaily) := parsePair (http.Get headers "X-RateLimit-Usage") in
  let '(readLimit15Min, readLimitDaily) := parsePair (http.Get headers "X-ReadRateLimit-Limit") in
  let '(readUsage15Min, readUsageDaily) := parsePair (http.Get headers "X-ReadRateLimit-Usage") in
  recommend
    {| Limit15Min := minPositive generalLimit15Min readLimit15Min;
       LimitDaily := minPositive generalLimitDaily readLimitDaily;
       Usage15Min := Z.max generalUsage15Min readUsage15Min;
       UsageDaily := Z.max generalUsageDaily readUsageDaily;
       IsRateLimited := false;
       TimeUntil15MinReset := timeUntilNext15MinWindow now;
       TimeUntilDailyReset := timeUntilMidnightUTC now;
       RecommendedWait := 0 |}.

End strava.

(* ================================================================== *)
(** * internal/db: the parameter structs of the generated queries       *)
(* ================================================================== *)

(** The package is generated from src/sql/queries.sql and is not among
    the sources. The structs have the fields the composite literals of
    sync.go fill in, which are the columns the queries insert; the
    queries themselves are collaborators of the environment below. *)
Module db.

Record CreateActivityParams : Type := mkCreateActivityParams {
  ID : Z;
  Name : string;
  Type_ : string
}.

Record CreateActivityZoneParams : Type := mkCreateActivityZoneParams {
  ActivityID : Z;
  ZoneType : string;
  SensorBased : Z
}.

Record CreateZoneBucketParams : Type := mkCreateZoneBucketParams {
  ActivityZoneID : Z;
  ZoneNumber : Z;
  MinValue : Z;
  MaxValue : Z;
  TimeSeconds : Z
}.

(** [sql.NullTime] and the column of [db.Activity] that workers.go reads. *)
Record NullTime : Type := mkNullTime { NullTime_Time : gotime.Time; Valid : bool }.
Record Activity : Type := mkActivity { Activity_ID : Z; StartDate : NullTime }.

End db.

(* ================================================================== *)
(** * The world around the program                                      *)
(* ================================================================== *)

(** The two requests client.go builds:
    [GET {base}/athlete/activities?page=P&per_page=200] with [&after=A]
    appended when a cursor is given, and [GET {base}/activities/ID/zones]. *)
Inductive Request : Type :=
| GetActivities (page : Z) (after : option Z)
| GetActivityZones (activityID : Z).

Inductive Level : Type := DebugLevel | InfoLevel | WarnLevel | ErrorLevel.

(** What the program does to the outside, in the order it does it. Each
    call to a collaborator is recorded with the answer it got. A log
    event keeps the level, the message and the [Int] and [Int64] fields
    of the zerolog event (its [Str], [Dur], [Bool] and [Err] fields are
    left out). *)
Inductive Event : Type :=
| EvDo (req : Request) (out : error + http.Response)
| EvWait (d : gotime.Duration)
| EvLog (lvl : Level) (msg : string) (fields : list (string * Z))
| EvPrint (msg : string)
| EvFetchProgress (r : strava.FetchResult)
| EvSaveProgress (current total : Z) (name : string)
| EvZoneProgress (current total : Z) (activityID : Z)
| EvGetValidAccessToken (res : error + string)
| EvCreateActivity (p : db.CreateActivityParams) (res : option error)
| EvGetRecentActivities (limit : Z) (res : error + list db.Activity)
| EvCreateActivityZone (p : db.CreateActivityZoneParams) (res : error + Z)
| EvDeleteZoneBucketsForActivityZone (zoneID : Z) (res : option error)
| EvCreateZoneBucket (p : db.CreateZoneBucketParams) (res : option error)
| EvGetActivitiesWithoutZones (limit : Z) (res : error + list Z)
| EvCountActivitiesWithoutZones (res : error + Z).

(** The collaborators, as functions of everything that happened so far:
    the clock, the context, the retrying HTTP client ([Do] answers with
    the final response or error of one logical request), the JSON
    decoder, the token storage and the queries of the database. *)
Record Env : Type := mkEnv {
  env_Now : list Event -> gotime.Time;
  env_ctxErr : list Event -> option error;
  env_Do : list Event -> Request -> error + http.Response;
  env_decodeActivities : string -> error + list strava.Activity;
  env_decodeZones : string -> error + list strava.ActivityZone;
  env_GetValidAccessToken : list Event -> error + string;
  env_CreateActivity : list Event -> db.CreateActivityParams -> option error;
  env_GetRecentActivities : list Event -> Z -> error + list db.Activity;
  env_CreateActivityZone : list Event -> db.CreateActivityZoneParams -> error + Z;
  env_DeleteZoneBucketsForActivityZone : list Event -> Z -> option error;
  env_CreateZoneBucket : list Event -> db.CreateZoneBucketParams -> option error;
  env_GetActivitiesWithoutZones : list Event -> Z -> error + list Z;
  env_CountActivitiesWithoutZones : list Event -> error + Z
}.

(** The mutable state: the trace of events, and the [rateLimit] field of
    the [strava.Client] the running worker holds. *)
Record St : Type := mkSt {
  trace : list Event;
  rateLimit : strava.RateLimitInfo
}.

Definition M (A : Type) : Type := St -> A * St.

Definition ret {A : Type} (a : A) : M A := fun st => (a, st).

Definition bind {A B : Type} (m : M A) (k : A -> M B) : M B :=
  fun st => let r := m st in k (fst r) (snd r).

Declare Scope prog_scope.
Delimit Scope prog_scope with prog.
Notation "'let*' x := m 'in' k" := (bind m (fun x => k))
  (at level 10, x pattern, m at level 100, k at level 200) : prog_scope.
Notation "m >> k" := (bind m (fun _ => k))
  (at level 100, k at level 200, right associativity) : prog_scope.
Local Open Scope prog_scope.

Definition emit (e : Event) : M unit :=
  fun st => (tt, mkSt (trace st ++ [e]) (rateLimit st)).

Definition getRateLimit : M strava.RateLimitInfo := fun st => (rateLimit st, st).

Definition setRateLimit (info : strava.RateLimitInfo) : M unit :=
  fun st => (tt, mkSt (trace st) info).

(** A call to a collaborator: ask the environment, record the answer. *)
Definition call {A : Type} (ask : list Event -> A) (ev : A -> Event) : M A :=
  fun st => let a := ask (trace st) in (a, mkSt (trace st ++ [ev a]) (rateLimit st)).

(** The events a run appended: what [st'] has after the trace of [st]. *)
Definition new_events (st st' : St) : list Event :=
  drop (length (trace st)) (trace st').

(* ================================================================== *)
(** * internal/strava/client.go: the methods of [Client]                *)
(* ================================================================== *)

Module client.
Section WithEnv.
Variable env : Env.

Definition Now : M gotime.Time := fun st => (env_Now env (trace st), st).

(** [ctx.Err()], also the test behind [case <-ctx.Done()]. *)
Definition ctxErr : M (option error) := fun st => (env_ctxErr env (trace st), st).

(** [select { case <-ctx.Done(): ...; case <-time.After(d): ... }]: the
    wait is recorded; the result is [ctx.Err()] when the context won. *)
Definition waitOrDone (d : gotime.Duration) : M (option error) :=
  emit (EvWait d) >> ctxErr.

Definition log (lvl : Level) (msg : string) (fields : list (string * Z)) : M unit :=
  emit (EvLog lvl msg fields).

(** [c.httpClient.Do(req)]. Building the request cannot fail for the two
    URLs of this file. *)
Definition Do (req : Request) : M (error + http.Response) :=
  call (fun tr => env_Do env tr req) (EvDo req).

Definition GetRateLimit : M strava.RateLimitInfo :=
  let* info := getRateLimit in
  let* now := Now in
  ret (strava.recommend
         {| strava.Limit15Min := strava.Limit15Min info;
            strava.Usage15Min := strava.Usage15Min info;
            strava.LimitDaily := strava.LimitDaily info;
            strava.UsageDaily := strava.UsageDaily info;
            strava.IsRateLimited := strava.IsRateLimited info;
            strava.TimeUntil15MinReset := strava.timeUntilNext15MinWindow now;
            strava.TimeUntilDailyReset := strava.timeUntilMidnightUTC now;
            strava.RecommendedWait := 0 |}).

Definition WaitForRateLimit : M (option error) :=
  let* rl := GetRateLimit in
  let waitDuration := strava.ShouldWaitForRateLimit rl in
  if decide (waitDuration <= 0) then ret None
  else
    log InfoLevel "waiting for rate limit window to reset" [] >>
    let* done := waitOrDone waitDuration in
    match done with
    | Some e => ret (Some e)
    | None => log InfoLevel "rate limit window reset, resuming" [] >> ret None
    end.

Definition updateRateLimit (resp : http.Response) : M strava.RateLimitInfo :=
  let* now := Now in
  let parsed := strava.parseRateLimitHeaders (http.Headers resp) now in
  let rl :=
    if decide (http.StatusCode resp = http.StatusTooManyRequests)
    then {| strava.Limit15Min := strava.Limit15Min parsed;
            strava.Usage15Min := strava.Usage15Min parsed;
            strava.LimitDaily := strava.LimitDaily parsed;
            strava.UsageDaily := strava.UsageDaily parsed;
            strava.IsRateLimited := true;
            strava.TimeUntil15MinReset := strava.TimeUntil15MinReset parsed;
            strava.TimeUntilDailyReset := strava.TimeUntilDailyReset parsed;
            strava.RecommendedWait := strava.RecommendedWait parsed |}
    else parsed in
  setRateLimit rl >> ret rl.

Definition fetchActivitiesPage (page after : Z)
  : M (list strava.Activity * strava.RateLimitInfo * option error) :=
  let* out := Do (GetActivities page (if decide (0 < after) then Some after else None)) in
  match out with
  | inl err => ret ([], strava.RateLimitInfo_zero, Some (Wrapped "executing request" err))
  | inr resp =>
      let* rl := updateRateLimit resp in
      if decide (http.StatusCode resp = http.StatusTooManyRequests)
      then ret ([], rl, Some ErrRateLimited)
      else if decide (http.StatusCode resp ≠ http.StatusOK)
      then ret ([], rl, Some (ErrUnexpectedStatus (http.StatusCode resp)))
      else
        match env_decodeActivities env (http.Body resp) with
        | inl err => ret ([], rl, Some (Wrapped "decoding response" err))
        | inr activities => ret (activities, rl, None)
        end
  end.

(** [ProgressCallback]; [None] is the nil callback. A callback reads
    the result it is shown and acts on the world. The slice
    [result.Activities] shares its array with the items the loop appends
    after the call; a callback that writes into it is outside this
    type. *)
Definition ProgressCallback : Type := option (strava.FetchResult -> M unit).

Definition runProgress (progress : ProgressCallback) (r : strava.FetchResult) : M unit :=
  match progress with
  | Some f => f r
  | None => ret tt
  end.

(** The page loop shared, line for line, by [FetchAllActivities]
    ([afterEpoch = 0]) and [FetchActivitiesSince]. The Go loop has no
    bound; [fuel] counts the iterations allowed, and [None] is returned
    when they are used up before the loop ends. *)
Fixpoint fetchLoop (fuel : nat) (afterEpoch : Z) (progress : ProgressCallback)
    (allActivities : list strava.Activity) (page : Z)
  : M (option (list strava.Activity * option error)) :=
  match fuel with
  | O => ret None
  | S fuel' =>
      let* (activities, rl, err) := fetchActivitiesPage page afterEpoch in
      let result :=
        {| strava.Activities := activities;
           strava.RateLimit := rl;
           strava.Page := page;
           strava.TotalFetched := Z.of_nat (length allActivities) + Z.of_nat (length activities);
           strava.Error := None;
           strava.RetryCount := 0;
           strava.IsRetrying := false |} in
      runProgress progress result >>
      match err with
      | Some e => ret (Some (allActivities, Some e))
      | None =>
          if decide (length activities = 0%nat) then ret (Some (allActivities, None))
          else fetchLoop fuel' afterEpoch progress (allActivities ++ activities) (page + 1)
      end
  end.

Definition FetchAllActivities (fuel : nat) (progress : ProgressCallback)
  : M (option (list strava.Activity * option error)) :=
  fetchLoop fuel 0 progress [] 1.

Definition FetchActivitiesSince (fuel : nat) (since : gotime.Time) (progress : ProgressCallback)
  : M (option (list strava.Activity * option error)) :=
  fetchLoop fuel (gotime.unixSec since) progress [] 1.

Definition FetchActivityZones (activityID : Z)
  : M (list strava.ActivityZone * option error) :=
  let* out := Do (GetActivityZones activityID) in
  match out with
  | inl err => ret ([], Some (Wrapped "executing request" err))
  | inr resp =>
      updateRateLimit resp >>
      if decide (http.StatusCode resp = http.StatusPaymentRequired)
      then ret ([], Some ErrPremiumRequired)
      else if decide (http.StatusCode resp = http.StatusTooManyRequests)
      then ret ([], Some ErrRateLimited)
      else if decide (http.StatusCode resp = http.StatusNotFound)
      then ret ([], None)
      else if decide (http.StatusCode resp ≠ http.StatusOK)
      then ret ([], Some (ErrUnexpectedStatus (http.StatusCode resp)))
      else
        updateRateLimit resp >>
        match env_decodeZones env (http.Body resp) with
        | inl err => ret ([], Some (Wrapped "decoding response" err))
        | inr zones => ret (zones, None)
        end
  end.

(** [NewClientWithRetryConfig]: a client whose [rateLimit] is the zero
    value. *)
Definition NewClientWithRetryConfig : M unit := setRateLimit strava.RateLimitInfo_zero.

(** [1<<uint(attemptNum)] at type [time.Duration]: a shift count of 64
    or more, which a negative [attemptNum] converts to, gives 0; a count
    of 63 gives the smallest [int64]. *)
Definition shiftOne (attemptNum : Z) : Z :=
  if decide (0 <= attemptNum < 64) then goint.wrap (2 ^ attemptNum) else 0.

(** The policy installed as [client.Backoff]; [resp] is [None] for a nil
    response. *)
Definition Backoff (min max : gotime.Duration) (attemptNum : Z) (resp : option http.Response)
  : M gotime.Duration :=
  let exponential :=
    let wait := goint.wrap (min * shiftOne attemptNum) in
    let wait := if decide (max < wait) then max else wait in
    log InfoLevel "backing off before retry" [("attempt", attemptNum)] >> ret wait in
  match resp with
  | Some r =>
      if decide (http.StatusCode r = http.StatusTooManyRequests) then
        let window :=
          let* now := Now in
          let wait := strava.timeUntilNext15MinWindow now in
          log InfoLevel "rate limited, waiting for 15-minute window reset"
            [("attempt", attemptNum)] >>
          ret wait in
        let retryAfter := http.Get (http.Headers r) "Retry-After" in
        if decide (retryAfter ≠ EmptyString) then
          match strconv.Atoi retryAfter with
          | (seconds, false) =>
              let wait := goint.wrap (seconds * gotime.Second) in
              log InfoLevel "rate limited, waiting for Retry-After header"
                [("attempt", attemptNum)] >>
              ret wait
          | (_, true) => window
          end
        else window
      else exponential
  | None => exponential
  end.

End WithEnv.
End client.

(* ================================================================== *)
(** * The retrying HTTP client behind [c.httpClient]                    *)
(* ================================================================== *)

(** [newClientWithConfig] builds [c.httpClient] as a
    [*retryablehttp.Client] (github.com/hashicorp/go-retryablehttp
    v0.7.8 in go.mod) with [RetryMax], [RetryWaitMin] and [RetryWaitMax]
    from the retry configuration, the [CheckRetry], [Backoff],
    [RequestLogHook] and [ResponseLogHook] of client.go, the leveled
    logger of internal/logging, and no [ErrorHandler]. This module is
    [Client.Do] of that library with those settings. Here [env_Do] of
    the environment is the transport under the retrying client,
    [c.HTTPClient.Do]: one round trip; [client.Do] is that call. Of a
    log line given through [Fields] the integer values are kept. *)
Module retryablehttp.
Section WithEnv.
Variable env : Env.
(** [c.baseURL], [logging.IsTraceEnabled()] and the retry configuration. *)
Variable baseURL : string.
Variable traceEnabled : bool.
Variable cfg : strava.RetryConfig.

(** The URL client.go builds for a request. *)
Definition url (req : Request) : string :=
  match req with
  | GetActivities page after =>
      baseURL +:+ "/athlete/activities?page=" +:+ pretty page
        +:+ "&per_page=" +:+ pretty strava.perPage
        +:+ match after with
            | Some a => "&after=" +:+ pretty a
            | None => EmptyString
            end
  | GetActivityZones activityID =>
      baseURL +:+ "/activities/" +:+ pretty activityID +:+ "/zones"
  end.

(** The hook installed as [client.RequestLogHook]. *)
Definition RequestLogHook (retry : Z) : M unit :=
  (if decide (0 < retry)
   then client.log InfoLevel "retrying request" [("attempt", goint.wrap (retry + 1))]
   else ret tt) >>
  if traceEnabled then client.log DebugLevel "request headers" [] else ret tt.

(** The hook installed as [client.ResponseLogHook]; the quota state it
    parses from the headers goes into string fields of the warning
    only. *)
Definition ResponseLogHook (resp : http.Response) : M unit :=
  let* now := client.Now env in
  let rateLimit := strava.parseRateLimitHeaders (http.Headers resp) now in
  (if traceEnabled
   then client.log DebugLevel "response headers" [("status", http.StatusCode resp)]
   else ret tt) >>
  if decide (http.StatusCode resp = http.StatusTooManyRequests)
  then client.log WarnLevel "rate limited by API" [("status", http.StatusCode resp)]
  else ret tt.

Definition response (out : error + http.Response) : option http.Response :=
  match out with inr resp => Some resp | inl _ => None end.

Definition failure (out : error + http.Response) : option error :=
  match out with inl err => Some err | inr _ => None end.

(** [c.CheckRetry(req.Context(), resp, doErr)]. The transport returns a
    response or an error, so the policy always has an answer. *)
Definition checkRetry (out : error + http.Response) : M (bool * option error) :=
  let* ctxErr := client.ctxErr env in
  ret (default (false, None) (strava.CheckRetry ctxErr (response out) (failure out))).

(** How the loop of [Do] is left: by a [break], with the variables the
    code after the loop reads ([resp] and [doErr], [shouldRetry],
    [checkErr], [attempt]), or by the [return] of a wait that the
    context ended. *)
Inductive Ended : Type :=
| Broke (out : error + http.Response) (shouldRetry : bool) (checkErr : option error)
    (attempt : Z)
| Cancelled (e : error).

(** The loop [for i := 0; ; i++] of [Do], from pass [i] on. [remain] is
    [c.RetryMax - i] of the loop body, kept as a natural number: the
    loop breaks where it is not positive, and the next pass has one
    less. *)
Fixpoint attempts (remain : nat) (i : Z) (req : Request) : M Ended :=
  RequestLogHook i >>
  let* out := client.Do env req in
  let* (shouldRetry, checkErr) := checkRetry out in
  match out with
  | inl _ => client.log ErrorLevel "request failed" []
  | inr resp => ResponseLogHook resp
  end >>
  if negb shouldRetry then ret (Broke out shouldRetry checkErr (goint.wrap (i + 1)))
  else
    match remain with
    | O => ret (Broke out shouldRetry checkErr (goint.wrap (i + 1)))
    | S remain' =>
        let* wait := client.Backoff env (strava.MinWait cfg) (strava.MaxWait cfg) i
                       (response out) in
        client.log DebugLevel "retrying request" [("remaining", Z.of_nat remain)] >>
        let* done := client.waitOrDone env wait in
        match done with
        | Some e => ret (Cancelled e)
        | None => attempts remain' (i + 1) req
        end
    end.

(** The message of the error [Do] returns when it gives up. *)
Definition givingUp (req : Request) (attempt : Z) : string :=
  "GET " +:+ url req +:+ " giving up after " +:+ pretty attempt +:+ " attempt(s)".

(** [Client.Do]: the response is handed to the caller only when the
    policy did not ask for a retry and reported no error. With no
    [ErrorHandler], every other way out of the loop ends in an error and
    no response. *)
Definition Do (req : Request) : M (error + http.Response) :=
  client.log DebugLevel "performing request" [] >>
  let* ended := attempts (Z.to_nat (strava.MaxRetries cfg)) 0 req in
  match ended with
  | Cancelled e => ret (inl e)
  | Broke out shouldRetry checkErr attempt =>
      match out, checkErr, shouldRetry with
      | inr resp, None, false => ret (inr resp)
      | _, _, _ =>
          let err := match checkErr with
                     | Some e => Some e
                     | None => failure out
                     end in
          match err with
          | None => ret (inl (ErrExternal (givingUp req attempt)))
          | Some e => ret (inl (Wrapped (givingUp req attempt) e))
          end
      end
  end.

End WithEnv.
End retryablehttp.

(** The environment the methods of [Client] run in when [transport] is
    the world under the retrying client: [Do] is answered with what
    [retryablehttp.Do] ends with on the trace so far. The round trips,
    log lines and waits of one logical request are events of that run;
    the trace of the caller holds the final answer. *)
Definition retrying (baseURL : string) (traceEnabled : bool) (cfg : strava.RetryConfig)
    (transport : Env) : Env :=
  {| env_Now := env_Now transport;
     env_ctxErr := env_ctxErr transport;
     env_Do := fun tr req =>
       fst (retryablehttp.Do transport baseURL traceEnabled cfg req
              (mkSt tr strava.RateLimitInfo_zero));
     env_decodeActivities := env_decodeActivities transport;
     env_decodeZones := env_decodeZones transport;
     env_GetValidAccessToken := env_GetValidAccessToken transport;
     env_CreateActivity := env_CreateActivity transport;
     env_GetRecentActivities := env_GetRecentActivities transport;
     env_CreateActivityZone := env_CreateActivityZone transport;
     env_DeleteZoneBucketsForActivityZone := env_DeleteZoneBucketsForActivityZone transport;
     env_CreateZoneBucket := env_CreateZoneBucket transport;
     env_GetActivitiesWithoutZones := env_GetActivitiesWithoutZones transport;
     env_CountActivitiesWithoutZones := env_CountActivitiesWithoutZones transport |}.

(* ================================================================== *)
(** * internal/sync/sync.go                                             *)
(* ================================================================== *)

Module syncsvc.
Section WithEnv.
Variable env : Env.

Definition SaveProgressCallback : Type := option (Z -> Z -> string -> M unit).
Definition ZoneSyncProgressCallback : Type := option (Z -> Z -> Z -> M unit).

Definition ConvertActivityToParams (a : strava.Activity) : db.CreateActivityParams :=
  {| db.ID := strava.ID a; db.Name := strava.Name a; db.Type_ := strava.Type_ a |}.

Definition CreateActivity (p : db.CreateActivityParams) : M (option error) :=
  call (fun tr => env_CreateActivity env tr p) (EvCreateActivity p).

(** The save loop of [Sync]: the first failure returns. *)
Fixpoint Sync_save (saveProgress : SaveProgressCallback) (total : Z) (i : Z)
    (activities : list strava.Activity) : M (option error) :=
  match activities with
  | [] => ret None
  | activity :: rest =>
      let* res := CreateActivity (ConvertActivityToParams activity) in
      match res with
      | Some err => ret (Some (Wrapped "saving activity" err))
      | None =>
          match saveProgress with
          | Some f => f (i + 1) total (strava.Name activity)
          | None => ret tt
          end >>
          Sync_save saveProgress total (i + 1) rest
      end
  end.

Definition Sync (fuel : nat) (fetchProgress : client.ProgressCallback)
    (saveProgress : SaveProgressCallback) : M (option (option error)) :=
  emit (EvPrint "Fetching activities from Strava...") >>
  let* fetched := client.FetchAllActivities env fuel fetchProgress in
  match fetched with
  | None => ret None
  | Some (_, Some err) => ret (Some (Some (Wrapped "fetching activities" err)))
  | Some (activities, None) =>
      emit (EvPrint "Fetched %d total activities") >>
      emit (EvPrint "Saving activities to database...") >>
      let* res := Sync_save saveProgress (Z.of_nat (length activities)) 0 activities in
      ret (Some res)
  end.

(** The save loop of [SyncDelta]: the first failure returns the number
    of records saved before it. *)
Fixpoint SyncDelta_save (saveProgress : SaveProgressCallback) (total : Z) (i : Z)
    (activities : list strava.Activity) : M (Z * option error) :=
  match activities with
  | [] => ret (total, None)
  | activity :: rest =>
      let* res := CreateActivity (ConvertActivityToParams activity) in
      match res with
      | Some err => ret (i, Some (Wrapped "saving activity" err))
      | None =>
          match saveProgress with
          | Some f => f (i + 1) total (strava.Name activity)
          | None => ret tt
          end >>
          SyncDelta_save saveProgress total (i + 1) rest
      end
  end.

Definition SyncDelta (fuel : nat) (since : gotime.Time) (fetchProgress : client.ProgressCallback)
    (saveProgress : SaveProgressCallback) : M (option (Z * option error)) :=
  let* fetched := client.FetchActivitiesSince env fuel since fetchProgress in
  match fetched with
  | None => ret None
  | Some (_, Some err) => ret (Some (0, Some (Wrapped "fetching activities" err)))
  | Some (activities, None) =>
      if decide (length activities = 0%nat) then ret (Some (0, None))
      else
        let* res := SyncDelta_save saveProgress (Z.of_nat (length activities)) 0 activities in
        ret (Some res)
  end.

(** [ErrPremiumRequired] and [ErrRateLimited] of this package are the
    values of package strava. *)

(** The inner loop of [SyncZonesForActivity] over
    [zone.DistributionBuckets]; [i] is the range index. *)
Fixpoint createBuckets (zoneID : Z) (i : Z) (buckets : list strava.TimedZoneRange)
  : M (option error) :=
  match buckets with
  | [] => ret None
  | bucket :: rest =>
      let p := {| db.ActivityZoneID := zoneID;
                  db.ZoneNumber := i + 1;
                  db.MinValue := strava.Min bucket;
                  db.MaxValue := strava.Max bucket;
                  db.TimeSeconds := float64_to_int64 (strava.Time bucket) |} in
      let* res := call (fun tr => env_CreateZoneBucket env tr p) (EvCreateZoneBucket p) in
      match res with
      | Some err => ret (Some (Wrapped "creating zone bucket" err))
      | None => createBuckets zoneID (i + 1) rest
      end
  end.

(** The outer loop of [SyncZonesForActivity] over the fetched zones. *)
Fixpoint storeZones (activityID : Z) (zones : list strava.ActivityZone) : M (option error) :=
  match zones with
  | [] => ret None
  | zone :: rest =>
      let sensorBased := if strava.SensorBased zone then 1 else 0 in
      let p := {| db.ActivityID := activityID;
                  db.ZoneType := strava.ZoneType zone;
                  db.SensorBased := sensorBased |} in
      let* created := call (fun tr => env_CreateActivityZone env tr p) (EvCreateActivityZone p) in
      match created with
      | inl err => ret (Some (Wrapped "creating activity zone" err))
      | inr zoneID =>
          let* deleted :=
            call (fun tr => env_DeleteZoneBucketsForActivityZone env tr zoneID)
                 (EvDeleteZoneBucketsForActivityZone zoneID) in
          match deleted with
          | Some err => ret (Some (Wrapped "deleting existing zone buckets" err))
          | None =>
              let* res := createBuckets zoneID 0 (strava.DistributionBuckets zone) in
              match res with
              | Some err => ret (Some err)
              | None => storeZones activityID rest
              end
          end
      end
  end.

Definition SyncZonesForActivity (activityID : Z) : M (option error) :=
  let* (zones, err) := client.FetchActivityZones env activityID in
  match err with
  | Some e =>
      if decide (e = ErrPremiumRequired) then ret (Some ErrPremiumRequired)
      else if decide (e = ErrRateLimited) then ret (Some ErrRateLimited)
      else ret (Some (Wrapped "fetching zones" e))
  | None =>
      if decide (length zones = 0%nat) then ret None
      else storeZones activityID zones
  end.

Definition maxConsecutiveRateLimits : Z := 3.

(** The loop of [SyncZones] over the backlog; [i] is the range index,
    [synced] and [consecutiveRateLimits] are the two local counters. *)
Fixpoint SyncZones_loop (progress : ZoneSyncProgressCallback) (total : Z) (i : Z)
    (activityIDs : list Z) (synced consecutiveRateLimits : Z) : M (Z * option error) :=
  match activityIDs with
  | [] => ret (synced, None)
  | id :: rest =>
      match progress with
      | Some f => f (i + 1) total id
      | None => ret tt
      end >>
      let* res := SyncZonesForActivity id in
      match res with
      | Some err =>
          if decide (err = ErrPremiumRequired) then ret (synced, Some ErrPremiumRequired)
          else if decide (err = ErrRateLimited) then
            let consecutiveRateLimits := consecutiveRateLimits + 1 in
            if decide (maxConsecutiveRateLimits <= consecutiveRateLimits) then
              client.log WarnLevel "stopping zone sync batch due to repeated rate limiting"
                [("consecutive_rate_limits", consecutiveRateLimits); ("synced_so_far", synced)] >>
              ret (synced, Some ErrRateLimited)
            else SyncZones_loop progress total (i + 1) rest synced consecutiveRateLimits
          else
            client.log WarnLevel "failed to sync zones" [("activity_id", id)] >>
            SyncZones_loop progress total (i + 1) rest synced 0
      | None =>
          let synced := synced + 1 in
          let* done := client.waitOrDone env (100 * gotime.Millisecond) in
          match done with
          | Some e => ret (synced, Some e)
          | None => SyncZones_loop progress total (i + 1) rest synced 0
          end
      end
  end.

Definition SyncZones (batchSize : Z) (progress : ZoneSyncProgressCallback)
  : M (Z * option error) :=
  let* backlog :=
    call (fun tr => env_GetActivitiesWithoutZones env tr batchSize)
         (EvGetActivitiesWithoutZones batchSize) in
  match backlog with
  | inl err => ret (0, Some (Wrapped "getting activities without zones" err))
  | inr activityIDs =>
      if decide (length activityIDs = 0%nat) then ret (0, None)
      else SyncZones_loop progress (Z.of_nat (length activityIDs)) 0 activityIDs 0 0
  end.

End WithEnv.
End syncsvc.

(* ================================================================== *)
(** * internal/workers/workers.go                                       *)
(* ================================================================== *)

Module workers.
Section WithEnv.
Variable env : Env.

Definition GetValidAccessToken : M (error + string) :=
  call (env_GetValidAccessToken env) EvGetValidAccessToken.

Definition getLatestActivityDate : M (gotime.Time * option error) :=
  let* res := call (fun tr => env_GetRecentActivities env tr 1) (EvGetRecentActivities 1) in
  match res with
  | inl err => ret (gotime.zeroTime, Some err)
  | inr [] => ret (gotime.zeroTime, None)
  | inr (a :: _) =>
      if db.Valid (db.StartDate a) then ret (db.NullTime_Time (db.StartDate a), None)
      else ret (gotime.zeroTime, None)
  end.

(** The progress callback [syncActivities] passes to the client. *)
Definition progressCallback (result : strava.FetchResult) : M unit :=
  let rl := strava.RateLimit result in
  client.log
    (if strava.IsRetrying result || strava.IsRateLimited rl then InfoLevel else DebugLevel)
    "activity sync progress"
    [("page", strava.Page result);
     ("activities_on_page", Z.of_nat (length (strava.Activities result)));
     ("total_fetched", strava.TotalFetched result)].

(** The save loop of [syncActivities]; the result is [saved], and
    whether the loop was left through [ctx.Done()]. *)
Fixpoint saveActivities (fetched : Z) (activities : list strava.Activity) (saved : Z)
  : M (Z * bool) :=
  match activities with
  | [] => ret (saved, false)
  | activity :: rest =>
      let* done := client.ctxErr env in
      match done with
      | Some _ =>
          client.log InfoLevel "sync interrupted" [("fetched", fetched); ("saved", saved)] >>
          ret (saved, true)
      | None =>
          let* res := syncsvc.CreateActivity env (syncsvc.ConvertActivityToParams activity) in
          match res with
          | Some _ =>
              client.log ErrorLevel "failed to save activity" [("activity_id", strava.ID activity)] >>
              saveActivities fetched rest saved
          | None =>
              client.log DebugLevel "saved activity" [("activity_id", strava.ID activity)] >>
              saveActivities fetched rest (saved + 1)
          end
      end
  end.

(** [ActivitySyncer.syncActivities]; [None] when the page loop runs out
    of [fuel]. *)
Definition syncActivities (fuel : nat) : M (option unit) :=
  client.log InfoLevel "starting activity sync" [] >>
  let* token := GetValidAccessToken in
  match token with
  | inl _ => client.log ErrorLevel "failed to get access token for sync" [] >> ret (Some tt)
  | inr _ =>
      client.NewClientWithRetryConfig >>
      let* waited := client.WaitForRateLimit env in
      match waited with
      | Some _ =>
          client.log InfoLevel "activity sync cancelled while waiting for rate limit" [] >>
          ret (Some tt)
      | None =>
          let* (latestDate, err) := getLatestActivityDate in
          match err with
          | Some _ => client.log WarnLevel "failed to get latest activity date, doing full sync" []
          | None => ret tt
          end >>
          let* fetched :=
            if negb (gotime.IsZero latestDate) then
              client.log InfoLevel "performing delta sync" [] >>
              client.FetchActivitiesSince env fuel latestDate (Some progressCallback)
            else
              client.log InfoLevel "performing full sync" [] >>
              client.FetchAllActivities env fuel (Some progressCallback) in
          match fetched with
          | None => ret None
          | Some (_, Some _) =>
              client.log ErrorLevel "failed to fetch activities" [] >> ret (Some tt)
          | Some (activities, None) =>
              if decide (length activities = 0%nat) then
                client.GetRateLimit env >>
                client.log InfoLevel "no new activities to sync" [] >> ret (Some tt)
              else
                let count := Z.of_nat (length activities) in
                client.GetRateLimit env >>
                client.log InfoLevel "fetched activities" [("count", count)] >>
                let* (saved, interrupted) := saveActivities count activities 0 in
                if interrupted then ret (Some tt)
                else
                  client.GetRateLimit env >>
                  client.log InfoLevel "activity sync completed"
                    [("fetched", count); ("saved", saved)] >>
                  ret (Some tt)
          end
      end
  end.

(** The progress callback of [SyncOnce]. *)
Definition initialProgressCallback (result : strava.FetchResult) : M unit :=
  client.log DebugLevel "initial sync progress"
    [("page", strava.Page result); ("total_fetched", strava.TotalFetched result)].

(** The save loop of [SyncOnce]; the result is [saved], and [ctx.Err()]
    when the loop was left through [ctx.Done()]. *)
Fixpoint saveInitial (fetched : Z) (activities : list strava.Activity) (saved : Z)
  : M (Z * option error) :=
  match activities with
  | [] => ret (saved, None)
  | activity :: rest =>
      let* done := client.ctxErr env in
      match done with
      | Some e =>
          client.log InfoLevel "initial sync interrupted" [("fetched", fetched); ("saved", saved)] >>
          ret (saved, Some e)
      | None =>
          let* res := syncsvc.CreateActivity env (syncsvc.ConvertActivityToParams activity) in
          match res with
          | Some _ =>
              client.log ErrorLevel "failed to save activity" [("activity_id", strava.ID activity)] >>
              saveInitial fetched rest saved
          | None => saveInitial fetched rest (saved + 1)
          end
      end
  end.

(** [SyncOnce]; the result is the error returned, [None] when the page
    loop runs out of [fuel]. *)
Definition SyncOnce (fuel : nat) : M (option (option error)) :=
  client.log InfoLevel "performing initial sync" [] >>
  client.NewClientWithRetryConfig >>
  let* recent := call (fun tr => env_GetRecentActivities env tr 1) (EvGetRecentActivities 1) in
  let latestDate :=
    match recent with
    | inr (a :: _) =>
        if db.Valid (db.StartDate a) then db.NullTime_Time (db.StartDate a)
        else gotime.zeroTime
    | _ => gotime.zeroTime
    end in
  let* fetched :=
    if negb (gotime.IsZero latestDate) then
      client.log InfoLevel "performing delta sync" [] >>
      client.FetchActivitiesSince env fuel latestDate (Some initialProgressCallback)
    else
      client.log InfoLevel "performing full sync (no existing activities)" [] >>
      client.FetchAllActivities env fuel (Some initialProgressCallback) in
  match fetched with
  | None => ret None
  | Some (_, Some err) => ret (Some (Some err))
  | Some (fetchedActivities, None) =>
      if decide (length fetchedActivities = 0%nat) then
        client.log InfoLevel "no activities to sync" [] >> ret (Some None)
      else
        let count := Z.of_nat (length fetchedActivities) in
        client.log InfoLevel "saving activities" [("count", count)] >>
        let* (saved, interrupted) := saveInitial count fetchedActivities 0 in
        match interrupted with
        | Some e => ret (Some (Some e))
        | None =>
            client.log InfoLevel "initial sync completed" [("fetched", count); ("saved", saved)] >>
            ret (Some None)
        end
  end.

Record ZoneSyncer : Type := mkZoneSyncer {
  interval : gotime.Duration;
  batchSize : Z;
  premiumRequired : bool
}.

Definition NewZoneSyncer (interval : gotime.Duration) : ZoneSyncer :=
  {| interval := interval; batchSize := 25; premiumRequired := false |}.

Definition setPremiumRequired (z : ZoneSyncer) : ZoneSyncer :=
  {| interval := interval z; batchSize := batchSize z; premiumRequired := true |}.

(** The [for] loop of [syncZonesContinuously], with its three locals.
    Every way out of the loop ends the function, so the result is the
    syncer as the function leaves it; [None] when [fuel] iterations did
    not reach an exit. *)
Fixpoint zoneLoop (fuel : nat) (z : ZoneSyncer) (totalSynced batchNum withoutZones : Z)
  : M (option ZoneSyncer) :=
  match fuel with
  | O => ret None
  | S fuel' =>
      let* rateLimit := client.GetRateLimit env in
      if strava.IsApproachingDailyLimit rateLimit then
        client.log InfoLevel "zone sync stopping - approaching daily rate limit"
          [("usage", strava.UsageDaily rateLimit); ("limit", strava.LimitDaily rateLimit);
           ("total_synced", totalSynced)] >>
        ret (Some z)
      else if strava.IsApproaching15MinLimit rateLimit then
        client.log InfoLevel "zone sync waiting for 15-minute rate limit window to reset"
          [("usage", strava.Usage15Min rateLimit); ("limit", strava.Limit15Min rateLimit);
           ("total_synced", totalSynced)] >>
        let* waited := client.WaitForRateLimit env in
        match waited with
        | Some _ =>
            client.log InfoLevel "zone sync cancelled while waiting for rate limit" [] >>
            ret (Some z)
        | None => zoneLoop fuel' z totalSynced batchNum withoutZones
        end
      else
        let batchNum := batchNum + 1 in
        let* (synced, err) := syncsvc.SyncZones env (batchSize z) None in
        let totalSynced := totalSynced + synced in
        match err with
        | Some e =>
            if decide (e = ErrPremiumRequired) then
              client.log WarnLevel
                "zone sync disabled - Activity Zones API requires Strava Summit (premium) subscription" [] >>
              ret (Some (setPremiumRequired z))
            else if decide (e = ErrRateLimited) then
              client.log InfoLevel "zone sync hit rate limit, waiting for window reset"
                [("total_synced", totalSynced); ("batches", batchNum)] >>
              let* waited := client.WaitForRateLimit env in
              match waited with
              | Some _ =>
                  client.log InfoLevel "zone sync cancelled while waiting for rate limit" [] >>
                  ret (Some z)
              | None => zoneLoop fuel' z totalSynced batchNum withoutZones
              end
            else
              client.log ErrorLevel "zone sync batch failed" [("batch", batchNum)] >>
              ret (Some z)
        | None =>
            let withoutZones := withoutZones - synced in
            client.GetRateLimit env >>
            client.log InfoLevel "zone sync batch completed"
              [("batch", batchNum); ("synced", synced); ("total_synced", totalSynced);
               ("remaining", withoutZones)] >>
            if decide (synced < batchSize z) then ret (Some z)
            else if decide (withoutZones <= 0) then
              client.log InfoLevel "zone sync complete - all activities synced"
                [("total_synced", totalSynced)] >>
              ret (Some z)
            else
              let* done := client.waitOrDone env (500 * gotime.Millisecond) in
              match done with
              | Some _ => ret (Some z)
              | None => zoneLoop fuel' z totalSynced batchNum withoutZones
              end
        end
  end.

Definition syncZonesContinuously (fuel : nat) (z : ZoneSyncer) : M (option ZoneSyncer) :=
  if premiumRequired z then
    client.log DebugLevel "zone sync skipped - Strava Summit subscription required" [] >>
    ret (Some z)
  else
    let* counted :=
      call (env_CountActivitiesWithoutZones env) EvCountActivitiesWithoutZones in
    match counted with
    | inl _ =>
        client.log ErrorLevel "failed to count activities without zones" [] >> ret (Some z)
    | inr withoutZones =>
        if decide (withoutZones = 0) then
          client.log DebugLevel "all activities have zones synced" [] >> ret (Some z)
        else
          client.log InfoLevel "starting zone sync" [("activities_remaining", withoutZones)] >>
          let* token := GetValidAccessToken in
          match token with
          | inl _ =>
              client.log ErrorLevel "failed to get access token for zone sync" [] >>
              ret (Some z)
          | inr _ =>
              client.NewClientWithRetryConfig >>
              zoneLoop fuel z 0 0 withoutZones
          end
    end.

(** The ticker loop of [ZoneSyncer.Run]: each of the [ticks] iterations
    waits for the ticker or the context, and runs a sync on a tick. *)
Fixpoint tickLoop (ticks fuel : nat) (z : ZoneSyncer) : M (option ZoneSyncer) :=
  match ticks with
  | O => ret (Some z)
  | S ticks' =>
      let* done := client.waitOrDone env (interval z) in
      match done with
      | Some _ => client.log InfoLevel "zone syncer stopped" [] >> ret (Some z)
      | None =>
          let* r := syncZonesContinuously fuel z in
          match r with
          | None => ret None
          | Some z' => tickLoop ticks' fuel z'
          end
      end
  end.

(** [ZoneSyncer.Run], observed for [ticks] firings of its ticker. *)
Definition Run (ticks fuel : nat) (z : ZoneSyncer) : M (option ZoneSyncer) :=
  client.log InfoLevel "zone syncer started" [("batch_size", batchSize z)] >>
  let* done := client.waitOrDone env (30 * gotime.Second) in
  match done with
  | Some _ => ret (Some z)
  | None =>
      let* r := syncZonesContinuously fuel z in
      match r with
      | None => ret None
      | Some z' => tickLoop ticks fuel z'
      end
  end.

End WithEnv.
End workers.

(* ================================================================== *)
(** * internal/auth, and the token refresher of internal/workers        *)
(* ================================================================== *)

(** [database/sql]: the sentinel of a query without a row, and the
    nullable column types; a NULL column scans to the zero value with
    [Valid] false. *)
Module sql.

Definition ErrNoRows : error := ErrExternal "sql: no rows in result set".

Record NullString : Type := mkNullString { String_ : string; StringValid : bool }.
Record NullInt64 : Type := mkNullInt64 { Int64 : Z; Int64Valid : bool }.

End sql.

(** The singleton row of table [auth_config] (src/sql/queries.sql), and
    the parameters of [UpdateTokens]. *)
Module authdb.

Record AuthConfig : Type := mkAuthConfig {
  ClientID : string;
  ClientSecret : string;
  AccessToken : sql.NullString;
  RefreshToken : sql.NullString;
  ExpiresAt : sql.NullInt64
}.

Record UpdateTokensParams : Type := mkUpdateTokensParams {
  p_AccessToken : sql.NullString;
  p_RefreshToken : sql.NullString;
  p_ExpiresAt : sql.NullInt64
}.

(** [UPDATE auth_config SET access_token = ?, refresh_token = ?,
    expires_at = ? WHERE id = 1] on the row. *)
Definition updated (p : UpdateTokensParams) (c : AuthConfig) : AuthConfig :=
  {| ClientID := ClientID c;
     ClientSecret := ClientSecret c;
     AccessToken := p_AccessToken p;
     RefreshToken := p_RefreshToken p;
     ExpiresAt := p_ExpiresAt p |}.

End authdb.

Module auth.

(** [TokenResponse]: the three fields that are stored; [ExpiresIn] and
    [TokenType] are carried along and never read. *)
Record TokenResponse : Type := mkTokenResponse {
  AccessToken : string;
  RefreshToken : string;
  ExpiresAt : Z
}.

Record StoredTokens : Type := mkStoredTokens {
  st_AccessToken : string;
  st_RefreshToken : string;
  st_ExpiresAt : Z
}.

Record ClientConfig : Type := mkClientConfig {
  ClientID : string;
  ClientSecret : string
}.

(** The parts of [oauth2.Token] that [TokenFromOAuth2] reads. *)
Record OAuth2Token : Type := mkOAuth2Token {
  tok_AccessToken : string;
  tok_RefreshToken : string;
  tok_Expiry : gotime.Time
}.

(** What the token storage and the refresher do to the outside. *)
Inductive Event : Type :=
| EvGetAuthConfig (res : error + authdb.AuthConfig)
| EvUpdateTokens (p : authdb.UpdateTokensParams) (res : option error)
| EvToken (clientID clientSecret refreshToken : string) (res : error + OAuth2Token)
| EvLog (lvl : Level) (msg : string).

(** The collaborators: the clock, the failure (if any) of the next
    statement sent to the database, and the token endpoint behind
    [oauth2.TokenSource.Token]. *)
Record Env : Type := mkEnv {
  env_Now : list Event -> gotime.Time;
  env_dbError : list Event -> option error;
  env_Token : list Event -> string -> string -> string -> error + OAuth2Token
}.

(** The state: the row of [auth_config] if there is one, and the trace. *)
Record St : Type := mkSt {
  row : option authdb.AuthConfig;
  trace : list Event
}.

Definition M (A : Type) : Type := St -> A * St.

Definition ret {A : Type} (a : A) : M A := fun st => (a, st).

Definition bind {A B : Type} (m : M A) (k : A -> M B) : M B :=
  fun st => let r := m st in k (fst r) (snd r).

Declare Scope auth_scope.
Delimit Scope auth_scope with auth.
Notation "'let*' x := m 'in' k" := (bind m (fun x => k))
  (at level 10, x pattern, m at level 100, k at level 200) : auth_scope.
Notation "m >> k" := (bind m (fun _ => k))
  (at level 100, k at level 200, right associativity) : auth_scope.

Definition emit (e : Event) : M unit :=
  fun st => (tt, mkSt (row st) (trace st ++ [e])).

Section WithEnv.
Variable env : Env.

Definition Now : M gotime.Time := fun st => (env_Now env (trace st), st).

Definition log (lvl : Level) (msg : string) : M unit := emit (EvLog lvl msg).

(** [queries.GetAuthConfig]: [SELECT * FROM auth_config WHERE id = 1]. *)
Definition GetAuthConfig : M (error + authdb.AuthConfig) :=
  fun st =>
    let res :=
      match env_dbError env (trace st) with
      | Some e => inl e
      | None =>
          match row st with
          | None => inl sql.ErrNoRows
          | Some c => inr c
          end
      end in
    (res, mkSt (row st) (trace st ++ [EvGetAuthConfig res])).

(** [queries.UpdateTokens]: an update of the row, if there is one. *)
Definition UpdateTokens (p : authdb.UpdateTokensParams) : M (option error) :=
  fun st =>
    match env_dbError env (trace st) with
    | Some e => (Some e, mkSt (row st) (trace st ++ [EvUpdateTokens p (Some e)]))
    | None =>
        (None, mkSt (option_map (authdb.updated p) (row st))
                    (trace st ++ [EvUpdateTokens p None]))
    end.

Definition SaveTokens (tokens : TokenResponse) : M (option error) :=
  (let* existing := GetAuthConfig in
   match existing with
   | inl err =>
       if decide (err = sql.ErrNoRows)
       then ret (Some (ErrExternal "no client config found: run 'strava-mcp auth login' first"))
       else ret (Some (Wrapped "checking existing config" err))
   | inr _ =>
       UpdateTokens
         {| authdb.p_AccessToken := sql.mkNullString (AccessToken tokens) true;
            authdb.p_RefreshToken := sql.mkNullString (RefreshToken tokens) true;
            authdb.p_ExpiresAt := sql.mkNullInt64 (ExpiresAt tokens) true |}
   end)%auth.

Definition LoadTokens : M (error + StoredTokens) :=
  (let* loaded := GetAuthConfig in
   match loaded with
   | inl err =>
       if decide (err = sql.ErrNoRows)
       then ret (inl (ErrExternal "not authenticated: run 'strava-mcp auth login' first"))
       else ret (inl (Wrapped "loading auth config" err))
   | inr config =>
       if negb (sql.StringValid (authdb.AccessToken config))
       then ret (inl (ErrExternal "not authenticated: run 'strava-mcp auth login' first"))
       else ret (inr {| st_AccessToken := sql.String_ (authdb.AccessToken config);
                        st_RefreshToken := sql.String_ (authdb.RefreshToken config);
                        st_ExpiresAt := sql.Int64 (authdb.ExpiresAt config) |})
   end)%auth.

Definition LoadClientConfig : M (error + ClientConfig) :=
  (let* loaded := GetAuthConfig in
   match loaded with
   | inl err =>
       if decide (err = sql.ErrNoRows)
       then ret (inl (ErrExternal "client not configured: run 'strava-mcp auth login' first"))
       else ret (inl (Wrapped "loading auth config" err))
   | inr config =>
       ret (inr {| ClientID := authdb.ClientID config;
                   ClientSecret := authdb.ClientSecret config |})
   end)%auth.

Definition TokenFromOAuth2 (token : OAuth2Token) : TokenResponse :=
  {| AccessToken := tok_AccessToken token;
     RefreshToken := tok_RefreshToken token;
     ExpiresAt := gotime.unixSec (tok_Expiry token) |}.

Definition RefreshAccessToken (clientID clientSecret refreshToken : string)
  : M (error + TokenResponse) :=
  fun st =>
    let res := env_Token env (trace st) clientID clientSecret refreshToken in
    (match res with
     | inl err => inl (Wrapped "token refresh failed" err)
     | inr newToken => inr (TokenFromOAuth2 newToken)
     end,
     mkSt (row st) (trace st ++ [EvToken clientID clientSecret refreshToken res])).

(** [IsTokenExpired]: less than five minutes are left. *)
Definition IsTokenExpired (expiresAt : Z) : M bool :=
  (let* now := Now in
   ret (bool_decide (goint.wrap (expiresAt - 300) < gotime.unixSec now)))%auth.

Definition GetValidAccessToken : M (error + string) :=
  (let* loaded := LoadTokens in
   match loaded with
   | inl err => ret (inl err)
   | inr tokens =>
       let* expired := IsTokenExpired (st_ExpiresAt tokens) in
       if negb expired then ret (inr (st_AccessToken tokens))
       else
         let* loadedConfig := LoadClientConfig in
         match loadedConfig with
         | inl err => ret (inl (Wrapped "loading client config for refresh" err))
         | inr config =>
             let* refreshed :=
               RefreshAccessToken (ClientID config) (ClientSecret config)
                 (st_RefreshToken tokens) in
             match refreshed with
             | inl err => ret (inl (Wrapped "refreshing token" err))
             | inr newTokens =>
                 let* saved := SaveTokens newTokens in
                 match saved with
                 | Some err => ret (inl (Wrapped "saving refreshed tokens" err))
                 | None => ret (inr (AccessToken newTokens))
                 end
             end
         end
   end)%auth.

(** [unixToInternal] of package time: the seconds from January 1 of
    year 1, where the seconds of a [time.Time] count from, to the Unix
    epoch. *)
Definition unixToInternal : Z := 62135596800.

(** The seconds a [time.Time] holds for a Unix time: [time.Unix] adds
    [unixToInternal] in [int64] arithmetic, so a Unix time within
    [unixToInternal] of the largest [int64] comes out as a time before
    year 1. *)
Definition internalSec (unix : Z) : Z := goint.wrap (unix + unixToInternal).

(** [time.Until(time.Unix(sec, 0))] at the clock reading [now]:
    [Time.Sub] on the seconds the two times hold, the difference in
    nanoseconds cut to the range of [time.Duration]. *)
Definition untilUnix (sec : Z) (now : gotime.Time) : gotime.Duration :=
  let d := (internalSec sec - internalSec (gotime.unixSec now)) * gotime.Second
           - gotime.nsec now in
  if decide (d < goint.MinInt64) then goint.MinInt64
  else if decide (goint.MaxInt64 < d) then goint.MaxInt64
  else d.

(** [TokenRefresher.checkAndRefresh] of internal/workers. *)
Definition checkAndRefresh : M unit :=
  (log DebugLevel "checking token validity" >>
   let* loaded := LoadTokens in
   match loaded with
   | inl _ => log ErrorLevel "failed to load tokens for refresh check"
   | inr tokens =>
       let* now := Now in
       let timeUntilExpiry := untilUnix (st_ExpiresAt tokens) now in
       if decide (timeUntilExpiry < 10 * gotime.Minute) then
         log InfoLevel "token expiring soon, refreshing" >>
         let* loadedConfig := LoadClientConfig in
         match loadedConfig with
         | inl _ => log ErrorLevel "failed to load client config for refresh"
         | inr clientConfig =>
             let* refreshed :=
               RefreshAccessToken (ClientID clientConfig) (ClientSecret clientConfig)
                 (st_RefreshToken tokens) in
             match refreshed with
             | inl _ => log ErrorLevel "failed to refresh token"
             | inr newTokens =>
                 let* saved := SaveTokens newTokens in
                 match saved with
                 | Some _ => log ErrorLevel "failed to save refreshed tokens"
                 | None => log InfoLevel "token refreshed successfully"
                 end
             end
         end
       else log DebugLevel "token still valid"
   end)%auth.

End WithEnv.
End auth.

(* ================================================================== *)
(** * Vocabulary of the properties                                      *)
(* ================================================================== *)

(** A header value part that holds no comma. *)
Fixpoint comma_free (s : string) : bool :=
  match s with
  | EmptyString => true
  | String c s' => negb (bool_decide (c = ","%char)) && comma_free s'
  end.

(** A quota-pair header as a response carries it: absent ([None], read
    as the empty string), or [shortWindowValue,dailyValue]. *)
Definition pair_header (o : option (string * string)) : string :=
  match o with
  | None => EmptyString
  | Some (a, b) => a +:+ String ","%char b
  end.

Definition pair_well_formed (o : option (string * string)) : Prop :=
  match o with
  | None => True
  | Some (a, b) => comma_free a = true ∧ comma_free b = true
  end.

(** The two numbers of a quota pair; an absent pair counts as zero, and
    so does a value that is not a number. *)
Definition pair_values (o : option (string * string)) : Z * Z :=
  match o with
  | None => (0, 0)
  | Some (a, b) => (fst (strconv.Atoi a), fst (strconv.Atoi b))
  end.

(** The limit of the specification, in its words: the minimum of the two
    sources' limits, a zero being no limit known. *)
Definition spec_limit (a b : Z) : Z :=
  if decide (a = 0) then b else if decide (b = 0) then a else Z.min a b.

(** The limit with every value that is not positive taken as no limit
    known: the minimum of the two when both are positive, the positive
    one when one is, the second source's value when none is. *)
Definition known_limit (a b : Z) : Z :=
  if decide (0 < a ∧ 0 < b) then Z.min a b
  else if decide (0 < a) then a
  else b.

(** The requests a trace holds, each with the answer it got. *)
Definition requests (evs : list Event) : list (Request * (error + http.Response)) :=
  omap (fun e => match e with EvDo req out => Some (req, out) | _ => None end) evs.

(** An answer with the given status code. *)
Definition answered (code : Z) (r : Request * (error + http.Response)) : bool :=
  match snd r with
  | inr resp => bool_decide (http.StatusCode resp = code)
  | inl _ => false
  end.

(** The progress callback of the client's tests: it records the result
    it is called with. *)
Definition recordProgress : client.ProgressCallback :=
  Some (fun r => emit (EvFetchProgress r)).

(** What a page loop shows to the outside: the page requests, and the
    page number, items and running total of each progress call. *)
Inductive PageObs : Type :=
| ObsRequest (page : Z) (after : option Z)
| ObsProgress (page : Z) (items : list strava.Activity) (total : Z).

Definition observe_page (e : Event) : option PageObs :=
  match e with
  | EvDo (GetActivities page after) _ => Some (ObsRequest page after)
  | EvFetchProgress r =>
      Some (ObsProgress (strava.Page r) (strava.Activities r) (strava.TotalFetched r))
  | _ => None
  end.

Definition is_progress (e : Event) : bool :=
  match e with EvFetchProgress _ => true | _ => false end.

(** The items page [p] (counted from 1) of a sequence of page results
    holds; past the end of the sequence a page is empty. *)
Definition page_items (pages : list (list strava.Activity)) (p : Z) : list strava.Activity :=
  nth (Z.to_nat (p - 1)) pages [].

(** A server that answers the request for page [p] with status 200 and
    a body that decodes to the items of page [p]. *)
Definition serves (env : Env) (pages : list (list strava.Activity)) : Prop :=
  ∀ (tr : list Event) (p : Z) (after : option Z), 1 <= p →
    ∃ resp, env_Do env tr (GetActivities p after) = inr resp ∧
            http.StatusCode resp = http.StatusOK ∧
            env_decodeActivities env (http.Body resp) = inr (page_items pages p).

(** The pages before the first empty one. *)
Fixpoint leading (pages : list (list strava.Activity)) : list (list strava.Activity) :=
  match pages with
  | [] => []
  | [] :: _ => []
  | items :: rest => items :: leading rest
  end.

(** What a full sync shows for the pages [l], all of them non-empty,
    followed by an empty page: request and progress call alternate, page
    numbers count up from [p], the total accumulates from [total]. *)
Fixpoint expected_obs (p : Z) (total : Z) (l : list (list strava.Activity)) : list PageObs :=
  match l with
  | [] => [ObsRequest p None; ObsProgress p [] total]
  | items :: l' =>
      ObsRequest p None :: ObsProgress p items (total + Z.of_nat (length items))
        :: expected_obs (p + 1) (total + Z.of_nat (length items)) l'
  end.

(** ** Concrete environments for the examples *)

Definition epoch_10h : gotime.Time := gotime.mkTime 36000 0 0.

(** An environment with a fixed clock, a context that is never
    cancelled, a database that accepts every statement and holds the
    given backlog, and the given HTTP server and JSON decoders. *)
Definition quiet_env
    (server : list Event -> Request -> error + http.Response)
    (decodeActivities : string -> error + list strava.Activity)
    (decodeZones : string -> error + list strava.ActivityZone)
    (backlog : list Event -> list Z) : Env :=
  {| env_Now := fun _ => epoch_10h;
     env_ctxErr := fun _ => None;
     env_Do := server;
     env_decodeActivities := decodeActivities;
     env_decodeZones := decodeZones;
     env_GetValidAccessToken := fun _ => inr "token";
     env_CreateActivity := fun _ _ => None;
     env_GetRecentActivities := fun _ _ => inr [];
     env_CreateActivityZone := fun _ _ => inr 7;
     env_DeleteZoneBucketsForActivityZone := fun _ _ => None;
     env_CreateZoneBucket := fun _ _ => None;
     env_GetActivitiesWithoutZones := fun tr _ => inr (backlog tr);
     env_CountActivitiesWithoutZones := fun tr => inr (Z.of_nat (length (backlog tr))) |}.

Definition st0 : St := mkSt [] strava.RateLimitInfo_zero.

(** The server of [TestFetchAllActivities]: two activities on page 1,
    one on page 2, none after. The body names the page. *)
Definition run1 : strava.Activity := strava.mkActivity 1 "Morning Run" "Run".
Definition ride2 : strava.Activity := strava.mkActivity 2 "Evening Ride" "Ride".
Definition swim3 : strava.Activity := strava.mkActivity 3 "Swim" "Swim".

Definition three_pages : list (list strava.Activity) := [[run1; ride2]; [swim3]; []].

Definition paged_env : Env :=
  quiet_env
    (fun _ req =>
       match req with
       | GetActivities page _ =>
           inr (http.mkResponse 200 (<["X-Ratelimit-Limit" := ["100,1000"]]>
                                       (<["X-Ratelimit-Usage" := ["5,50"]]> ∅))
                  (if decide (page = 1) then "page1"
                   else if decide (page = 2) then "page2" else "none"))
       | GetActivityZones _ => inr (http.mkResponse 404 ∅ "")
       end)
    (fun body =>
       if decide (body = "page1") then inr [run1; ride2]
       else if decide (body = "page2") then inr [swim3] else inr [])
    (fun _ => inr [])
    (fun _ => []).

(** A server that answers every request with 404. *)
Definition not_found_env : Env :=
  quiet_env (fun _ _ => inr (http.mkResponse 404 ∅ "")) (fun _ => inr []) (fun _ => inr [])
    (fun _ => []).

(** [env] with another [CreateActivity]. *)
Definition with_CreateActivity (env : Env)
    (f : list Event -> db.CreateActivityParams -> option error) : Env :=
  {| env_Now := env_Now env;
     env_ctxErr := env_ctxErr env;
     env_Do := env_Do env;
     env_decodeActivities := env_decodeActivities env;
     env_decodeZones := env_decodeZones env;
     env_GetValidAccessToken := env_GetValidAccessToken env;
     env_CreateActivity := f;
     env_GetRecentActivities := env_GetRecentActivities env;
     env_CreateActivityZone := env_CreateActivityZone env;
     env_DeleteZoneBucketsForActivityZone := env_DeleteZoneBucketsForActivityZone env;
     env_CreateZoneBucket := env_CreateZoneBucket env;
     env_GetActivitiesWithoutZones := env_GetActivitiesWithoutZones env;
     env_CountActivitiesWithoutZones := env_CountActivitiesWithoutZones env |}.

Definition disk_error : error := ErrExternal "disk I/O error".

(** The three-page server with a database that refuses the record with
    the given identity and accepts the others. *)
Definition refusing_env (id : Z) : Env :=
  with_CreateActivity paged_env
    (fun _ p => if decide (db.ID p = id) then Some disk_error else None).

(** What the save loop of the worker leaves in the trace for one record:
    the insert and a debug line when it succeeds, the insert and an
    error line naming the record when it fails. *)
Definition saved_block (a : strava.Activity) : list Event :=
  [EvCreateActivity (syncsvc.ConvertActivityToParams a) None;
   EvLog DebugLevel "saved activity" [("activity_id", strava.ID a)]].

Definition failed_block (a : strava.Activity) (e : error) : list Event :=
  [EvCreateActivity (syncsvc.ConvertActivityToParams a) (Some e);
   EvLog ErrorLevel "failed to save activity" [("activity_id", strava.ID a)]].

(** [save_blocks activities evs n]: the trace [evs] holds one block per
    record of [activities], in order, [n] of them successful. *)
Inductive save_blocks : list strava.Activity → list Event → Z → Prop :=
| save_blocks_nil : save_blocks [] [] 0
| save_blocks_saved (a : strava.Activity) (rest : list strava.Activity)
    (evs : list Event) (n : Z) :
    save_blocks rest evs n → save_blocks (a :: rest) (saved_block a ++ evs) (n + 1)
| save_blocks_failed (a : strava.Activity) (e : error) (rest : list strava.Activity)
    (evs : list Event) (n : Z) :
    save_blocks rest evs n → save_blocks (a :: rest) (failed_block a e ++ evs) n.

(** The records a trace tried to persist, with the outcome of each. *)
Definition persist_attempts (evs : list Event) : list (Z * option error) :=
  omap (fun e => match e with
                 | EvCreateActivity p res => Some (db.ID p, res)
                 | _ => None
                 end) evs.

(** ** Stored zone rows *)

(** The rational number a [float64] that is zero or finite stands for:
    sign, mantissa [m] and exponent [e] give [± m * 2^e]. *)
Definition float_value (f : spec_float) : Q :=
  match f with
  | S754_finite s m e =>
      let n := if s then Z.neg m else Z.pos m in
      if decide (0 <= e) then inject_Z (n * 2 ^ e) else Qmake n (Z.to_pos (2 ^ (- e)))
  | _ => inject_Z 0
  end.

Definition finite (f : spec_float) : bool :=
  match f with
  | S754_zero _ | S754_finite _ _ _ => true
  | _ => false
  end.

(** Rounding toward zero: down for a positive number, up for a negative one. *)
Definition Qtoward_zero (q : Q) : Z :=
  if decide (0 <= Qnum q) then Qfloor q else Qceiling q.

(** A duration in seconds cut to whole seconds. *)
Definition whole_seconds (f : spec_float) : Z := Qtoward_zero (float_value f).

(** A float a JSON number decodes to, whose whole seconds fit [int64]. *)
Definition fits_int64 (f : spec_float) : Prop :=
  finite f = true ∧ goint.MinInt64 <= whole_seconds f <= goint.MaxInt64.

(** The row the specification expects for the bucket at 0-based
    position [i] of a zone stored under [zoneID]. *)
Definition bucket_row (zoneID : Z) (i : nat) (b : strava.TimedZoneRange)
  : db.CreateZoneBucketParams :=
  {| db.ActivityZoneID := zoneID;
     db.ZoneNumber := Z.of_nat i + 1;
     db.MinValue := strava.Min b;
     db.MaxValue := strava.Max b;
     db.TimeSeconds := whole_seconds (strava.Time b) |}.

Definition zone_rows (zoneID : Z) (zone : strava.ActivityZone)
  : list db.CreateZoneBucketParams :=
  imap (bucket_row zoneID) (strava.DistributionBuckets zone).



(** A server with zone data for every activity: one heart-rate zone of
    three buckets, with times 12.9 s, -3.7 s and 61 s (as [float64]:
    mantissa and exponent of the nearest double). *)
Definition hr_zone : strava.ActivityZone :=
  strava.mkActivityZone "heartrate" true
    [strava.mkTimedZoneRange 0 120 (S754_finite false 7262054399134925 (-49));
     strava.mkTimedZoneRange 120 150 (S754_finite true 8331659310635418 (-51));
     strava.mkTimedZoneRange 150 (-1) (S754_finite false 8584986789675008 (-47))].

Definition zones_env : Env :=
  quiet_env (fun _ _ => inr (http.mkResponse 200 ∅ "zones")) (fun _ => inr [])
    (fun _ => inr [hr_zone]) (fun _ => [42]).



(** What [FetchActivityZones] returns for a response, by its status. *)
Definition zones_result (env : Env) (resp : http.Response)
  : list strava.ActivityZone * option error :=
  let code := http.StatusCode resp in
  if decide (code = http.StatusPaymentRequired) then ([], Some ErrPremiumRequired)
  else if decide (code = http.StatusTooManyRequests) then ([], Some ErrRateLimited)
  else if decide (code = http.StatusNotFound) then ([], None)
  else if decide (code ≠ http.StatusOK) then ([], Some (ErrUnexpectedStatus code))
  else match env_decodeZones env (http.Body resp) with
       | inl err => ([], Some (Wrapped "decoding response" err))
       | inr zones => (zones, None)
       end.

(** ** Enrichment runs *)

(** Whether a trace holds a request answered with the given status. *)
Definition saw (code : Z) (evs : list Event) : bool :=
  existsb (answered code) (requests evs).

(** The errors a context reports are its own two. *)
Definition ctx_errors_only (env : Env) : Prop :=
  ∀ tr e, env_ctxErr env tr = Some e → e = ContextCanceled ∨ e = ContextDeadlineExceeded.

Definition zone_sync_disabled : Event :=
  EvLog WarnLevel
    "zone sync disabled - Activity Zones API requires Strava Summit (premium) subscription" [].

Definition too_many_requests : http.Response := http.mkResponse 429 ∅ "".
Definition payment_required : http.Response := http.mkResponse 402 ∅ "".

(** A server that answers every request with 429, and a database with
    the given backlog of activities without zones. *)
Definition rate_limited_env (backlog : list Z) : Env :=
  quiet_env (fun _ _ => inr too_many_requests) (fun _ => inr []) (fun _ => inr [])
    (fun _ => backlog).

(** A server that has zone data for activity 1 and answers 402 for every
    other activity, with a backlog of three activities. *)
Definition premium_env : Env :=
  quiet_env
    (fun _ req =>
       match req with
       | GetActivityZones 1 => inr (http.mkResponse 200 ∅ "zones")
       | _ => inr payment_required
       end)
    (fun _ => inr []) (fun _ => inr [hr_zone]) (fun _ => [1; 2; 3]).

(** The warning that ends a batch, and the pause after a synced item. *)
Definition breaker_log (consecutive synced : Z) : Event :=
  EvLog WarnLevel "stopping zone sync batch due to repeated rate limiting"
    [("consecutive_rate_limits", consecutive); ("synced_so_far", synced)].

Definition pacing_wait : Event := EvWait (100 * gotime.Millisecond).



(** ** Proof plumbing *)

(** Unfolds the plumbing of the state monad and the one-line calls to
    the collaborators, leaving the loops and the environment in place. *)
Ltac mred :=
  cbv [bind ret emit call getRateLimit setRateLimit
       client.log client.ctxErr client.Now client.Do client.waitOrDone
       client.NewClientWithRetryConfig client.runProgress
       syncsvc.CreateActivity workers.GetValidAccessToken];
  cbn [fst snd trace rateLimit].

(** ** Page servers *)

(** The cursor a page request carries for the [after] given to the loop. *)
Definition cursor (after : Z) : option Z := if decide (0 < after) then Some after else None.

(** The page requests for the [n] pages from [p] on. *)
Definition page_requests (p : Z) (after : Z) (n : nat) : list Request :=
  map (fun i => GetActivities (p + Z.of_nat i) (cursor after)) (seq 0 n).

(** A server that answers the request for page [p], whatever happened
    before and whatever the cursor, with status 200 and a body that
    decodes to [items]. *)
Definition answers_page (env : Env) (p : Z) (items : list strava.Activity) : Prop :=
  ∀ (tr : list Event) (after : option Z),
    ∃ resp, env_Do env tr (GetActivities p after) = inr resp ∧
            http.StatusCode resp = http.StatusOK ∧
            env_decodeActivities env (http.Body resp) = inr items.

(** The ways a page request fails, with the error [fetchActivitiesPage]
    returns for each. *)
Inductive page_failure (env : Env) : error + http.Response → error → Prop :=
| failure_transport (err : error) :
    page_failure env (inl err) (Wrapped "executing request" err)
| failure_rate_limited (resp : http.Response) :
    http.StatusCode resp = http.StatusTooManyRequests →
    page_failure env (inr resp) ErrRateLimited
| failure_status (resp : http.Response) :
    http.StatusCode resp ≠ http.StatusTooManyRequests →
    http.StatusCode resp ≠ http.StatusOK →
    page_failure env (inr resp) (ErrUnexpectedStatus (http.StatusCode resp))
| failure_decode (resp : http.Response) (err : error) :
    http.StatusCode resp = http.StatusOK →
    env_decodeActivities env (http.Body resp) = inl err →
    page_failure env (inr resp) (Wrapped "decoding response" err).

(** A server whose answer to the request for page [p] always fails with
    the error [e]. *)
Definition fails_page (env : Env) (p : Z) (e : error) : Prop :=
  ∀ (tr : list Event) (after : option Z), page_failure env (env_Do env tr (GetActivities p after)) e.

Definition is_request (e : Event) : bool :=
  match e with EvDo _ _ => true | _ => false end.

Definition is_log (e : Event) : bool :=
  match e with EvLog _ _ _ => true | _ => false end.

(** The three-page server with a page 3 that answers 500. *)
Definition broken_env : Env :=
  quiet_env
    (fun _ req =>
       match req with
       | GetActivities page _ =>
           if decide (page = 1) then inr (http.mkResponse 200 ∅ "page1")
           else if decide (page = 2) then inr (http.mkResponse 200 ∅ "page2")
           else inr (http.mkResponse 500 ∅ "")
       | GetActivityZones _ => inr (http.mkResponse 404 ∅ "")
       end)
    (fun body =>
       if decide (body = "page1") then inr [run1; ride2]
       else if decide (body = "page2") then inr [swim3] else inr [])
    (fun _ => inr [])
    (fun _ => []).


(** ** Saved records *)

(** The save callback of the tests: it records what it is called with. *)
Definition recordSave : syncsvc.SaveProgressCallback :=
  Some (fun current total name => emit (EvSaveProgress current total name)).

(** The calls of the save callback a trace holds. *)
Definition save_calls (evs : list Event) : list (Z * Z * string) :=
  omap (fun e => match e with
                 | EvSaveProgress current total name => Some (current, total, name)
                 | _ => None
                 end) evs.

(** A persist attempt that succeeded, and the attempt on [a] when it does. *)
Definition succeeded (attempt : Z * option error) : bool :=
  match snd attempt with None => true | Some _ => false end.

Definition saved_ok (a : strava.Activity) : Z * option error := (strava.ID a, None).

(** The call of the save callback after the record at 0-based position
    [j] of [total] was saved. *)
Definition save_call (total : Z) (j : nat) (a : strava.Activity) : Z * Z * string :=
  (Z.of_nat j + 1, total, strava.Name a).


(** ** Zone statements *)

(** The zone row [SyncZonesForActivity] creates for a zone of an activity. *)
Definition zone_params (activityID : Z) (zone : strava.ActivityZone) : db.CreateActivityZoneParams :=
  {| db.ActivityID := activityID;
     db.ZoneType := strava.ZoneType zone;
     db.SensorBased := if strava.SensorBased zone then 1 else 0 |}.

(** Successful inserts of bucket rows. *)
Definition bucket_inserts (rows : list db.CreateZoneBucketParams) : list Event :=
  map (fun row => EvCreateZoneBucket row None) rows.

(** What storing one zone leaves in the trace when every statement
    succeeds: the zone row, for which the database hands out [zoneID],
    the delete of the buckets stored under that identity, and one insert
    per bucket. *)
Definition zone_block (activityID zoneID : Z) (zone : strava.ActivityZone) : list Event :=
  EvCreateActivityZone (zone_params activityID zone) (inr zoneID)
    :: EvDeleteZoneBucketsForActivityZone zoneID None
    :: bucket_inserts (zone_rows zoneID zone).

(** What storing one zone leaves in the trace when a statement fails,
    with the error returned: the failing statement is the last one. *)
Inductive zone_failure (activityID : Z) (zone : strava.ActivityZone)
  : list Event → error → Prop :=
| zone_failure_create (e : error) :
    zone_failure activityID zone
      [EvCreateActivityZone (zone_params activityID zone) (inl e)]
      (Wrapped "creating activity zone" e)
| zone_failure_delete (zoneID : Z) (e : error) :
    zone_failure activityID zone
      [EvCreateActivityZone (zone_params activityID zone) (inr zoneID);
       EvDeleteZoneBucketsForActivityZone zoneID (Some e)]
      (Wrapped "deleting existing zone buckets" e)
| zone_failure_bucket (zoneID : Z) (k : nat) (b : strava.TimedZoneRange) (e : error) :
    strava.DistributionBuckets zone !! k = Some b →
    zone_failure activityID zone
      (EvCreateActivityZone (zone_params activityID zone) (inr zoneID)
         :: EvDeleteZoneBucketsForActivityZone zoneID None
         :: bucket_inserts (take k (zone_rows zoneID zone))
         ++ [EvCreateZoneBucket (bucket_row zoneID k b) (Some e)])
      (Wrapped "creating zone bucket" e).

(** A statement on the zone tables. *)
Definition is_zone_write (e : Event) : bool :=
  match e with
  | EvCreateActivityZone _ _ | EvDeleteZoneBucketsForActivityZone _ _ | EvCreateZoneBucket _ _ => true
  | _ => false
  end.

(** The server of [zones_env] with a database that refuses the third
    bucket of a zone. *)
Definition bucket_refusing_env : Env :=
  {| env_Now := env_Now zones_env;
     env_ctxErr := env_ctxErr zones_env;
     env_Do := env_Do zones_env;
     env_decodeActivities := env_decodeActivities zones_env;
     env_decodeZones := env_decodeZones zones_env;
     env_GetValidAccessToken := env_GetValidAccessToken zones_env;
     env_CreateActivity := env_CreateActivity zones_env;
     env_GetRecentActivities := env_GetRecentActivities zones_env;
     env_CreateActivityZone := env_CreateActivityZone zones_env;
     env_DeleteZoneBucketsForActivityZone := env_DeleteZoneBucketsForActivityZone zones_env;
     env_CreateZoneBucket :=
       fun _ p => if decide (db.ZoneNumber p = 3) then Some disk_error else None;
     env_GetActivitiesWithoutZones := env_GetActivitiesWithoutZones zones_env;
     env_CountActivitiesWithoutZones := env_CountActivitiesWithoutZones zones_env |}.

(** A server that has no zone data for any activity (404), and a
    database with the given backlog. *)
Definition no_zone_data_env (backlog : list Z) : Env :=
  quiet_env (fun _ _ => inr (http.mkResponse 404 ∅ "")) (fun _ => inr []) (fun _ => inr [])
    (fun _ => backlog).

(** What a run of the zone syncer from [st] may come to, for a syncer
    [z]: out of fuel, the syncer unchanged, or the syncer disabled after
    a request answered 402. *)
Definition enabled_outcome (z : workers.ZoneSyncer) (st : St)
    (r : option workers.ZoneSyncer * St) : Prop :=
  ∃ new,
    trace (snd r) = trace st ++ new ∧
    (fst r = None ∨ fst r = Some z ∨
     (fst r = Some (workers.setPremiumRequired z) ∧ saw 402 new = true)).


(** ** Token storage *)

(** Whether a trace of the token storage holds a call of the token
    endpoint. *)
Definition called_token_endpoint (evs : list auth.Event) : bool :=
  existsb (fun e => match e with auth.EvToken _ _ _ _ => true | _ => false end) evs.

(** The events a run of the token storage appended. *)
Definition new_auth_events (st st' : auth.St) : list auth.Event :=
  drop (length (auth.trace st)) (auth.trace st').

(** A token endpoint that always answers with the same token, a
    database that never fails, and a fixed clock. *)
Definition fresh_token : auth.OAuth2Token :=
  auth.mkOAuth2Token "new-access" "new-refresh" (gotime.mkTime 1700021600 0 0).

Definition token_env (now : gotime.Time) : auth.Env :=
  {| auth.env_Now := fun _ => now;
     auth.env_dbError := fun _ => None;
     auth.env_Token := fun _ _ _ _ => inr fresh_token |}.

(** A stored configuration whose token expires at the given Unix time. *)
Definition stored_config (expiresAt : Z) : authdb.AuthConfig :=
  authdb.mkAuthConfig "client" "secret" (sql.mkNullString "old-access" true)
    (sql.mkNullString "old-refresh" true) (sql.mkNullInt64 expiresAt true).

(** Unfolds the plumbing of the token storage's state monad. *)
Ltac amred :=
  cbv [auth.bind auth.ret auth.emit auth.log auth.Now auth.GetAuthConfig auth.UpdateTokens
       auth.RefreshAccessToken auth.IsTokenExpired];
  cbn [fst snd auth.row auth.trace auth.st_AccessToken auth.st_RefreshToken auth.st_ExpiresAt
       auth.ClientID auth.ClientSecret auth.AccessToken auth.RefreshToken auth.ExpiresAt].


(** ** The retrying client *)

(** The log lines of the two hooks of client.go. *)
Definition request_hook_events (traceEnabled : bool) (retry : Z) : list Event :=
  (if decide (0 < retry)
   then [EvLog InfoLevel "retrying request" [("attempt", goint.wrap (retry + 1))]]
   else [])
  ++ (if traceEnabled then [EvLog DebugLevel "request headers" []] else []).

Definition response_hook_events (traceEnabled : bool) (resp : http.Response) : list Event :=
  (if traceEnabled
   then [EvLog DebugLevel "response headers" [("status", http.StatusCode resp)]]
   else [])
  ++ (if decide (http.StatusCode resp = http.StatusTooManyRequests)
      then [EvLog WarnLevel "rate limited by API" [("status", http.StatusCode resp)]]
      else []).



(** The lines logged once a round trip is over: by the library for a
    failed one, by the response hook for an answered one. *)
Definition outcome_events (traceEnabled : bool) (out : error + http.Response) : list Event :=
  match out with
  | inl _ => [EvLog ErrorLevel "request failed" []]
  | inr resp => response_hook_events traceEnabled resp
  end.

(** The verdict of the retry policy on an outcome. *)
Definition verdict (ctxErr : option error) (out : error + http.Response)
  : bool * option error :=
  default (false, None)
    (strava.CheckRetry ctxErr (retryablehttp.response out) (retryablehttp.failure out)).


(** The round trips behind the trace [evs] of a caller that started
    after [seen]: for each logical request the trace holds, in order,
    the requests of the run of [retryablehttp.Do] that answered it. *)
Fixpoint round_trips (transport : Env) (baseURL : string) (traceEnabled : bool)
    (cfg : strava.RetryConfig) (seen evs : list Event)
  : list (Request * (error + http.Response)) :=
  match evs with
  | [] => []
  | e :: evs' =>
      match e with
      | EvDo req _ =>
          let st := mkSt seen strava.RateLimitInfo_zero in
          requests (new_events st
                      (snd (retryablehttp.Do transport baseURL traceEnabled cfg req st)))
      | _ => []
      end ++ round_trips transport baseURL traceEnabled cfg (seen ++ [e]) evs'
  end.

(** What the policy said when the loop was left by a [break]. *)
Definition policy_said (ended : retryablehttp.Ended) : Prop :=
  match ended with
  | retryablehttp.Broke out shouldRetry checkErr _ =>
      ∃ ctxErr, verdict ctxErr out = (shouldRetry, checkErr)
  | retryablehttp.Cancelled _ => True
  end.

(** The error [Do] returns for the enrichment request of an activity
    after six attempts with the default settings:
    "GET https://www.strava.com/api/v3/activities/ID/zones giving up
    after 6 attempt(s)". *)
Definition gave_up (id : Z) : error + http.Response :=
  inl (ErrExternal (retryablehttp.givingUp strava.baseURL (GetActivityZones id) 6)).

(* ================================================================== *)
(** * Properties of the quota tracker and the retry policy              *)
(* ================================================================== *)

Section RetryPolicy.

(** C1. The retry classification of the client, case by case and in the
    order the policy tests them: a cancelled context stops retrying and
    returns the context's error whatever the response; otherwise a
    transport error is retried; otherwise 402 and 404 are not retried,
    429 is, every status from 500 up is, and any other status is not. *)
Theorem CheckRetry_classification :
  (∀ e resp err, strava.CheckRetry (Some e) resp err = Some (false, Some e)) ∧
  (∀ e resp, strava.CheckRetry None resp (Some e) = Some (true, None)) ∧
  (∀ hdr body,
     strava.CheckRetry None (Some (http.mkResponse http.StatusPaymentRequired hdr body)) None
     = Some (false, None)) ∧
  (∀ hdr body,
     strava.CheckRetry None (Some (http.mkResponse http.StatusNotFound hdr body)) None
     = Some (false, None)) ∧
  (∀ hdr body,
     strava.CheckRetry None (Some (http.mkResponse http.StatusTooManyRequests hdr body)) None
     = Some (true, None)) ∧
  (∀ code hdr body, 500 <= code →
     strava.CheckRetry None (Some (http.mkResponse code hdr body)) None = Some (true, None)) ∧
  (∀ code hdr body, code < 500 → code ≠ http.StatusTooManyRequests →
     strava.CheckRetry None (Some (http.mkResponse code hdr body)) None = Some (false, None)).
Proof.
  unfold strava.CheckRetry, http.StatusPaymentRequired, http.StatusNotFound,
    http.StatusTooManyRequests.
  repeat split; intros; simpl; try reflexivity.
  - repeat case_decide; first [ reflexivity | lia ].
  - repeat case_decide; first [ reflexivity | lia | congruence ].
Qed.

(** The classification at a cancelled request answered 503, a refused
    connection, and the statuses 402, 404, 429, 503 and 200. *)
Lemma CheckRetry_classification_witness :
  strava.CheckRetry (Some ContextCanceled) (Some (http.mkResponse 503 ∅ "")) None
    = Some (false, Some ContextCanceled) ∧
  strava.CheckRetry None None (Some (ErrExternal "connection refused")) = Some (true, None) ∧
  strava.CheckRetry None (Some (http.mkResponse 402 ∅ "")) None = Some (false, None) ∧
  strava.CheckRetry None (Some (http.mkResponse 404 ∅ "")) None = Some (false, None) ∧
  strava.CheckRetry None (Some (http.mkResponse 429 ∅ "")) None = Some (true, None) ∧
  strava.CheckRetry None (Some (http.mkResponse 503 ∅ "")) None = Some (true, None) ∧
  strava.CheckRetry None (Some (http.mkResponse 200 ∅ "")) None = Some (false, None).
Proof.
  destruct CheckRetry_classification as (Hctx & Herr & H402 & H404 & H429 & H5xx & Hother).
  split; [ apply Hctx | ].
  split; [ apply Herr | ].
  split; [ apply H402 | ].
  split; [ apply H404 | ].
  split; [ apply H429 | ].
  split; [ apply H5xx; lia | ].
  apply Hother; [ lia | unfold http.StatusTooManyRequests; lia ].
Defined.

End RetryPolicy.

Section ShortWindow.

Lemma second_range (t : gotime.Time) : 0 <= gotime.Time_Second t < 60.
Proof. unfold gotime.Time_Second. apply Z.mod_pos_bound. lia. Qed.

Lemma wait_at_minute_0 (t : gotime.Time) :
  gotime.Time_Minute t = 0 →
  strava.timeUntilNext15MinWindow t
  = 902 * gotime.Second - gotime.Time_Second t * gotime.Second - gotime.nsec t.
Proof.
  intros Hm. unfold strava.timeUntilNext15MinWindow. rewrite Hm.
  change (Z.quot 0 15) with 0. simpl.
  unfold gotime.Time_Nanosecond, gotime.Minute, gotime.Second, gotime.Nanosecond. lia.
Qed.

Lemma wait_at_minute_59 (t : gotime.Time) :
  gotime.Time_Minute t = 59 →
  strava.timeUntilNext15MinWindow t
  = 62 * gotime.Second - gotime.Time_Second t * gotime.Second - gotime.nsec t.
Proof.
  intros Hm. unfold strava.timeUntilNext15MinWindow. rewrite Hm.
  change (Z.quot 59 15) with 3. simpl.
  unfold gotime.Time_Nanosecond, gotime.Minute, gotime.Second, gotime.Nanosecond. lia.
Qed.

(** C8, as the code has it. At minute 0 of an hour the wait until the
    next short-window reset is between 14 and 16 minutes. At minute 59
    it is more than 2 seconds and at most 62 seconds, and it reaches 30
    seconds exactly when at most 32 seconds of that minute have gone. *)
Theorem short_window_wait_bounds (t : gotime.Time) :
  gotime.wf t →
  (gotime.Time_Minute t = 0 →
     14 * gotime.Minute <= strava.timeUntilNext15MinWindow t <= 16 * gotime.Minute) ∧
  (gotime.Time_Minute t = 59 →
     2 * gotime.Second < strava.timeUntilNext15MinWindow t <= 62 * gotime.Second ∧
     (30 * gotime.Second <= strava.timeUntilNext15MinWindow t ↔
      gotime.Time_Second t * gotime.Second + gotime.nsec t <= 32 * gotime.Second)).
Proof.
  intros Hwf. pose proof (second_range t) as Hs. unfold gotime.wf in Hwf.
  split; intros Hm.
  - rewrite (wait_at_minute_0 t Hm). unfold gotime.Minute, gotime.Second. lia.
  - rewrite (wait_at_minute_59 t Hm). unfold gotime.Second. lia.
Qed.

(** 10:00:00 UTC on the first day of the epoch: fifteen minutes and two
    seconds to wait. *)
Lemma short_window_wait_bounds_witness :
  gotime.wf (gotime.mkTime 36000 0 0) ∧
  gotime.Time_Minute (gotime.mkTime 36000 0 0) = 0 ∧
  14 * gotime.Minute <= strava.timeUntilNext15MinWindow (gotime.mkTime 36000 0 0)
    <= 16 * gotime.Minute.
Proof.
  assert (Hwf : gotime.wf (gotime.mkTime 36000 0 0)) by (unfold gotime.wf; simpl; lia).
  split; [ exact Hwf | split; [ reflexivity | ] ].
  apply (proj1 (short_window_wait_bounds (gotime.mkTime 36000 0 0) Hwf)). reflexivity.
Defined.

(** C8 as stated fails at 10:59:45: the minute of the hour is 59 and the
    wait is 17 seconds, less than the 30 seconds claimed. *)
Lemma short_window_wait_minute_59_counterexample :
  gotime.wf (gotime.mkTime 39585 0 0) ∧
  gotime.Time_Minute (gotime.mkTime 39585 0 0) = 59 ∧
  strava.timeUntilNext15MinWindow (gotime.mkTime 39585 0 0) = 17 * gotime.Second ∧
  17 * gotime.Second < 30 * gotime.Second.
Proof.
  split; [ unfold gotime.wf; simpl; lia | ].
  split; [ reflexivity | split; [ reflexivity | reflexivity ] ].
Qed.

End ShortWindow.

Section QuotaHeaders.

Lemma Split_comma_free (s : string) :
  comma_free s = true → gostrings.Split s ","%char = [s].
Proof.
  induction s as [|c s IH]; [ reflexivity | ].
  cbn [comma_free gostrings.Split]. intros H. apply andb_prop in H as [Hc Hs].
  apply negb_true_iff, bool_decide_eq_false in Hc.
  case_decide; [ contradiction | ].
  rewrite (IH Hs). reflexivity.
Qed.

Lemma Split_pair (a b : string) :
  comma_free a = true → comma_free b = true →
  gostrings.Split (a +:+ String ","%char b) ","%char = [a; b].
Proof.
  intros Ha Hb. induction a as [|c a IH].
  - change (EmptyString +:+ String ","%char b) with (String ","%char b).
    cbn [gostrings.Split]. case_decide; [ | contradiction ].
    rewrite (Split_comma_free b Hb). reflexivity.
  - change (String c a +:+ String ","%char b) with (String c (a +:+ String ","%char b)).
    cbn [gostrings.Split]. cbn [comma_free] in Ha. apply andb_prop in Ha as [Hc Ha].
    apply negb_true_iff, bool_decide_eq_false in Hc.
    case_decide; [ contradiction | ].
    rewrite (IH Ha). reflexivity.
Qed.

Lemma parsePair_pair_header (o : option (string * string)) :
  pair_well_formed o → strava.parsePair (pair_header o) = pair_values o.
Proof.
  destruct o as [[a b]|]; simpl; [ | reflexivity ].
  intros [Ha Hb]. unfold strava.parsePair.
  case_decide as Hempty; [ destruct a; discriminate Hempty | ].
  rewrite (Split_pair a b Ha Hb). reflexivity.
Qed.

Lemma recommend_keeps (info : strava.RateLimitInfo) :
  strava.Limit15Min (strava.recommend info) = strava.Limit15Min info ∧
  strava.LimitDaily (strava.recommend info) = strava.LimitDaily info ∧
  strava.Usage15Min (strava.recommend info) = strava.Usage15Min info ∧
  strava.UsageDaily (strava.recommend info) = strava.UsageDaily info.
Proof.
  unfold strava.recommend.
  repeat case_decide; repeat (destruct (strava.IsApproaching15MinLimit _));
    repeat (destruct (strava.IsApproachingDailyLimit _)); simpl; auto.
Qed.

Lemma minPositive_spec_limit (a b : Z) :
  0 <= a → 0 <= b → strava.minPositive a b = spec_limit a b.
Proof.
  intros Ha Hb. unfold strava.minPositive, spec_limit.
  repeat case_decide; lia.
Qed.

Lemma minPositive_known_limit (a b : Z) : strava.minPositive a b = known_limit a b.
Proof. unfold strava.minPositive, known_limit. repeat case_decide; lia. Qed.

Lemma known_limit_spec_limit (a b : Z) :
  0 <= a → 0 <= b → known_limit a b = spec_limit a b.
Proof. intros Ha Hb. unfold known_limit, spec_limit. repeat case_decide; lia. Qed.

(** C3, as the code has it. For two quota-pair sources, general and
    read-specific, each absent or of the form
    [shortWindowValue,dailyValue]: each window's limit is the minimum of
    the two sources' limits, a zero, absent or negative limit being
    ignored as no limit known (the read-specific value is kept when
    neither is positive), and each window's usage is the maximum of the
    two sources' usages. Where no limit is negative this is the limit of
    the specification: the minimum with zero and absent values ignored. *)
Theorem quota_pairs_min_limit_max_usage
    (h : http.Header) (now : gotime.Time) (gl gu rl ru : option (string * string)) :
  http.Get h "X-RateLimit-Limit" = pair_header gl →
  http.Get h "X-RateLimit-Usage" = pair_header gu →
  http.Get h "X-ReadRateLimit-Limit" = pair_header rl →
  http.Get h "X-ReadRateLimit-Usage" = pair_header ru →
  pair_well_formed gl → pair_well_formed gu →
  pair_well_formed rl → pair_well_formed ru →
  let info := strava.parseRateLimitHeaders h now in
  strava.Limit15Min info = known_limit (fst (pair_values gl)) (fst (pair_values rl)) ∧
  strava.LimitDaily info = known_limit (snd (pair_values gl)) (snd (pair_values rl)) ∧
  strava.Usage15Min info = Z.max (fst (pair_values gu)) (fst (pair_values ru)) ∧
  strava.UsageDaily info = Z.max (snd (pair_values gu)) (snd (pair_values ru)) ∧
  (0 <= fst (pair_values gl) → 0 <= fst (pair_values rl) →
   strava.Limit15Min info = spec_limit (fst (pair_values gl)) (fst (pair_values rl))) ∧
  (0 <= snd (pair_values gl) → 0 <= snd (pair_values rl) →
   strava.LimitDaily info = spec_limit (snd (pair_values gl)) (snd (pair_values rl))).
Proof.
  intros Hgl Hgu Hrl Hru Wgl Wgu Wrl Wru info. subst info.
  unfold strava.parseRateLimitHeaders.
  rewrite Hgl, Hgu, Hrl, Hru.
  rewrite !parsePair_pair_header by assumption.
  destruct (pair_values gl) as [gl15 gld], (pair_values gu) as [gu15 gud],
    (pair_values rl) as [rl15 rld], (pair_values ru) as [ru15 rud].
  cbn [fst snd].
  match goal with |- context [strava.recommend ?i] =>
    destruct (recommend_keeps i) as (E1 & E2 & E3 & E4) end.
  rewrite E1, E2, E3, E4. cbn [strava.Limit15Min strava.LimitDaily strava.Usage15Min strava.UsageDaily].
  rewrite !minPositive_known_limit.
  repeat split; try reflexivity; intros; apply known_limit_spec_limit; assumption.
Qed.

(** The headers of a response with general limits 200,2000 and usage
    5,50 and read limits 100,1000 and usage 96,40: the limits kept are
    the read limits, the usages the larger ones. *)
Lemma quota_pairs_min_limit_max_usage_witness :
  let h : http.Header :=
    <["X-Ratelimit-Limit" := ["200,2000"]]>
      (<["X-Ratelimit-Usage" := ["5,50"]]>
        (<["X-Readratelimit-Limit" := ["100,1000"]]>
          (<["X-Readratelimit-Usage" := ["96,40"]]> ∅))) in
  let info := strava.parseRateLimitHeaders h (gotime.mkTime 36000 0 0) in
  strava.Limit15Min info = 100 ∧ strava.LimitDaily info = 1000 ∧
  strava.Usage15Min info = 96 ∧ strava.UsageDaily info = 50.
Proof.
  intros h info.
  destruct (quota_pairs_min_limit_max_usage h (gotime.mkTime 36000 0 0)
              (Some ("200", "2000")) (Some ("5", "50"))
              (Some ("100", "1000")) (Some ("96", "40"))
              eq_refl eq_refl eq_refl eq_refl
              (conj eq_refl eq_refl) (conj eq_refl eq_refl)
              (conj eq_refl eq_refl) (conj eq_refl eq_refl))
    as (H15 & Hd & Hu15 & Hud & _).
  split; [ exact H15 | split; [ exact Hd | split; [ exact Hu15 | exact Hud ] ] ].
Defined.

(** C3 as stated fails for a negative limit: with general limits
    -5,-50 and read limits 100,1000 the limits kept are 100 and 1000,
    where the minimum of the two sources' limits, zero and absent values
    ignored, is -5 and -50. *)
Lemma negative_limit_is_ignored_counterexample :
  let h : http.Header :=
    <["X-Ratelimit-Limit" := ["-5,-50"]]>
      (<["X-Ratelimit-Usage" := ["5,50"]]>
        (<["X-Readratelimit-Limit" := ["100,1000"]]>
          (<["X-Readratelimit-Usage" := ["96,40"]]> ∅))) in
  let info := strava.parseRateLimitHeaders h (gotime.mkTime 36000 0 0) in
  pair_values (Some ("-5", "-50")) = (-5, -50) ∧
  pair_values (Some ("100", "1000")) = (100, 1000) ∧
  strava.Limit15Min info = 100 ∧ spec_limit (-5) 100 = -5 ∧
  strava.LimitDaily info = 1000 ∧ spec_limit (-50) 1000 = -50.
Proof. vm_compute. repeat split; reflexivity. Qed.

End QuotaHeaders.

(* ================================================================== *)
(** * Properties of the page loop                                       *)
(* ================================================================== *)

Section Traces.

Lemma new_events_app (st st' : St) (new : list Event) :
  trace st' = trace st ++ new → new_events st st' = new.
Proof.
  unfold new_events. intros ->. apply drop_app_length.
Qed.

Lemma new_events_refl (st : St) : new_events st st = [].
Proof. apply new_events_app. symmetry. apply app_nil_r. Qed.

Lemma omap_step {A B : Type} (f : A → option B) (x : A) (l : list A) :
  omap f (x :: l) = match f x with Some y => y :: omap f l | None => omap f l end.
Proof. reflexivity. Qed.

End Traces.

Section PageLoop.
Variable env : Env.

Lemma fetchActivitiesPage_ok (st : St) (page : Z) (resp : http.Response)
    (items : list strava.Activity) :
  env_Do env (trace st) (GetActivities page None) = inr resp →
  http.StatusCode resp = http.StatusOK →
  env_decodeActivities env (http.Body resp) = inr items →
  ∃ rl, client.fetchActivitiesPage env page 0 st
        = ((items, rl, None),
           mkSt (trace st ++ [EvDo (GetActivities page None) (inr resp)]) rl).
Proof.
  intros HDo Hcode Hdec.
  unfold client.fetchActivitiesPage, client.Do, call, bind. simpl.
  rewrite HDo. simpl. rewrite Hcode, Hdec. simpl.
  eexists. reflexivity.
Qed.

Lemma page_items_past (done : list (list strava.Activity)) :
  page_items done (1 + Z.of_nat (length done)) = [].
Proof.
  unfold page_items. replace (Z.to_nat (1 + Z.of_nat (length done) - 1)) with (length done) by lia.
  apply nth_overflow. lia.
Qed.

Lemma page_items_next (done rest : list (list strava.Activity)) (items : list strava.Activity) :
  page_items (done ++ items :: rest) (1 + Z.of_nat (length done)) = items.
Proof.
  unfold page_items. replace (Z.to_nat (1 + Z.of_nat (length done) - 1)) with (length done) by lia.
  rewrite app_nth2 by lia. rewrite Nat.sub_diag. reflexivity.
Qed.

(** The last iteration: the page is empty, the callback is called, the
    loop ends with what was accumulated. *)
Lemma fetchLoop_empty_page (fuel : nat) (all : list strava.Activity) (p : Z) (st : St)
    (pages : list (list strava.Activity)) :
  serves env pages → 1 <= p → page_items pages p = [] →
  ∃ st' new,
    client.fetchLoop env (S fuel) 0 recordProgress all p st = (Some (all, None), st') ∧
    trace st' = trace st ++ new ∧
    omap observe_page new = expected_obs p (Z.of_nat (length all)) [] ∧
    length (List.filter is_progress new) = 1%nat.
Proof.
  intros Hsrv Hp Hitems.
  destruct (Hsrv (trace st) p None Hp) as (resp & HDo & Hcode & Hdec).
  rewrite Hitems in Hdec.
  destruct (fetchActivitiesPage_ok st p resp [] HDo Hcode Hdec) as (rl & Hpage).
  cbn [client.fetchLoop]. unfold bind at 1. rewrite Hpage. simpl.
  eexists _, [_; _]. split; [ reflexivity | ]. simpl.
  split; [ rewrite <- app_assoc; reflexivity | ].
  split; [ | reflexivity ].
  rewrite Z.add_0_r. reflexivity.
Qed.

Lemma fetchLoop_leading (rest : list (list strava.Activity)) :
  ∀ (done : list (list strava.Activity)) (all : list strava.Activity) (st : St) (fuel : nat),
  serves env (done ++ rest) → (length (leading rest) < fuel)%nat →
  ∃ st' new,
    client.fetchLoop env fuel 0 recordProgress all (1 + Z.of_nat (length done)) st
    = (Some (all ++ concat (leading rest), None), st') ∧
    trace st' = trace st ++ new ∧
    omap observe_page new
    = expected_obs (1 + Z.of_nat (length done)) (Z.of_nat (length all)) (leading rest) ∧
    length (List.filter is_progress new) = S (length (leading rest)).
Proof.
  induction rest as [|items rest IH]; intros done all st fuel Hsrv Hfuel.
  - destruct fuel as [|fuel]; [ simpl in Hfuel; lia | ].
    simpl. rewrite app_nil_r.
    apply (fetchLoop_empty_page fuel all _ st (done ++ [])); [ exact Hsrv | lia | ].
    rewrite app_nil_r. apply page_items_past.
  - destruct items as [|a items].
    + destruct fuel as [|fuel]; [ simpl in Hfuel; lia | ].
      simpl. rewrite app_nil_r.
      apply (fetchLoop_empty_page fuel all _ st (done ++ [] :: rest)); [ exact Hsrv | lia | ].
      apply page_items_next.
    + cbn [leading] in Hfuel |- *. cbn [length] in Hfuel.
      destruct fuel as [|fuel]; [ lia | ].
      assert (Hp : 1 <= 1 + Z.of_nat (length done)) by lia.
      destruct (Hsrv (trace st) _ None Hp) as (resp & HDo & Hcode & Hdec).
      rewrite page_items_next in Hdec.
      destruct (fetchActivitiesPage_ok st _ resp _ HDo Hcode Hdec) as (rl & Hpage).
      assert (Hsrv' : serves env ((done ++ [a :: items]) ++ rest))
        by (rewrite <- app_assoc; exact Hsrv).
      assert (Hfuel' : (length (leading rest) < fuel)%nat) by lia.
      set (st1 := mkSt ((trace st ++ [EvDo (GetActivities (1 + Z.of_nat (length done)) None) (inr resp)])
                        ++ [EvFetchProgress
                              {| strava.Activities := a :: items;
                                 strava.RateLimit := rl;
                                 strava.Page := 1 + Z.of_nat (length done);
                                 strava.TotalFetched :=
                                   Z.of_nat (length all) + Z.of_nat (length (a :: items));
                                 strava.Error := None;
                                 strava.RetryCount := 0;
                                 strava.IsRetrying := false |}]) rl).
      destruct (IH (done ++ [a :: items]) (all ++ a :: items) st1 fuel Hsrv' Hfuel')
        as (st' & new & Hrun & Htr & Hobs & Hcount).
      exists st'. eexists (_ :: _ :: new).
      split; [ | split; [ | split ] ].
      * cbn [client.fetchLoop]. unfold bind at 1. rewrite Hpage.
        cbn [fst snd]. unfold bind at 1. cbn [recordProgress client.runProgress].
        unfold emit at 1. cbn [fst snd trace rateLimit].
        rewrite decide_False by (simpl; lia).
        replace (1 + Z.of_nat (length done) + 1)
          with (1 + Z.of_nat (length (done ++ [a :: items])))
          by (rewrite length_app; simpl; lia).
        fold st1. rewrite Hrun. cbn [concat]. rewrite app_assoc. reflexivity.
      * rewrite Htr. unfold st1. cbn [trace]. rewrite <- !app_assoc. reflexivity.
      * rewrite !omap_step.
        cbn [observe_page expected_obs strava.Page strava.Activities strava.TotalFetched].
        rewrite Hobs. rewrite !length_app. cbn [length].
        replace (1 + Z.of_nat (length done + 1)) with (1 + Z.of_nat (length done) + 1) by lia.
        replace (Z.of_nat (length all + S (length items)))
          with (Z.of_nat (length all) + Z.of_nat (S (length items))) by lia.
        reflexivity.
      * cbn [List.filter is_progress length]. rewrite Hcount. reflexivity.
Qed.

End PageLoop.

Section FullSync.

(** C2. Against a server that holds any sequence of page results, a full
    sync with enough iterations allowed returns the items of the pages
    before the first empty one, in order and with no error; it asks for
    the pages 1, 2, ... one after the other, stops at the first empty
    page, and calls the progress callback once after each page, the
    empty one included, with the page number, the page's items and the
    running total. *)
Theorem full_sync_pagination (env : Env) (pages : list (list strava.Activity))
    (st : St) (fuel : nat) :
  serves env pages → (length (leading pages) < fuel)%nat →
  let r := client.FetchAllActivities env fuel recordProgress st in
  fst r = Some (concat (leading pages), None) ∧
  omap observe_page (new_events st (snd r)) = expected_obs 1 0 (leading pages) ∧
  length (List.filter is_progress (new_events st (snd r))) = S (length (leading pages)).
Proof.
  intros Hsrv Hfuel r. subst r. unfold client.FetchAllActivities.
  destruct (fetchLoop_leading env pages [] [] st fuel Hsrv Hfuel)
    as (st' & new & Hrun & Htr & Hobs & Hcount).
  change (1 + Z.of_nat (length (@nil (list strava.Activity)))) with 1 in Hrun, Hobs.
  rewrite Hrun. cbn [fst snd].
  rewrite (new_events_app st st' new Htr).
  split; [ reflexivity | ]. split; [ exact Hobs | exact Hcount ].
Qed.

Lemma paged_env_serves : serves paged_env three_pages.
Proof.
  intros tr p after Hp. simpl.
  eexists. split; [ reflexivity | ]. split; [ reflexivity | ].
  unfold page_items, three_pages. simpl.
  destruct (decide (p = 1)) as [->|H1]; [ reflexivity | ].
  destruct (decide (p = 2)) as [->|H2]; [ reflexivity | ].
  simpl.
  destruct (Z.to_nat (p - 1)) as [|[|[|n]]] eqn:E;
    first [ lia | reflexivity | destruct n; reflexivity ].
Qed.

(** The scenario of the specification: page 1 returns 2 items, page 2
    returns 1 item, page 3 returns none. The sync returns the 3 items
    and the callback is called exactly 3 times. *)
Lemma full_sync_pagination_witness :
  let r := client.FetchAllActivities paged_env 5 recordProgress st0 in
  fst r = Some ([run1; ride2; swim3], None) ∧
  omap observe_page (new_events st0 (snd r))
  = [ObsRequest 1 None; ObsProgress 1 [run1; ride2] 2;
     ObsRequest 2 None; ObsProgress 2 [swim3] 3;
     ObsRequest 3 None; ObsProgress 3 [] 3] ∧
  length (List.filter is_progress (new_events st0 (snd r))) = 3%nat.
Proof.
  apply (full_sync_pagination paged_env three_pages st0 5 paged_env_serves).
  simpl. lia.
Defined.

End FullSync.

(* ================================================================== *)
(** * Properties of the handling of 404 and of persistence failures     *)
(* ================================================================== *)

Section NotFound.
Variable env : Env.

Lemma updateRateLimit_trace (resp : http.Response) (st : St) :
  trace (snd (client.updateRateLimit env resp st)) = trace st.
Proof. reflexivity. Qed.

(** C9, as the code has it. A 404 answer to the per-record enrichment
    fetch is no data: the result is empty and the error nil. A 404 answer
    to a page fetch, with or without a cursor, reaches the caller as the
    error "unexpected status code: 404" with no items, and a full sync
    or a delta sync that meets it on its first page returns that error. *)
Theorem not_found_is_no_data_for_zones_only (st : St) (resp : http.Response) :
  http.StatusCode resp = http.StatusNotFound →
  (∀ id, env_Do env (trace st) (GetActivityZones id) = inr resp →
     fst (client.FetchActivityZones env id st) = ([], None)) ∧
  (∀ page after, env_Do env (trace st) (GetActivities page (cursor after)) = inr resp →
     ∃ rl, fst (client.fetchActivitiesPage env page after st)
           = ([], rl, Some (ErrUnexpectedStatus 404))) ∧
  (∀ fuel progress, env_Do env (trace st) (GetActivities 1 None) = inr resp →
     fst (client.FetchAllActivities env (S fuel) progress st)
     = Some ([], Some (ErrUnexpectedStatus 404))) ∧
  (∀ fuel since progress,
     env_Do env (trace st) (GetActivities 1 (cursor (gotime.unixSec since))) = inr resp →
     fst (client.FetchActivitiesSince env (S fuel) since progress st)
     = Some ([], Some (ErrUnexpectedStatus 404))).
Proof.
  intros Hcode.
  assert (Hpage : ∀ page after,
            env_Do env (trace st) (GetActivities page (cursor after)) = inr resp →
            ∃ rl st', client.fetchActivitiesPage env page after st
                      = (([], rl, Some (ErrUnexpectedStatus 404)), st')).
  { intros page after HDo. unfold cursor in HDo.
    unfold client.fetchActivitiesPage, client.Do, call, bind. simpl.
    rewrite HDo. simpl. rewrite Hcode. simpl. eexists _, _. reflexivity. }
  split; [ | split; [ | split ] ].
  - intros id HDo. unfold client.FetchActivityZones, client.Do, call, bind. simpl.
    rewrite HDo. simpl. rewrite Hcode. reflexivity.
  - intros page after HDo. destruct (Hpage page after HDo) as (rl & st' & ->).
    eexists. reflexivity.
  - intros fuel progress HDo. destruct (Hpage 1 0 HDo) as (rl & st' & Hrun).
    unfold client.FetchAllActivities. cbn [client.fetchLoop].
    unfold bind at 1. rewrite Hrun. reflexivity.
  - intros fuel since progress HDo.
    destruct (Hpage 1 (gotime.unixSec since) HDo) as (rl & st' & Hrun).
    unfold client.FetchActivitiesSince. cbn [client.fetchLoop].
    unfold bind at 1. rewrite Hrun. reflexivity.
Qed.

End NotFound.

Section NotFoundExamples.

(** Activity 42 has no zone data: the fetch returns nothing and no
    error. The delta sync since 10:00 on January 1, 1970 against the
    same server returns the error of its first page. *)
Lemma not_found_is_no_data_for_zones_only_witness :
  fst (client.FetchActivityZones not_found_env 42 st0) = ([], None) ∧
  fst (client.FetchActivitiesSince not_found_env 3 epoch_10h recordProgress st0)
  = Some ([], Some (ErrUnexpectedStatus 404)).
Proof.
  destruct (not_found_is_no_data_for_zones_only not_found_env st0
              (http.mkResponse 404 ∅ "") eq_refl) as (Hzones & _ & _ & Hsince).
  split; [ apply Hzones; reflexivity | apply Hsince; reflexivity ].
Defined.

(** C9 as stated fails for the page fetch: against a server that
    answers 404 the full sync returns an error, not an empty result with
    a nil error. *)
Lemma not_found_page_fetch_counterexample :
  fst (client.FetchAllActivities not_found_env 3 None st0)
  = Some ([], Some (ErrUnexpectedStatus 404)).
Proof. vm_compute. reflexivity. Qed.

End NotFoundExamples.

Section Persistence.
Variable env : Env.
Hypothesis ctx_alive : ∀ tr, env_ctxErr env tr = None.

Lemma save_blocks_attempts (activities : list strava.Activity) (evs : list Event) (n : Z) :
  save_blocks activities evs n →
  map fst (persist_attempts evs) = map strava.ID activities.
Proof.
  induction 1 as [|a rest evs n _ IH|a e rest evs n _ IH]; [ reflexivity | | ];
    unfold persist_attempts, saved_block, failed_block in IH |- *;
    cbn [app]; rewrite !omap_step; cbn [map fst]; rewrite IH; reflexivity.
Qed.

Lemma saveActivities_blocks (activities : list strava.Activity) :
  ∀ (fetched saved : Z) (st : St),
  ∃ n st' new,
    workers.saveActivities env fetched activities saved st = ((saved + n, false), st') ∧
    trace st' = trace st ++ new ∧ save_blocks activities new n.
Proof.
  induction activities as [|a rest IH]; intros fetched saved st.
  - exists 0, st, []. simpl. unfold ret. rewrite Z.add_0_r, app_nil_r.
    split; [ reflexivity | split; [ reflexivity | constructor ] ].
  - cbn [workers.saveActivities]. mred. rewrite ctx_alive.
    destruct (env_CreateActivity env (trace st) (syncsvc.ConvertActivityToParams a)) as [e|] eqn:Hres.
    + match goal with |- context [workers.saveActivities env fetched rest saved ?s] =>
        destruct (IH fetched saved s) as (n & st' & new & Hrun & Htr & Hblocks) end.
      exists n, st', (failed_block a e ++ new).
      split; [ exact Hrun | split; [ | constructor; exact Hblocks ] ].
      rewrite Htr. cbn [trace]. unfold failed_block. rewrite <- !app_assoc. reflexivity.
    + match goal with |- context [workers.saveActivities env fetched rest (saved + 1) ?s] =>
        destruct (IH fetched (saved + 1) s) as (n & st' & new & Hrun & Htr & Hblocks) end.
      exists (n + 1), st', (saved_block a ++ new).
      split; [ rewrite Hrun; do 2 f_equal; lia | split; [ | constructor; exact Hblocks ] ].
      rewrite Htr. cbn [trace]. unfold saved_block. rewrite <- !app_assoc. reflexivity.
Qed.

(** C6, as the code has it. In the save loop of the replication worker
    ([ActivitySyncer.syncActivities]), while the context is alive, every
    fetched record is tried once, in order; a record whose insert fails
    is logged with its identity and skipped, and the loop goes on with
    the records after it; the count saved is the number of successful
    inserts. In [Service.Sync] the first failing insert ends the loop:
    the error is returned and the records after it are not tried. *)
Theorem persistence_failure_handling :
  (∀ (fetched : Z) (activities : list strava.Activity) (saved : Z) (st : St),
     let r := workers.saveActivities env fetched activities saved st in
     ∃ n, fst r = (saved + n, false) ∧
          save_blocks activities (new_events st (snd r)) n ∧
          map fst (persist_attempts (new_events st (snd r))) = map strava.ID activities) ∧
  (∀ (saveProgress : syncsvc.SaveProgressCallback) (total i : Z) (a : strava.Activity)
     (rest : list strava.Activity) (st : St) (e : error),
     env_CreateActivity env (trace st) (syncsvc.ConvertActivityToParams a) = Some e →
     syncsvc.Sync_save env saveProgress total i (a :: rest) st
     = (Some (Wrapped "saving activity" e),
        mkSt (trace st ++ [EvCreateActivity (syncsvc.ConvertActivityToParams a) (Some e)])
             (rateLimit st))).
Proof.
  split.
  - intros fetched activities saved st r. subst r.
    destruct (saveActivities_blocks activities fetched saved st)
      as (n & st' & new & Hrun & Htr & Hblocks).
    rewrite Hrun. cbn [fst snd]. rewrite (new_events_app st st' new Htr).
    exists n. split; [ reflexivity | split; [ exact Hblocks | ] ].
    apply (save_blocks_attempts activities new n Hblocks).
  - intros saveProgress total i a rest st e Hres.
    cbn [syncsvc.Sync_save]. mred. rewrite Hres. reflexivity.
Qed.

End Persistence.

Section PersistenceExamples.

(** The worker's loop over three fetched records when the database
    refuses the second: the first and third are saved, the second is
    logged and skipped. *)
Lemma persistence_failure_handling_witness :
  let r := workers.saveActivities (refusing_env 2) 3 [run1; ride2; swim3] 0 st0 in
  ∃ n, fst r = (0 + n, false) ∧
       save_blocks [run1; ride2; swim3] (new_events st0 (snd r)) n ∧
       map fst (persist_attempts (new_events st0 (snd r))) = map strava.ID [run1; ride2; swim3].
Proof.
  exact (proj1 (persistence_failure_handling (refusing_env 2) (fun _ => eq_refl))
           3 [run1; ride2; swim3] 0 st0).
Defined.

(** C6 as stated fails for [Service.Sync]: with three fetched records
    and a database that refuses the first, the sync returns the error
    and records 2 and 3 are never tried. *)
Lemma sync_aborts_on_first_failure_counterexample :
  let r := syncsvc.Sync (refusing_env 1) 5 None None st0 in
  fst r = Some (Some (Wrapped "saving activity" disk_error)) ∧
  persist_attempts (trace (snd r)) = [(1, Some disk_error)].
Proof. vm_compute. split; reflexivity. Qed.

End PersistenceExamples.

(* ================================================================== *)
(** * Properties of the stored enrichment                               *)
(* ================================================================== *)

Section WholeSeconds.

Lemma whole_seconds_finite (s : bool) (m : positive) (e : Z) :
  whole_seconds (S754_finite s m e)
  = let mag := if decide (0 <= e) then Z.pos m * 2 ^ e else Z.pos m / 2 ^ (- e) in
    if s then - mag else mag.
Proof.
  unfold whole_seconds, float_value, Qtoward_zero. cbv zeta.
  destruct (decide (0 <= e)) as [He|He].
  - assert (0 < 2 ^ e) by (apply Z.pow_pos_nonneg; lia).
    destruct s; cbn [Qnum inject_Z].
    + rewrite decide_False by nia. rewrite Qceiling_Z. lia.
    + rewrite decide_True by nia. rewrite Qfloor_Z. reflexivity.
  - assert (Hpow : 0 < 2 ^ (- e)) by (apply Z.pow_pos_nonneg; lia).
    destruct s; cbn [Qnum].
    + rewrite decide_False by lia.
      unfold Qceiling, Qfloor, Qopp. cbn [Qnum Qden Z.opp].
      rewrite Z2Pos.id by exact Hpow. reflexivity.
    + rewrite decide_True by lia.
      unfold Qfloor. rewrite Z2Pos.id by exact Hpow. reflexivity.
Qed.

(** The conversion [int64(bucket.Time)] cuts a representable value to
    whole seconds, toward zero. *)
Lemma float64_to_int64_whole_seconds (f : spec_float) :
  fits_int64 f → float64_to_int64 f = whole_seconds f.
Proof.
  intros [Hfin Hrange]. destruct f as [s| | |s m e]; try discriminate Hfin.
  - reflexivity.
  - rewrite whole_seconds_finite in Hrange |- *. unfold float64_to_int64.
    cbv zeta in Hrange |- *. rewrite decide_True by exact Hrange. reflexivity.
Qed.

End WholeSeconds.

Section ZoneFetch.
Variable env : Env.

Lemma FetchActivityZones_resp (activityID : Z) (st : St) (resp : http.Response) :
  env_Do env (trace st) (GetActivityZones activityID) = inr resp →
  ∃ st1, trace st1 = trace st ++ [EvDo (GetActivityZones activityID) (inr resp)] ∧
         client.FetchActivityZones env activityID st = (zones_result env resp, st1).
Proof.
  intros HDo. unfold client.FetchActivityZones, zones_result. mred. rewrite HDo.
  cbn [fst snd].
  repeat case_decide; try (eexists; split; [ | reflexivity ]; reflexivity).
  destruct (env_decodeZones env (http.Body resp));
    eexists; (split; [ | reflexivity ]); reflexivity.
Qed.

Lemma FetchActivityZones_err (activityID : Z) (st : St) (err : error) :
  env_Do env (trace st) (GetActivityZones activityID) = inl err →
  client.FetchActivityZones env activityID st
  = (([], Some (Wrapped "executing request" err)),
     mkSt (trace st ++ [EvDo (GetActivityZones activityID) (inl err)]) (rateLimit st)).
Proof.
  intros HDo. unfold client.FetchActivityZones. mred. rewrite HDo. reflexivity.
Qed.

End ZoneFetch.

Section StoredZones.
Variable env : Env.







End StoredZones.

Section StoredZonesExample.

Lemma hr_zone_fits (zone : strava.ActivityZone) (b : strava.TimedZoneRange) :
  zone ∈ [hr_zone] → b ∈ strava.DistributionBuckets zone → fits_int64 (strava.Time b).
Proof.
  intros Hz Hb. apply list_elem_of_singleton in Hz. subst zone.
  unfold hr_zone in Hb. cbn [strava.DistributionBuckets] in Hb.
  repeat (apply elem_of_cons in Hb as [->|Hb]);
    [ | | | apply elem_of_nil in Hb; contradiction ];
    (split; [ reflexivity | vm_compute; split; discriminate ]).
Defined.



End StoredZonesExample.

(* ================================================================== *)
(** * Properties of the enrichment runs                                 *)
(* ================================================================== *)

Section Requests.

Lemma requests_app (l1 l2 : list Event) : requests (l1 ++ l2) = requests l1 ++ requests l2.
Proof. apply omap_app. Qed.

Lemma saw_app (code : Z) (l1 l2 : list Event) :
  saw code (l1 ++ l2) = saw code l1 || saw code l2.
Proof. unfold saw. rewrite requests_app. apply existsb_app. Qed.


End Requests.

Section ZoneItem.
Variable env : Env.

Lemma createBuckets_quiet (buckets : list strava.TimedZoneRange) :
  ∀ (zoneID i : Z) (st : St),
  ∃ new,
    trace (snd (syncsvc.createBuckets env zoneID i buckets st)) = trace st ++ new ∧
    requests new = [] ∧
    fst (syncsvc.createBuckets env zoneID i buckets st) ≠ Some ErrPremiumRequired ∧
    fst (syncsvc.createBuckets env zoneID i buckets st) ≠ Some ErrRateLimited.
Proof.
  induction buckets as [|b rest IH]; intros zoneID i st.
  - exists []. cbn. rewrite app_nil_r. repeat split; discriminate.
  - cbn [syncsvc.createBuckets]. mred.
    destruct (env_CreateZoneBucket env (trace st) _) as [e|] eqn:Hres.
    + eexists [_]. cbn [fst snd trace]. repeat split; discriminate.
    + match goal with |- context [syncsvc.createBuckets env zoneID (i + 1) rest ?s] =>
        destruct (IH zoneID (i + 1) s) as (new & Htr & Hreq & Hp & Hr) end.
      eexists (_ :: new). split; [ | split; [ | split ] ]; [ | | exact Hp | exact Hr ].
      * rewrite Htr. cbn [trace]. rewrite <- app_assoc. reflexivity.
      * unfold requests in Hreq |- *. rewrite omap_step. exact Hreq.
Qed.

Lemma storeZones_quiet (zones : list strava.ActivityZone) :
  ∀ (activityID : Z) (st : St),
  ∃ new,
    trace (snd (syncsvc.storeZones env activityID zones st)) = trace st ++ new ∧
    requests new = [] ∧
    fst (syncsvc.storeZones env activityID zones st) ≠ Some ErrPremiumRequired ∧
    fst (syncsvc.storeZones env activityID zones st) ≠ Some ErrRateLimited.
Proof.
  induction zones as [|zone rest IH]; intros activityID st.
  - exists []. cbn. rewrite app_nil_r. repeat split; discriminate.
  - cbn [syncsvc.storeZones]. mred.
    destruct (env_CreateActivityZone env (trace st) _) as [e|zoneID] eqn:Hcreate.
    { eexists [_]. cbn [fst snd trace]. repeat split; discriminate. }
    destruct (env_DeleteZoneBucketsForActivityZone env _ zoneID) as [e|] eqn:Hdel.
    { eexists [_; _]. cbn [fst snd trace]. rewrite <- app_assoc.
      repeat split; discriminate. }
    match goal with |- context [syncsvc.createBuckets env zoneID 0 ?bs ?s] =>
      destruct (createBuckets_quiet bs zoneID 0 s) as (newb & Htrb & Hreqb & Hpb & Hrb);
      destruct (syncsvc.createBuckets env zoneID 0 bs s) as [res stb] eqn:Hrun end.
    cbn [fst snd] in Htrb, Hpb, Hrb |- *. cbn [trace] in Htrb.
    destruct res as [e|].
    + eexists (_ :: _ :: newb). cbn [fst snd].
      split; [ rewrite Htrb, <- !app_assoc; reflexivity | ].
      split; [ unfold requests in Hreqb |- *; rewrite !omap_step; exact Hreqb | ].
      split; assumption.
    + destruct (IH activityID stb) as (newr & Htrr & Hreqr & Hpr & Hrr).
      eexists (_ :: _ :: newb ++ newr).
      split; [ rewrite Htrr, Htrb, <- !app_assoc; reflexivity | ].
      split; [ | split; assumption ].
      change (?a :: ?b :: newb ++ newr) with ([a; b] ++ newb ++ newr).
      rewrite !requests_app, Hreqb, Hreqr. reflexivity.
Qed.

(** One item of an enrichment run: one request, then statements of the
    database only; the two sentinel errors come from the statuses 402
    and 429 and from nothing else, and nothing follows the request
    then. *)
Lemma SyncZonesForActivity_shape (activityID : Z) (st : St) :
  let r := syncsvc.SyncZonesForActivity env activityID st in
  ∃ out new,
    env_Do env (trace st) (GetActivityZones activityID) = out ∧
    trace (snd r) = trace st ++ EvDo (GetActivityZones activityID) out :: new ∧
    requests new = [] ∧
    (fst r = Some ErrPremiumRequired ↔ answered 402 (GetActivityZones activityID, out) = true) ∧
    (fst r = Some ErrRateLimited ↔ answered 429 (GetActivityZones activityID, out) = true) ∧
    (fst r = Some ErrPremiumRequired ∨ fst r = Some ErrRateLimited → new = []).
Proof.
  intros r. subst r. unfold syncsvc.SyncZonesForActivity, bind.
  destruct (env_Do env (trace st) (GetActivityZones activityID)) as [err|resp] eqn:HDo.
  - rewrite (FetchActivityZones_err env activityID st err HDo). cbn [fst snd trace].
    do 2 (rewrite decide_False by discriminate). cbn [ret fst snd trace].
    exists (inl err), []. unfold answered. cbn [snd].
    repeat split; try discriminate; try reflexivity.
  - destruct (FetchActivityZones_resp env activityID st resp HDo) as (st1 & Htr1 & Hfetch).
    rewrite Hfetch. cbn [fst snd].
    exists (inr resp). unfold answered. cbn [snd].
    unfold zones_result, http.StatusPaymentRequired, http.StatusTooManyRequests,
      http.StatusNotFound, http.StatusOK.
    destruct (decide (http.StatusCode resp = 402)) as [E402|N402].
    { exists []. rewrite decide_True by reflexivity. cbn [ret fst snd]. rewrite E402.
      repeat split; first [ exact Htr1 | discriminate | reflexivity ]. }
    destruct (decide (http.StatusCode resp = 429)) as [E429|N429].
    { exists []. rewrite decide_False by discriminate. rewrite decide_True by reflexivity.
      cbn [ret fst snd]. rewrite E429.
      repeat split; first [ exact Htr1 | discriminate | reflexivity ]. }
    assert (B402 : bool_decide (http.StatusCode resp = 402) = false)
      by (apply bool_decide_eq_false; exact N402).
    assert (B429 : bool_decide (http.StatusCode resp = 429) = false)
      by (apply bool_decide_eq_false; exact N429).
    rewrite B402, B429.
    assert (Hquiet : ∀ (zones : list strava.ActivityZone),
      ∃ new,
        trace (snd ((if decide (length zones = 0%nat) then ret None
                     else syncsvc.storeZones env activityID zones) st1))
        = trace st ++ EvDo (GetActivityZones activityID) (inr resp) :: new ∧
        requests new = [] ∧
        fst ((if decide (length zones = 0%nat) then ret None
              else syncsvc.storeZones env activityID zones) st1) ≠ Some ErrPremiumRequired ∧
        fst ((if decide (length zones = 0%nat) then ret None
              else syncsvc.storeZones env activityID zones) st1) ≠ Some ErrRateLimited).
    { intros zones. destruct (decide (length zones = 0%nat)) as [Hlen|Hlen].
      - exists []. cbn [ret fst snd].
        repeat split; first [ exact Htr1 | discriminate | reflexivity ].
      - destruct (storeZones_quiet zones activityID st1) as (new & Htr & Hreq & Hp & Hr).
        exists new. rewrite Htr, Htr1, <- app_assoc.
        repeat split; first [ assumption | reflexivity ]. }
    assert (Hwrap : ∀ e, e ≠ ErrPremiumRequired → e ≠ ErrRateLimited →
      ∃ new,
        trace (snd ((if decide (e = ErrPremiumRequired) then ret (Some ErrPremiumRequired)
                     else if decide (e = ErrRateLimited) then ret (Some ErrRateLimited)
                     else ret (Some (Wrapped "fetching zones" e))) st1))
        = trace st ++ EvDo (GetActivityZones activityID) (inr resp) :: new ∧
        requests new = [] ∧
        fst ((if decide (e = ErrPremiumRequired) then ret (Some ErrPremiumRequired)
              else if decide (e = ErrRateLimited) then ret (Some ErrRateLimited)
              else ret (Some (Wrapped "fetching zones" e))) st1) ≠ Some ErrPremiumRequired ∧
        fst ((if decide (e = ErrPremiumRequired) then ret (Some ErrPremiumRequired)
              else if decide (e = ErrRateLimited) then ret (Some ErrRateLimited)
              else ret (Some (Wrapped "fetching zones" e))) st1) ≠ Some ErrRateLimited).
    { intros e Hp Hr. exists []. do 2 (rewrite decide_False by assumption).
      cbn [ret fst snd]. repeat split; first [ exact Htr1 | discriminate | reflexivity ]. }
    assert (Hfinish : ∀ (m : M (option error)),
      (∃ new, trace (snd (m st1))
              = trace st ++ EvDo (GetActivityZones activityID) (inr resp) :: new ∧
              requests new = [] ∧
              fst (m st1) ≠ Some ErrPremiumRequired ∧ fst (m st1) ≠ Some ErrRateLimited) →
      ∃ new, @inr error http.Response resp = inr resp ∧
             trace (snd (m st1))
             = trace st ++ EvDo (GetActivityZones activityID) (inr resp) :: new ∧
             requests new = [] ∧
             (fst (m st1) = Some ErrPremiumRequired ↔ false = true) ∧
             (fst (m st1) = Some ErrRateLimited ↔ false = true) ∧
             (fst (m st1) = Some ErrPremiumRequired ∨ fst (m st1) = Some ErrRateLimited →
              new = [])).
    { intros m (new & Htr & Hreq & Hp & Hr). exists new.
      repeat split; try assumption; try discriminate; try (intros H; contradiction).
      intros [H|H]; contradiction. }
    destruct (decide (http.StatusCode resp = 404)) as [E404|N404].
    { apply Hfinish. apply (Hquiet []). }
    destruct (decide (http.StatusCode resp ≠ 200)) as [N200|E200].
    { apply Hfinish. apply Hwrap; discriminate. }
    destruct (env_decodeZones env (http.Body resp)) as [derr|zones].
    + apply Hfinish. apply Hwrap; discriminate.
    + apply Hfinish. apply (Hquiet zones).
Qed.

End ZoneItem.

Section ZoneBatch.
Variable env : Env.

Lemma SyncZonesForActivity_premium (activityID : Z) (st : St) (resp : http.Response) :
  env_Do env (trace st) (GetActivityZones activityID) = inr resp →
  http.StatusCode resp = 402 →
  ∃ st1, trace st1 = trace st ++ [EvDo (GetActivityZones activityID) (inr resp)] ∧
         syncsvc.SyncZonesForActivity env activityID st = (Some ErrPremiumRequired, st1).
Proof.
  intros HDo Hcode.
  destruct (SyncZonesForActivity_shape env activityID st)
    as (out & new & Hout & Htr & _ & Hp & _ & Hnil).
  rewrite HDo in Hout. subst out.
  assert (Hres : fst (syncsvc.SyncZonesForActivity env activityID st) = Some ErrPremiumRequired).
  { apply Hp. unfold answered. cbn [snd]. apply bool_decide_eq_true. exact Hcode. }
  rewrite (Hnil (or_introl Hres)) in Htr.
  exists (snd (syncsvc.SyncZonesForActivity env activityID st)).
  split; [ exact Htr | ]. rewrite <- Hres. apply surjective_pairing.
Qed.

Lemma SyncZonesForActivity_rate_limited (activityID : Z) (st : St) (resp : http.Response) :
  env_Do env (trace st) (GetActivityZones activityID) = inr resp →
  http.StatusCode resp = 429 →
  ∃ st1, trace st1 = trace st ++ [EvDo (GetActivityZones activityID) (inr resp)] ∧
         syncsvc.SyncZonesForActivity env activityID st = (Some ErrRateLimited, st1).
Proof.
  intros HDo Hcode.
  destruct (SyncZonesForActivity_shape env activityID st)
    as (out & new & Hout & Htr & _ & _ & Hr & Hnil).
  rewrite HDo in Hout. subst out.
  assert (Hres : fst (syncsvc.SyncZonesForActivity env activityID st) = Some ErrRateLimited).
  { apply Hr. unfold answered. cbn [snd]. apply bool_decide_eq_true. exact Hcode. }
  rewrite (Hnil (or_intror Hres)) in Htr.
  exists (snd (syncsvc.SyncZonesForActivity env activityID st)).
  split; [ exact Htr | ]. rewrite <- Hres. apply surjective_pairing.
Qed.

(** One turn of the loop of [SyncZones] by what the item returned. *)
Lemma loop_turn_premium (total i id : Z) (rest : list Z) (synced consec : Z) (st st1 : St) :
  syncsvc.SyncZonesForActivity env id st = (Some ErrPremiumRequired, st1) →
  syncsvc.SyncZones_loop env None total i (id :: rest) synced consec st
  = ((synced, Some ErrPremiumRequired), st1).
Proof.
  intros Hitem. cbn [syncsvc.SyncZones_loop]. mred. rewrite Hitem. reflexivity.
Qed.

Lemma loop_turn_rate_limited (total i id : Z) (rest : list Z) (synced consec : Z) (st st1 : St) :
  syncsvc.SyncZonesForActivity env id st = (Some ErrRateLimited, st1) →
  consec + 1 < syncsvc.maxConsecutiveRateLimits →
  syncsvc.SyncZones_loop env None total i (id :: rest) synced consec st
  = syncsvc.SyncZones_loop env None total (i + 1) rest synced (consec + 1) st1.
Proof.
  intros Hitem Hbelow. cbn [syncsvc.SyncZones_loop]. mred. rewrite Hitem. cbn [fst snd].
  rewrite decide_False by discriminate. rewrite decide_True by reflexivity.
  rewrite decide_False by lia. reflexivity.
Qed.

Lemma loop_turn_breaker (total i id : Z) (rest : list Z) (synced consec : Z) (st st1 : St) :
  syncsvc.SyncZonesForActivity env id st = (Some ErrRateLimited, st1) →
  syncsvc.maxConsecutiveRateLimits <= consec + 1 →
  syncsvc.SyncZones_loop env None total i (id :: rest) synced consec st
  = ((synced, Some ErrRateLimited),
     mkSt (trace st1 ++ [breaker_log (consec + 1) synced]) (rateLimit st1)).
Proof.
  intros Hitem Hreached. cbn [syncsvc.SyncZones_loop]. mred. rewrite Hitem. cbn [fst snd].
  rewrite decide_False by discriminate. rewrite decide_True by reflexivity.
  rewrite decide_True by lia. reflexivity.
Qed.

Lemma loop_turn_other (total i id : Z) (rest : list Z) (synced consec : Z) (st st1 : St)
    (e : error) :
  syncsvc.SyncZonesForActivity env id st = (Some e, st1) →
  e ≠ ErrPremiumRequired → e ≠ ErrRateLimited →
  syncsvc.SyncZones_loop env None total i (id :: rest) synced consec st
  = syncsvc.SyncZones_loop env None total (i + 1) rest synced 0
      (mkSt (trace st1 ++ [EvLog WarnLevel "failed to sync zones" [("activity_id", id)]])
            (rateLimit st1)).
Proof.
  intros Hitem Hp Hr. cbn [syncsvc.SyncZones_loop]. mred. rewrite Hitem. cbn [fst snd].
  rewrite decide_False by exact Hp. rewrite decide_False by exact Hr. reflexivity.
Qed.

Lemma loop_turn_synced (total i id : Z) (rest : list Z) (synced consec : Z) (st st1 : St) :
  syncsvc.SyncZonesForActivity env id st = (None, st1) →
  syncsvc.SyncZones_loop env None total i (id :: rest) synced consec st
  = match env_ctxErr env (trace st1 ++ [pacing_wait]) with
    | Some e => ((synced + 1, Some e), mkSt (trace st1 ++ [pacing_wait]) (rateLimit st1))
    | None =>
        syncsvc.SyncZones_loop env None total (i + 1) rest (synced + 1) 0
          (mkSt (trace st1 ++ [pacing_wait]) (rateLimit st1))
    end.
Proof.
  intros Hitem. cbn [syncsvc.SyncZones_loop]. mred. rewrite Hitem. cbn [fst snd trace rateLimit].
  unfold pacing_wait.
  destruct (env_ctxErr env (trace st1 ++ [EvWait (100 * gotime.Millisecond)])); reflexivity.
Qed.

End ZoneBatch.

Section CircuitBreaker.
Variable env : Env.
Hypothesis ctx_ok : ctx_errors_only env.

Lemma requests_single (req : Request) (out : error + http.Response) (new : list Event) :
  requests (EvDo req out :: new) = (req, out) :: requests new.
Proof. reflexivity. Qed.

Lemma requests_log (lvl : Level) (msg : string) (fields : list (string * Z)) (new : list Event) :
  requests (EvLog lvl msg fields :: new) = requests new.
Proof. reflexivity. Qed.

Lemma requests_wait (d : gotime.Duration) (new : list Event) :
  requests (EvWait d :: new) = requests new.
Proof. reflexivity. Qed.

(** A run that ends with the rate-limit error made three requests in a
    row that were answered 429, the last three of the run; when it
    started with a count already, the requests of the run up to the
    halt may be fewer, and are then all answered 429. *)
Lemma loop_breaker_needs_three (ids : list Z) :
  ∀ (total i synced consec : Z) (st : St),
  0 <= consec < 3 →
  snd (fst (syncsvc.SyncZones_loop env None total i ids synced consec st)) = Some ErrRateLimited →
  ∃ new l tail,
    trace (snd (syncsvc.SyncZones_loop env None total i ids synced consec st)) = trace st ++ new ∧
    requests new = l ++ tail ∧
    forallb (answered 429) tail = true ∧
    (length tail = 3%nat ∨ (l = [] ∧ Z.of_nat (length tail) = 3 - consec)).
Proof.
  induction ids as [|id rest IH]; intros total i synced consec st Hconsec Hres.
  - discriminate Hres.
  - destruct (SyncZonesForActivity_shape env id st)
      as (out & newi & _ & Htri & Hreqi & Hp & Hr & Hnil).
    destruct (syncsvc.SyncZonesForActivity env id st) as [res st1] eqn:Hitem.
    cbn [fst snd] in Htri, Hp, Hr, Hnil.
    destruct res as [e|].
    + destruct (decide (e = ErrPremiumRequired)) as [->|Hnp].
      { rewrite (loop_turn_premium env total i id rest synced consec st st1 Hitem) in Hres.
        discriminate Hres. }
      destruct (decide (e = ErrRateLimited)) as [->|Hnr].
      * assert (H429 : answered 429 (GetActivityZones id, out) = true) by (apply Hr; reflexivity).
        rewrite (Hnil (or_intror eq_refl)) in Htri.
        destruct (decide (syncsvc.maxConsecutiveRateLimits <= consec + 1)) as [Hreached|Hbelow].
        -- rewrite (loop_turn_breaker env total i id rest synced consec st st1 Hitem Hreached).
           cbn [fst snd trace]. rewrite Htri, <- app_assoc.
           eexists _, [], [_]. split; [ reflexivity | ].
           cbn [app]. rewrite requests_single. cbn [forallb length].
           split; [ reflexivity | ]. rewrite H429. split; [ reflexivity | ].
           right. split; [ reflexivity | ]. unfold syncsvc.maxConsecutiveRateLimits in Hreached. lia.
        -- assert (Hlt : consec + 1 < syncsvc.maxConsecutiveRateLimits) by lia.
           rewrite (loop_turn_rate_limited env total i id rest synced consec st st1 Hitem Hlt)
             in Hres |- *.
           unfold syncsvc.maxConsecutiveRateLimits in Hlt.
           destruct (IH total (i + 1) synced (consec + 1) st1 ltac:(lia) Hres)
             as (new & l & tail & Htr & Hreq & Hall & Hlen).
           rewrite Htr, Htri, <- app_assoc. cbn [app].
           destruct Hlen as [Hlen|[-> Hlen]].
           ++ eexists _, ((GetActivityZones id, out) :: l), tail.
              split; [ reflexivity | ]. rewrite requests_single, Hreq.
              split; [ reflexivity | ]. split; [ exact Hall | left; exact Hlen ].
           ++ eexists _, [], ((GetActivityZones id, out) :: tail).
              split; [ reflexivity | ]. rewrite requests_single, Hreq.
              split; [ reflexivity | ]. cbn [forallb length]. rewrite H429, Hall.
              split; [ reflexivity | ]. right. split; [ reflexivity | ]. lia.
      * rewrite (loop_turn_other env total i id rest synced consec st st1 e Hitem Hnp Hnr)
          in Hres |- *.
        match type of Hres with context [syncsvc.SyncZones_loop env None total (i + 1) rest synced 0 ?s] =>
          destruct (IH total (i + 1) synced 0 s ltac:(lia) Hres)
            as (new & l & tail & Htr & Hreq & Hall & Hlen) end.
        cbn [trace] in Htr. rewrite Htr, Htri, <- !app_assoc. cbn [app].
        eexists _, ((GetActivityZones id, out) :: l), tail.
        split; [ reflexivity | ].
        rewrite requests_single, !requests_app, requests_log, Hreqi, Hreq.
        split; [ reflexivity | ]. split; [ exact Hall | ].
        left. destruct Hlen as [Hlen|[_ Hlen]]; lia.
    + rewrite (loop_turn_synced env total i id rest synced consec st st1 Hitem) in Hres |- *.
      destruct (env_ctxErr env (trace st1 ++ [pacing_wait])) as [e|] eqn:Hctx.
      { cbn [fst snd] in Hres. injection Hres as ->.
        destruct (ctx_ok _ _ Hctx) as [H|H]; discriminate H. }
      match type of Hres with context [syncsvc.SyncZones_loop env None total (i + 1) rest (synced + 1) 0 ?s] =>
        destruct (IH total (i + 1) (synced + 1) 0 s ltac:(lia) Hres)
          as (new & l & tail & Htr & Hreq & Hall & Hlen) end.
      cbn [trace] in Htr. rewrite Htr, Htri, <- !app_assoc. cbn [app].
      eexists _, ((GetActivityZones id, out) :: l), tail.
      split; [ reflexivity | ].
      unfold pacing_wait.
      rewrite requests_single, !requests_app, requests_wait, Hreqi, Hreq.
      split; [ reflexivity | ]. split; [ exact Hall | ].
      left. destruct Hlen as [Hlen|[_ Hlen]]; lia.
Qed.

(** The breaker as the loop of [SyncZones] writes it, for a client whose
    [Do] hands a 429 response to its caller. Three items in a row
    answered 429, met with the counter at zero, end the run at the
    third: the run returns the count synced so far with the rate-limit
    error, and the items after them are not processed. A synced item
    puts the counter back to zero. A run starts with the counter at zero
    whatever came before it: it ends with the rate-limit error only when
    three requests of its own, the last three, were answered 429. The
    retrying client of client.go never hands over such a response; the
    runs behind it are the subject of the last part. *)
Theorem circuit_breaker :
  (∀ (total i a b c : Z) (rest : list Z) (synced : Z) (st : St) (ra rb rc : http.Response),
     let tr1 := trace st ++ [EvDo (GetActivityZones a) (inr ra)] in
     let tr2 := tr1 ++ [EvDo (GetActivityZones b) (inr rb)] in
     let tr3 := tr2 ++ [EvDo (GetActivityZones c) (inr rc)] in
     env_Do env (trace st) (GetActivityZones a) = inr ra → http.StatusCode ra = 429 →
     env_Do env tr1 (GetActivityZones b) = inr rb → http.StatusCode rb = 429 →
     env_Do env tr2 (GetActivityZones c) = inr rc → http.StatusCode rc = 429 →
     let r := syncsvc.SyncZones_loop env None total i (a :: b :: c :: rest) synced 0 st in
     fst r = (synced, Some ErrRateLimited) ∧
     trace (snd r) = tr3 ++ [breaker_log 3 synced]) ∧
  (∀ (total i id : Z) (rest : list Z) (synced consec : Z) (st st1 : St),
     syncsvc.SyncZonesForActivity env id st = (None, st1) →
     env_ctxErr env (trace st1 ++ [pacing_wait]) = None →
     syncsvc.SyncZones_loop env None total i (id :: rest) synced consec st
     = syncsvc.SyncZones_loop env None total (i + 1) rest (synced + 1) 0
         (mkSt (trace st1 ++ [pacing_wait]) (rateLimit st1))) ∧
  (∀ (batchSize : Z) (st : St),
     let r := syncsvc.SyncZones env batchSize None st in
     snd (fst r) = Some ErrRateLimited →
     ∃ l tail, requests (new_events st (snd r)) = l ++ tail ∧
               length tail = 3%nat ∧ forallb (answered 429) tail = true).
Proof.
  split; [ | split ].
  - intros total i a b c rest synced st ra rb rc tr1 tr2 tr3 Ha Hca Hb Hcb Hc Hcc r.
    subst r tr3 tr2 tr1.
    destruct (SyncZonesForActivity_rate_limited env a st ra Ha Hca) as (st1 & Htr1 & Hitem1).
    rewrite <- Htr1 in Hb.
    destruct (SyncZonesForActivity_rate_limited env b st1 rb Hb Hcb) as (st2 & Htr2 & Hitem2).
    rewrite <- Htr1, <- Htr2 in Hc.
    destruct (SyncZonesForActivity_rate_limited env c st2 rc Hc Hcc) as (st3 & Htr3 & Hitem3).
    rewrite (loop_turn_rate_limited env total i a _ synced 0 st st1 Hitem1)
      by (unfold syncsvc.maxConsecutiveRateLimits; lia).
    rewrite (loop_turn_rate_limited env total (i + 1) b _ synced (0 + 1) st1 st2 Hitem2)
      by (unfold syncsvc.maxConsecutiveRateLimits; lia).
    rewrite (loop_turn_breaker env total (i + 1 + 1) c _ synced (0 + 1 + 1) st2 st3 Hitem3)
      by (unfold syncsvc.maxConsecutiveRateLimits; lia).
    cbn [fst snd trace]. rewrite Htr3, Htr2, Htr1. split; reflexivity.
  - intros total i id rest synced consec st st1 Hitem Hctx.
    rewrite (loop_turn_synced env total i id rest synced consec st st1 Hitem), Hctx.
    reflexivity.
  - intros batchSize st r. subst r. unfold syncsvc.SyncZones. mred.
    destruct (env_GetActivitiesWithoutZones env (trace st) batchSize) as [err|ids];
      [ discriminate | ].
    destruct (decide (length ids = 0%nat)); [ discriminate | ].
    intros Hres.
    destruct (loop_breaker_needs_three ids _ 0 0 0 _ ltac:(lia) Hres)
      as (new & l & tail & Htr & Hreq & Hall & Hlen).
    cbn [trace] in Htr. rewrite <- app_assoc in Htr.
    rewrite (new_events_app st _ _ Htr). cbn [app].
    exists l, tail. unfold requests in Hreq |- *. rewrite omap_step.
    split; [ exact Hreq | ]. split; [ | exact Hall ].
    destruct Hlen as [Hlen|[_ Hlen]]; lia.
Qed.

End CircuitBreaker.

Section CircuitBreakerExample.

Lemma rate_limited_env_ctx (backlog : list Z) : ctx_errors_only (rate_limited_env backlog).
Proof. intros tr e H. discriminate H. Defined.

(** A backlog of five activities against a client that hands over the
    429 responses of its server: the run stops after the third request
    with nothing synced and the rate-limit error; activities 4 and 5
    are not asked for. *)
Lemma circuit_breaker_witness :
  let r := syncsvc.SyncZones (rate_limited_env [1; 2; 3; 4; 5]) 25 None st0 in
  fst r = (0, Some ErrRateLimited) ∧
  map fst (requests (new_events st0 (snd r)))
  = [GetActivityZones 1; GetActivityZones 2; GetActivityZones 3] ∧
  ∃ l tail, requests (new_events st0 (snd r)) = l ++ tail ∧
            length tail = 3%nat ∧ forallb (answered 429) tail = true.
Proof.
  intros r. split; [ reflexivity | ]. split; [ reflexivity | ].
  apply (proj2 (proj2 (circuit_breaker (rate_limited_env [1; 2; 3; 4; 5])
                         (rate_limited_env_ctx [1; 2; 3; 4; 5]))) 25 st0).
  reflexivity.
Defined.

End CircuitBreakerExample.

Section PremiumRequired.
Variable env : Env.

Lemma GetRateLimit_state (st : St) : snd (client.GetRateLimit env st) = st.
Proof. reflexivity. Qed.

Lemma WaitForRateLimit_quiet (st : St) :
  ∃ new, trace (snd (client.WaitForRateLimit env st)) = trace st ++ new ∧ requests new = [].
Proof.
  unfold client.WaitForRateLimit. mred. rewrite GetRateLimit_state.
  destruct (decide (strava.ShouldWaitForRateLimit (fst (client.GetRateLimit env st)) <= 0)).
  - exists []. cbn [snd]. rewrite app_nil_r. split; reflexivity.
  - cbn [fst snd trace].
    destruct (env_ctxErr env _) as [e|]; cbn [snd trace]; rewrite <- ?app_assoc;
      eexists; (split; [ reflexivity | reflexivity ]).
Qed.




End PremiumRequired.

Section ZoneSyncer.
Variable env : Env.




End ZoneSyncer.

Section Disabled.
Variable env : Env.





End Disabled.

Section DisabledExample.


End DisabledExample.

(* ================================================================== *)
(** * Further properties of the quota tracker                           *)
(* ================================================================== *)

Section QuotaWindows.

Lemma minute_second_split (t : gotime.Time) :
  (gotime.unixSec t + gotime.zoneOffset t) mod 3600
  = 60 * gotime.Time_Minute t + gotime.Time_Second t ∧
  0 <= gotime.Time_Minute t < 60.
Proof.
  unfold gotime.Time_Minute, gotime.Time_Second.
  set (s := gotime.unixSec t + gotime.zoneOffset t).
  rewrite <- (Z.mod_mod_divide s 3600 60) by (exists 60; lia).
  pose proof (Z.mod_pos_bound s 3600 ltac:(lia)) as Hr.
  generalize dependent (s mod 3600). intros r Hr.
  Z.div_mod_to_equations. lia.
Qed.

(** The range of the wait for the short window. *)
Lemma next_window_range (now : gotime.Time) :
  gotime.wf now →
  2 * gotime.Second < strava.timeUntilNext15MinWindow now <= 15 * gotime.Minute + 2 * gotime.Second.
Proof.
  intros Hwf. unfold gotime.wf in Hwf.
  destruct (minute_second_split now) as [Hs Hm].
  pose proof (second_range now) as Hsec.
  pose proof (Z.div_mod (gotime.unixSec now + gotime.zoneOffset now) 3600 ltac:(lia)) as Hq.
  rewrite Hs in Hq.
  unfold strava.timeUntilNext15MinWindow, gotime.Time_Nanosecond.
  set (m := gotime.Time_Minute now) in *.
  set (sec := gotime.Time_Second now) in *.
  set (q := (gotime.unixSec now + gotime.zoneOffset now) / 3600) in *.
  rewrite Z.quot_div_nonneg by lia.
  unfold gotime.Minute, gotime.Second, gotime.Nanosecond.
  assert (Hk : (m / 15 = 0 ∧ m < 15) ∨ (m / 15 = 1 ∧ 15 <= m < 30) ∨
               (m / 15 = 2 ∧ 30 <= m < 45) ∨ (m / 15 = 3 ∧ 45 <= m)).
  { Z.div_mod_to_equations. lia. }
  destruct Hk as [[-> Hk] | [[-> Hk] | [[-> Hk] | [-> Hk]]]];
    repeat (case_decide; try lia); lia.
Qed.

(** X1. At any instant the wait for the short window is more than the
    2-second buffer and at most 15 minutes plus the buffer, and it ends
    2 seconds after a quarter-hour boundary of the clock [now] reads. *)
Theorem short_window_wait_reaches_boundary (now : gotime.Time) :
  gotime.wf now →
  2 * gotime.Second < strava.timeUntilNext15MinWindow now <= 15 * gotime.Minute + 2 * gotime.Second ∧
  ((gotime.unixSec now + gotime.zoneOffset now) * gotime.Second + gotime.nsec now
   + strava.timeUntilNext15MinWindow now - 2 * gotime.Second) mod (15 * gotime.Minute) = 0.
Proof.
  intros Hwf. unfold gotime.wf in Hwf.
  destruct (minute_second_split now) as [Hs Hm].
  pose proof (second_range now) as Hsec.
  pose proof (Z.div_mod (gotime.unixSec now + gotime.zoneOffset now) 3600 ltac:(lia)) as Hq.
  rewrite Hs in Hq.
  unfold strava.timeUntilNext15MinWindow, gotime.Time_Nanosecond.
  set (m := gotime.Time_Minute now) in *.
  set (sec := gotime.Time_Second now) in *.
  set (q := (gotime.unixSec now + gotime.zoneOffset now) / 3600) in *.
  rewrite Z.quot_div_nonneg by lia.
  unfold gotime.Minute, gotime.Second, gotime.Nanosecond.
  assert (Hk : (m / 15 = 0 ∧ m < 15) ∨ (m / 15 = 1 ∧ 15 <= m < 30) ∨
               (m / 15 = 2 ∧ 30 <= m < 45) ∨ (m / 15 = 3 ∧ 45 <= m)).
  { Z.div_mod_to_equations. lia. }
  destruct Hk as [[-> Hk] | [[-> Hk] | [[-> Hk] | [-> Hk]]]];
    repeat (case_decide; try lia); (split; [lia | ]).
  - replace (_ - 2 * 1000000000) with ((4 * q + 1) * (15 * (60 * 1000000000))) by lia.
    apply Z.mod_mul; lia.
  - replace (_ - 2 * 1000000000) with ((4 * q + 2) * (15 * (60 * 1000000000))) by lia.
    apply Z.mod_mul; lia.
  - replace (_ - 2 * 1000000000) with ((4 * q + 3) * (15 * (60 * 1000000000))) by lia.
    apply Z.mod_mul; lia.
  - replace (_ - 2 * 1000000000) with ((4 * q + 4) * (15 * (60 * 1000000000))) by lia.
    apply Z.mod_mul; lia.
Qed.

Lemma short_window_wait_reaches_boundary_witness :
  gotime.wf (gotime.mkTime 39585 500000000 (-3600)) ∧
  strava.timeUntilNext15MinWindow (gotime.mkTime 39585 500000000 (-3600))
  = 16 * gotime.Second + 500 * gotime.Millisecond ∧
  (35985 * gotime.Second + 500000000
   + strava.timeUntilNext15MinWindow (gotime.mkTime 39585 500000000 (-3600))
   - 2 * gotime.Second) mod (15 * gotime.Minute) = 0.
Proof.
  split; [unfold gotime.wf; cbn; lia | ].
  split; [reflexivity | ].
  apply (short_window_wait_reaches_boundary (gotime.mkTime 39585 500000000 (-3600))).
  unfold gotime.wf; cbn; lia.
Defined.

(** The range of the wait for the daily window. *)
Lemma next_midnight_range (now : gotime.Time) :
  gotime.wf now →
  2 * gotime.Second < strava.timeUntilMidnightUTC now <= 24 * gotime.Hour + 2 * gotime.Second.
Proof.
  intros Hwf. unfold gotime.wf in Hwf.
  unfold strava.timeUntilMidnightUTC, gotime.untilNextMidnightUTC.
  pose proof (Z.mod_pos_bound (gotime.unixSec now) 86400 ltac:(lia)) as Hr.
  unfold gotime.Hour, gotime.Minute, gotime.Second. lia.
Qed.

(** X2. At any instant the wait for the daily window is more than the
    2-second buffer and at most 24 hours plus the buffer, and it ends
    2 seconds after a midnight UTC. *)
Theorem daily_wait_reaches_midnight (now : gotime.Time) :
  gotime.wf now →
  2 * gotime.Second < strava.timeUntilMidnightUTC now <= 24 * gotime.Hour + 2 * gotime.Second ∧
  (gotime.unixSec now * gotime.Second + gotime.nsec now
   + strava.timeUntilMidnightUTC now - 2 * gotime.Second) mod (24 * gotime.Hour) = 0.
Proof.
  intros Hwf. unfold gotime.wf in Hwf.
  unfold strava.timeUntilMidnightUTC, gotime.untilNextMidnightUTC.
  pose proof (Z.div_mod (gotime.unixSec now) 86400 ltac:(lia)) as Hq.
  pose proof (Z.mod_pos_bound (gotime.unixSec now) 86400 ltac:(lia)) as Hr.
  set (q := gotime.unixSec now / 86400) in *.
  set (r := gotime.unixSec now mod 86400) in *.
  unfold gotime.Hour, gotime.Minute, gotime.Second.
  split; [lia | ].
  replace (_ - 2 * 1000000000) with ((q + 1) * (24 * (60 * (60 * 1000000000)))) by lia.
  apply Z.mod_mul; lia.
Qed.

Lemma daily_wait_reaches_midnight_witness :
  gotime.wf (gotime.mkTime 86399 999999999 7200) ∧
  strava.timeUntilMidnightUTC (gotime.mkTime 86399 999999999 7200) = 2 * gotime.Second + 1 ∧
  (86399 * gotime.Second + 999999999
   + strava.timeUntilMidnightUTC (gotime.mkTime 86399 999999999 7200)
   - 2 * gotime.Second) mod (24 * gotime.Hour) = 0.
Proof.
  split; [unfold gotime.wf; cbn; lia | ].
  split; [reflexivity | ].
  apply (daily_wait_reaches_midnight (gotime.mkTime 86399 999999999 7200)).
  unfold gotime.wf; cbn; lia.
Defined.

End QuotaWindows.

Section QuotaState.

Lemma wrap_in_range (x : Z) : goint.in_range x → goint.wrap x = x.
Proof.
  unfold goint.in_range, goint.MinInt64, goint.MaxInt64, goint.wrap. intros Hx.
  change (2 ^ 63) with 9223372036854775808. change (2 ^ 64) with 18446744073709551616.
  rewrite Z.mod_small; lia.
Qed.

Lemma digit_range (c : Ascii.ascii) (d : Z) : strconv.digit c = Some d → 0 <= d <= 9.
Proof. unfold strconv.digit. case_decide; [ | discriminate ]. intros [= <-]. lia. Qed.

Lemma digits_nonneg (s : string) :
  ∀ acc n, 0 <= acc → strconv.digits s acc = strconv.Scanned n → 0 <= n.
Proof.
  induction s as [|c s IH]; intros acc n Hacc; cbn [strconv.digits].
  - intros [= <-]. exact Hacc.
  - destruct (strconv.digit c) as [d|] eqn:Hd; [ | discriminate ].
    apply digit_range in Hd.
    destruct (decide (strconv.maxUint64 / 10 + 1 <= acc)); [ discriminate | ].
    destruct (decide (strconv.maxUint64 < acc * 10 + d)); [ discriminate | ].
    apply IH. lia.
Qed.

Lemma Atoi_in_range (s : string) : goint.in_range (fst (strconv.Atoi s)).
Proof.
  unfold strconv.Atoi, goint.in_range.
  destruct (match s with
            | String "-"%char r => (true, r)
            | String "+"%char r => (false, r)
            | _ => (false, s)
            end) as [neg ds].
  assert (H0 : goint.MinInt64 <= 0 <= goint.MaxInt64) by (unfold goint.MinInt64, goint.MaxInt64; lia).
  destruct ds as [|c ds]; [exact H0 | ].
  destruct (strconv.digits (String c ds) 0) as [| |un] eqn:Hscan; [ exact H0 | | ].
  - destruct neg; cbn [fst]; unfold goint.MinInt64, goint.MaxInt64; lia.
  - apply digits_nonneg in Hscan; [ | lia ].
    destruct neg; case_decide; cbn [fst]; unfold goint.MinInt64, goint.MaxInt64; lia.
Qed.

Lemma parsePair_in_range (header : string) :
  goint.in_range (fst (strava.parsePair header)) ∧ goint.in_range (snd (strava.parsePair header)).
Proof.
  assert (H0 : goint.in_range 0) by (unfold goint.in_range, goint.MinInt64, goint.MaxInt64; lia).
  unfold strava.parsePair. case_decide; cbn [fst snd]; [split; exact H0 | ].
  destruct (gostrings.Split header ","%char) as [|p0 [|p1 ps]];
    split; first [exact H0 | apply Atoi_in_range].
Qed.

Lemma minPositive_choice (a b : Z) : strava.minPositive a b = a ∨ strava.minPositive a b = b.
Proof. unfold strava.minPositive. repeat case_decide; auto. Qed.

Lemma approaching_recommend (info : strava.RateLimitInfo) :
  strava.IsApproaching15MinLimit (strava.recommend info) = strava.IsApproaching15MinLimit info ∧
  strava.IsApproachingDailyLimit (strava.recommend info) = strava.IsApproachingDailyLimit info.
Proof.
  destruct (recommend_keeps info) as (H1 & H2 & H3 & H4).
  unfold strava.IsApproaching15MinLimit, strava.IsApproachingDailyLimit.
  rewrite H1, H2, H3, H4. split; reflexivity.
Qed.

(** The closing chain on a record whose limits are [int64] values and
    whose reset times are positive. *)
Lemma recommend_consistent (info : strava.RateLimitInfo) :
  strava.Limit15Min info <= goint.MaxInt64 → strava.LimitDaily info <= goint.MaxInt64 →
  0 < strava.TimeUntil15MinReset info → 0 < strava.TimeUntilDailyReset info →
  let out := strava.recommend info in
  (strava.RecommendedWait out = 0 ↔
   strava.IsApproaching15MinLimit info = false ∧ strava.IsApproachingDailyLimit info = false) ∧
  (strava.IsRateLimited out = true ↔
   strava.IsRateLimited info = true ∨
   0 < strava.Limit15Min info <= strava.Usage15Min info ∨
   0 < strava.LimitDaily info <= strava.UsageDaily info) ∧
  (strava.RecommendedWait out = 0 ∨
   strava.RecommendedWait out = strava.TimeUntil15MinReset info ∨
   strava.RecommendedWait out = strava.TimeUntilDailyReset info).
Proof.
  intros HL15 HLD Hr15 HrD.
  assert (Hw : ∀ l u, l <= goint.MaxInt64 → 0 < l <= u → goint.wrap (l - strava.rateLimitBuffer) <= u).
  { intros l u Hl Hlu. rewrite wrap_in_range.
    - unfold strava.rateLimitBuffer. lia.
    - unfold goint.in_range, goint.MinInt64, strava.rateLimitBuffer in *.
      unfold goint.MaxInt64 in *. lia. }
  cbv zeta. unfold strava.recommend, strava.IsApproaching15MinLimit, strava.IsApproachingDailyLimit.
  destruct (decide (0 < strava.Limit15Min info ∧ strava.Limit15Min info <= strava.Usage15Min info))
    as [He15|He15].
  { pose proof (Hw _ _ HL15 He15).
    cbn [strava.RecommendedWait strava.IsRateLimited].
    rewrite decide_False by lia. rewrite bool_decide_eq_true_2 by assumption.
    repeat split; try (intros; auto; lia); try (intros [? ?]; discriminate); auto. }
  destruct (decide (0 < strava.LimitDaily info ∧ strava.LimitDaily info <= strava.UsageDaily info))
    as [HeD|HeD].
  { pose proof (Hw _ _ HLD HeD).
    cbn [strava.RecommendedWait strava.IsRateLimited].
    rewrite (decide_False (P := strava.LimitDaily info = 0)) by lia.
    rewrite (bool_decide_eq_true_2 (goint.wrap (strava.LimitDaily info - strava.rateLimitBuffer)
                                    <= strava.UsageDaily info)) by assumption.
    repeat split; try (intros; auto; lia); try (intros [? ?]; discriminate); auto. }
  destruct (decide (strava.Limit15Min info = 0)) as [Hz15|Hz15];
    destruct (decide (strava.LimitDaily info = 0)) as [HzD|HzD];
    repeat match goal with
           | |- context [bool_decide ?P] => destruct (bool_decide P) eqn:?
           end;
    cbn [strava.RecommendedWait strava.IsRateLimited];
    (split; [split; [intros; first [lia | split; congruence] | intros [? ?]; congruence] | ]);
    (split; [split; [auto | intros [? | [? | ?]]; [assumption | lia | lia]] | auto]).
Qed.

(** X3. Whatever a response's headers hold, the quota record read from
    them is consistent: a wait is recommended exactly when one of the two
    windows is within the buffer of its limit, the record is marked
    rate-limited exactly when a window with a known limit is used up, and
    the wait is then the time to the reset of a window. *)
Theorem parsed_quota_is_consistent (headers : http.Header) (now : gotime.Time) :
  gotime.wf now →
  let info := strava.parseRateLimitHeaders headers now in
  (strava.RecommendedWait info = 0 ↔
   strava.IsApproaching15MinLimit info = false ∧ strava.IsApproachingDailyLimit info = false) ∧
  (strava.IsRateLimited info = true ↔
   0 < strava.Limit15Min info <= strava.Usage15Min info ∨
   0 < strava.LimitDaily info <= strava.UsageDaily info) ∧
  (strava.RecommendedWait info = 0 ∨
   strava.RecommendedWait info = strava.timeUntilNext15MinWindow now ∨
   strava.RecommendedWait info = strava.timeUntilMidnightUTC now) ∧
  (strava.IsRateLimited info = true → 2 * gotime.Second < strava.RecommendedWait info).
Proof.
  intros Hwf.
  pose proof (next_window_range now Hwf) as H15.
  pose proof (next_midnight_range now Hwf) as HD.
  unfold strava.parseRateLimitHeaders.
  pose proof (parsePair_in_range (http.Get headers "X-RateLimit-Limit")) as [Hg1 Hg2].
  pose proof (parsePair_in_range (http.Get headers "X-ReadRateLimit-Limit")) as [Hr1 Hr2].
  destruct (strava.parsePair (http.Get headers "X-RateLimit-Limit")) as [gl15 glD].
  destruct (strava.parsePair (http.Get headers "X-RateLimit-Usage")) as [gu15 guD].
  destruct (strava.parsePair (http.Get headers "X-ReadRateLimit-Limit")) as [rl15 rlD].
  destruct (strava.parsePair (http.Get headers "X-ReadRateLimit-Usage")) as [ru15 ruD].
  cbn [fst snd] in Hg1, Hg2, Hr1, Hr2.
  match goal with |- context [strava.recommend ?x] => set (raw := x) end.
  assert (HL15 : strava.Limit15Min raw <= goint.MaxInt64).
  { cbn. destruct (minPositive_choice gl15 rl15) as [-> | ->]; [apply Hg1 | apply Hr1]. }
  assert (HLD : strava.LimitDaily raw <= goint.MaxInt64).
  { cbn. destruct (minPositive_choice glD rlD) as [-> | ->]; [apply Hg2 | apply Hr2]. }
  assert (Hp15 : 0 < strava.TimeUntil15MinReset raw)
    by (cbn; unfold gotime.Second in H15; lia).
  assert (HpD : 0 < strava.TimeUntilDailyReset raw)
    by (cbn; unfold gotime.Second in HD; lia).
  destruct (recommend_consistent raw HL15 HLD Hp15 HpD) as (Hzero & Hlim & Hwait).
  destruct (approaching_recommend raw) as [Ha15 HaD].
  destruct (recommend_keeps raw) as (K1 & K2 & K3 & K4).
  rewrite Ha15, HaD, K1, K2, K3, K4.
  split; [exact Hzero | ].
  assert (Hlim' : strava.IsRateLimited (strava.recommend raw) = true ↔
                  0 < strava.Limit15Min raw <= strava.Usage15Min raw ∨
                  0 < strava.LimitDaily raw <= strava.UsageDaily raw).
  { rewrite Hlim. cbn [strava.IsRateLimited raw]. split; [intros [? | ?]; [discriminate | assumption] | auto]. }
  split; [exact Hlim' | ].
  split; [exact Hwait | ].
  intros Hl. apply Hlim' in Hl.
  assert (Hnz : strava.RecommendedWait (strava.recommend raw) ≠ 0).
  { intros Hz. apply Hzero in Hz. destruct Hz as [Hz1 Hz2].
    unfold strava.IsApproaching15MinLimit, strava.IsApproachingDailyLimit in Hz1, Hz2.
    destruct Hl as [Hl | Hl].
    - rewrite decide_False in Hz1 by lia. apply bool_decide_eq_false in Hz1.
      rewrite wrap_in_range in Hz1; unfold strava.rateLimitBuffer in *;
        unfold goint.in_range, goint.MinInt64, goint.MaxInt64 in *; lia.
    - rewrite decide_False in Hz2 by lia. apply bool_decide_eq_false in Hz2.
      rewrite wrap_in_range in Hz2; unfold strava.rateLimitBuffer in *;
        unfold goint.in_range, goint.MinInt64, goint.MaxInt64 in *; lia. }
  destruct Hwait as [Hw | [Hw | Hw]]; [contradiction | | ]; rewrite Hw; cbn; lia.
Qed.

Lemma parsed_quota_is_consistent_witness :
  let h : http.Header :=
    <["X-Ratelimit-Limit" := ["100,1000"]]> (<["X-Ratelimit-Usage" := ["97,400"]]> ∅) in
  let info := strava.parseRateLimitHeaders h epoch_10h in
  gotime.wf epoch_10h ∧
  strava.IsApproaching15MinLimit info = true ∧
  strava.IsRateLimited info = false ∧
  strava.RecommendedWait info = 15 * gotime.Minute + 2 * gotime.Second ∧
  (strava.RecommendedWait info = 0 ↔
   strava.IsApproaching15MinLimit info = false ∧ strava.IsApproachingDailyLimit info = false).
Proof.
  cbv zeta.
  split; [unfold gotime.wf; cbn; lia | ].
  split; [vm_compute; reflexivity | ].
  split; [vm_compute; reflexivity | ].
  split; [vm_compute; reflexivity | ].
  refine (proj1 (parsed_quota_is_consistent _ epoch_10h _)).
  unfold gotime.wf; cbn; lia.
Defined.

End QuotaState.

Section QuotaWait.
Variable env : Env.

(** X4. [WaitForRateLimit] waits exactly when the stored quota is within
    the buffer of one of its limits: then it logs, waits for more than
    the 2-second buffer and at most a day plus the buffer, and reports
    what the context says after the wait; otherwise it returns at once
    and leaves no event. The stored quota is never changed. *)
Theorem WaitForRateLimit_waits_iff_approaching (st : St) :
  gotime.wf (env_Now env (trace st)) →
  strava.Limit15Min (rateLimit st) <= goint.MaxInt64 →
  strava.LimitDaily (rateLimit st) <= goint.MaxInt64 →
  let r := client.WaitForRateLimit env st in
  rateLimit (snd r) = rateLimit st ∧
  if strava.IsApproaching15MinLimit (rateLimit st) || strava.IsApproachingDailyLimit (rateLimit st)
  then ∃ d rest,
         new_events st (snd r)
         = EvLog InfoLevel "waiting for rate limit window to reset" [] :: EvWait d :: rest ∧
         2 * gotime.Second < d <= 24 * gotime.Hour + 2 * gotime.Second ∧
         fst r = env_ctxErr env
                   (trace st ++ [EvLog InfoLevel "waiting for rate limit window to reset" [];
                                 EvWait d])
  else r = (None, st).
Proof.
  intros Hwf HL15 HLD.
  pose proof (next_window_range _ Hwf) as H15.
  pose proof (next_midnight_range _ Hwf) as HD.
  unfold client.WaitForRateLimit, client.GetRateLimit, strava.ShouldWaitForRateLimit.
  mred.
  match goal with |- context [strava.recommend ?x] => set (raw := x) end.
  assert (Hp15 : 0 < strava.TimeUntil15MinReset raw)
    by (cbn; unfold gotime.Second in H15; lia).
  assert (HpD : 0 < strava.TimeUntilDailyReset raw)
    by (cbn; unfold gotime.Second in HD; lia).
  destruct (recommend_consistent raw HL15 HLD Hp15 HpD) as (Hzero & _ & Hwait).
  change (strava.IsApproaching15MinLimit (rateLimit st))
    with (strava.IsApproaching15MinLimit raw).
  change (strava.IsApproachingDailyLimit (rateLimit st))
    with (strava.IsApproachingDailyLimit raw).
  destruct (strava.IsApproaching15MinLimit raw || strava.IsApproachingDailyLimit raw) eqn:Happ.
  - assert (Hnz : strava.RecommendedWait (strava.recommend raw) ≠ 0).
    { intros Hz. apply Hzero in Hz. destruct Hz as [Hz1 Hz2].
      rewrite Hz1, Hz2 in Happ. discriminate. }
    assert (Hd : 2 * gotime.Second < strava.RecommendedWait (strava.recommend raw)
                 <= 24 * gotime.Hour + 2 * gotime.Second).
    { destruct Hwait as [Hw | [Hw | Hw]]; [contradiction | | ]; rewrite Hw; cbn;
        unfold gotime.Hour, gotime.Minute, gotime.Second in *; lia. }
    rewrite decide_False by (unfold gotime.Second in Hd; lia).
    set (d := strava.RecommendedWait (strava.recommend raw)) in *.
    set (tr2 := (trace st ++ [EvLog InfoLevel "waiting for rate limit window to reset" []])
                  ++ [EvWait d]).
    assert (Htr2 : tr2 = trace st ++ [EvLog InfoLevel "waiting for rate limit window to reset" [];
                                      EvWait d]).
    { unfold tr2. rewrite <- app_assoc. reflexivity. }
    destruct (env_ctxErr env tr2) as [e|] eqn:Hctx; mred.
    + split; [reflexivity | ].
      exists d, []. split; [ | split; [exact Hd | rewrite <- Htr2, Hctx; reflexivity]].
      apply new_events_app. cbn [trace]. exact Htr2.
    + split; [reflexivity | ].
      exists d, [EvLog InfoLevel "rate limit window reset, resuming" []].
      split; [ | split; [exact Hd | rewrite <- Htr2, Hctx; reflexivity]].
      apply new_events_app. cbn [trace]. fold tr2. rewrite Htr2, <- app_assoc. reflexivity.
  - apply orb_false_iff in Happ. apply Hzero in Happ.
    rewrite Happ. rewrite decide_True by lia. mred. split; reflexivity.
Qed.

End QuotaWait.

Section QuotaWaitExamples.

Lemma WaitForRateLimit_waits_iff_approaching_witness :
  let st := snd (client.NewClientWithRetryConfig st0) in
  gotime.wf (env_Now paged_env (trace st)) ∧
  client.WaitForRateLimit paged_env st = (None, st).
Proof.
  cbv zeta.
  split; [unfold gotime.wf; cbn; lia | ].
  refine (proj2 (WaitForRateLimit_waits_iff_approaching paged_env
                   (snd (client.NewClientWithRetryConfig st0)) _ _ _));
    solve [unfold gotime.wf; cbn; lia | vm_compute; discriminate].
Defined.

End QuotaWaitExamples.

Section BackoffPolicy.
Variable env : Env.

Lemma shiftOne_small (n : Z) : 0 <= n < 63 → client.shiftOne n = 2 ^ n.
Proof.
  intros Hn. unfold client.shiftOne. rewrite decide_True by lia.
  apply wrap_in_range.
  pose proof (Z.pow_le_mono_r 2 n 62 ltac:(lia) ltac:(lia)) as Hle.
  pose proof (Z.pow_pos_nonneg 2 n ltac:(lia) ltac:(lia)) as Hpos.
  change (2 ^ 62) with 4611686018427387904 in Hle.
  unfold goint.in_range, goint.MinInt64, goint.MaxInt64. lia.
Qed.

(** X5. The wait the backoff policy returns. For a 429 whose Retry-After
    header is a whole number of seconds, that many seconds (when the
    product fits [int64]). For any other 429, with or without the header,
    the time to the next short-window boundary: more than 2 s and at most
    15 min 2 s, whatever [min] and [max] are. For anything else, [min]
    doubled [attemptNum] times and capped at [max], as long as the
    product fits; from 64 attempts on the product is zero. *)
Theorem Backoff_waits (min max attemptNum : Z) (st : St) :
  (∀ r seconds,
     http.StatusCode r = http.StatusTooManyRequests →
     strconv.Atoi (http.Get (http.Headers r) "Retry-After") = (seconds, false) →
     goint.in_range (seconds * gotime.Second) →
     fst (client.Backoff env min max attemptNum (Some r) st) = seconds * gotime.Second) ∧
  (∀ r,
     http.StatusCode r = http.StatusTooManyRequests →
     snd (strconv.Atoi (http.Get (http.Headers r) "Retry-After")) = true →
     gotime.wf (env_Now env (trace st)) →
     fst (client.Backoff env min max attemptNum (Some r) st)
     = strava.timeUntilNext15MinWindow (env_Now env (trace st)) ∧
     2 * gotime.Second < fst (client.Backoff env min max attemptNum (Some r) st)
       <= 15 * gotime.Minute + 2 * gotime.Second) ∧
  (∀ resp,
     (∀ r, resp = Some r → http.StatusCode r ≠ http.StatusTooManyRequests) →
     (0 <= attemptNum < 63 → goint.in_range (min * 2 ^ attemptNum) →
        fst (client.Backoff env min max attemptNum resp st) = Z.min (min * 2 ^ attemptNum) max) ∧
     (64 <= attemptNum → fst (client.Backoff env min max attemptNum resp st) = Z.min 0 max)).
Proof.
  split; [ | split].
  - intros r seconds H429 Hatoi Hfit.
    unfold client.Backoff. rewrite decide_True by exact H429.
    assert (Hne : http.Get (http.Headers r) "Retry-After" ≠ EmptyString).
    { intros Hempty. rewrite Hempty in Hatoi. discriminate. }
    rewrite decide_True by exact Hne. rewrite Hatoi. mred.
    apply wrap_in_range, Hfit.
  - intros r H429 Hatoi Hwf.
    pose proof (next_window_range _ Hwf) as Hb.
    assert (Heq : fst (client.Backoff env min max attemptNum (Some r) st)
                  = strava.timeUntilNext15MinWindow (env_Now env (trace st))).
    { unfold client.Backoff. rewrite decide_True by exact H429.
      destruct (strconv.Atoi (http.Get (http.Headers r) "Retry-After")) as [seconds bad].
      cbn [snd] in Hatoi. subst bad.
      case_decide; mred; reflexivity. }
    rewrite Heq. split; [reflexivity | exact Hb].
  - intros resp Hnot.
    assert (Heq : fst (client.Backoff env min max attemptNum resp st)
                  = let wait := goint.wrap (min * client.shiftOne attemptNum) in
                    if decide (max < wait) then max else wait).
    { unfold client.Backoff. destruct resp as [r|]; [ | mred; reflexivity].
      rewrite decide_False by (apply Hnot; reflexivity). mred. reflexivity. }
    rewrite Heq. cbv zeta. split.
    + intros Hn Hfit. rewrite shiftOne_small by exact Hn. rewrite wrap_in_range by exact Hfit.
      case_decide; lia.
    + intros Hn. unfold client.shiftOne.
      rewrite (decide_False (P := 0 <= attemptNum < 64)) by lia.
      rewrite Z.mul_0_r. change (goint.wrap 0) with 0. case_decide; lia.
Qed.

End BackoffPolicy.

Section BackoffExamples.

Lemma Backoff_waits_witness :
  fst (client.Backoff paged_env strava.defaultInitialBackoff strava.defaultMaxBackoff 3
         (Some (http.mkResponse 429 (<["Retry-After" := ["120"]]> ∅) "")) st0)
  = 120 * gotime.Second ∧
  2 * gotime.Second
  < fst (client.Backoff paged_env strava.defaultInitialBackoff strava.defaultMaxBackoff 3
           (Some (http.mkResponse 429 (<["Retry-After" := ["Wed, 21 Oct 2026 07:28:00 GMT"]]> ∅) ""))
           st0)
  ∧ fst (client.Backoff paged_env strava.defaultInitialBackoff strava.defaultMaxBackoff 3
           (Some (http.mkResponse 503 ∅ "")) st0)
    = Z.min (strava.defaultInitialBackoff * 2 ^ 3) strava.defaultMaxBackoff.
Proof.
  pose proof (Backoff_waits paged_env strava.defaultInitialBackoff strava.defaultMaxBackoff 3 st0)
    as (Hafter & Hwindow & Hexp).
  split; [ | split].
  - apply Hafter; [reflexivity | vm_compute; reflexivity | ].
    unfold goint.in_range, goint.MinInt64, goint.MaxInt64, gotime.Second. lia.
  - apply Hwindow; [reflexivity | vm_compute; reflexivity | unfold gotime.wf; cbn; lia].
  - apply Hexp; [intros r [= <-]; cbn; discriminate | lia | ].
    unfold goint.in_range, goint.MinInt64, goint.MaxInt64. vm_compute. split; discriminate.
Defined.

End BackoffExamples.

(* ================================================================== *)
(** * Further properties of the page loop                               *)
(* ================================================================== *)

Section PageLoopAnyCallback.
Variable env : Env.

Lemma fetchActivitiesPage_answered (st : St) (page after : Z) (items : list strava.Activity) :
  answers_page env page items →
  ∃ rl st1, client.fetchActivitiesPage env page after st = ((items, rl, None), st1).
Proof.
  intros Hans. destruct (Hans (trace st) (cursor after)) as (resp & HDo & Hcode & Hdec).
  unfold client.fetchActivitiesPage, client.updateRateLimit. fold (cursor after). mred.
  rewrite HDo. mred.
  rewrite (decide_False (P := http.StatusCode resp = http.StatusTooManyRequests))
    by (rewrite Hcode; discriminate).
  rewrite (decide_False (P := http.StatusCode resp ≠ http.StatusOK)) by (intros Hn; apply Hn, Hcode).
  rewrite Hdec. mred. eexists _, _. reflexivity.
Qed.

Lemma fetchActivitiesPage_failed (st : St) (page after : Z) (e : error) :
  fails_page env page e →
  ∃ rl st1, client.fetchActivitiesPage env page after st = (([], rl, Some e), st1).
Proof.
  intros Hfail. pose proof (Hfail (trace st) (cursor after)) as Hf.
  unfold client.fetchActivitiesPage, client.updateRateLimit. fold (cursor after). mred.
  destruct Hf as [err | resp H429 | resp Hn429 Hn200 | resp err H200 Hdec]; mred.
  - eexists _, _. reflexivity.
  - rewrite (decide_True (P := http.StatusCode resp = http.StatusTooManyRequests)) by exact H429.
    mred. rewrite decide_True by exact H429. mred. eexists _, _. reflexivity.
  - rewrite !(decide_False (P := http.StatusCode resp = http.StatusTooManyRequests)) by exact Hn429.
    rewrite (decide_True (P := http.StatusCode resp ≠ http.StatusOK)) by exact Hn200.
    mred. eexists _, _. reflexivity.
  - rewrite !(decide_False (P := http.StatusCode resp = http.StatusTooManyRequests))
      by (rewrite H200; discriminate).
    rewrite (decide_False (P := http.StatusCode resp ≠ http.StatusOK)) by (intros Hn; apply Hn, H200).
    rewrite Hdec. mred. eexists _, _. reflexivity.
Qed.

(** The turns of the loop over pages that are answered and not empty. *)
Lemma fetchLoop_good_pages (good : list (list strava.Activity)) :
  ∀ (p : Z) (all : list strava.Activity) (st : St) (fuel : nat) (after : Z)
    (progress : client.ProgressCallback),
  (∀ (j : nat) items, good !! j = Some items →
     items ≠ [] ∧ answers_page env (p + Z.of_nat j) items) →
  ∃ st',
    client.fetchLoop env (length good + fuel) after progress all p st
    = client.fetchLoop env fuel after progress (all ++ concat good)
        (p + Z.of_nat (length good)) st'.
Proof.
  induction good as [|items good IH]; intros p all st fuel after progress Hgood.
  - exists st. cbn [length concat]. rewrite app_nil_r, Z.add_0_r. reflexivity.
  - destruct (Hgood 0%nat items eq_refl) as [Hne Hans].
    rewrite Z.add_0_r in Hans.
    destruct (fetchActivitiesPage_answered st p after items Hans) as (rl & st1 & Hpage).
    cbn [length Nat.add client.fetchLoop]. unfold bind at 1. rewrite Hpage.
    cbn [fst snd]. unfold bind at 1. cbn [fst snd].
    rewrite decide_False by (destruct items; [congruence | discriminate]).
    match goal with
    | |- context [client.fetchLoop env _ after progress (all ++ items) (p + 1) ?s] =>
        destruct (IH (p + 1) (all ++ items) s fuel after progress) as (st' & Heq)
    end.
    { intros j its Hj. destruct (Hgood (S j) its Hj) as [H1 H2]. split; [exact H1 | ].
      replace (p + 1 + Z.of_nat j) with (p + Z.of_nat (S j)) by lia. exact H2. }
    exists st'. rewrite Heq. cbn [concat]. rewrite <- app_assoc.
    replace (p + 1 + Z.of_nat (length good)) with (p + Z.of_nat (S (length good))) by lia.
    reflexivity.
Qed.

Lemma fetchLoop_last_empty (fuel : nat) (p after : Z) (progress : client.ProgressCallback)
    (all : list strava.Activity) (st : St) :
  answers_page env p [] →
  fst (client.fetchLoop env (S fuel) after progress all p st) = Some (all, None).
Proof.
  intros Hans. destruct (fetchActivitiesPage_answered st p after [] Hans) as (rl & st1 & Hpage).
  cbn [client.fetchLoop]. unfold bind at 1. rewrite Hpage.
  cbn [fst snd]. unfold bind at 1. cbn [fst snd length].
  rewrite decide_True by reflexivity. reflexivity.
Qed.

Lemma fetchLoop_last_failed (fuel : nat) (p after : Z) (progress : client.ProgressCallback)
    (all : list strava.Activity) (st : St) (e : error) :
  fails_page env p e →
  fst (client.fetchLoop env (S fuel) after progress all p st) = Some (all, Some e).
Proof.
  intros Hfail. destruct (fetchActivitiesPage_failed st p after e Hfail) as (rl & st1 & Hpage).
  cbn [client.fetchLoop]. unfold bind at 1. rewrite Hpage.
  cbn [fst snd]. unfold bind at 1. cbn [fst snd]. reflexivity.
Qed.

Lemma leading_lookup (pages : list (list strava.Activity)) :
  ∀ (j : nat) items, leading pages !! j = Some items →
  items ≠ [] ∧ page_items pages (1 + Z.of_nat j) = items.
Proof.
  unfold page_items.
  induction pages as [|[|a items0] pages IH]; intros j items Hj; cbn [leading] in Hj.
  - discriminate.
  - discriminate.
  - replace (Z.to_nat (1 + Z.of_nat j - 1)) with j by lia.
    destruct j as [|j]; cbn in Hj.
    + injection Hj as <-. split; [discriminate | reflexivity].
    + destruct (IH j items Hj) as [H1 H2]. split; [exact H1 | ].
      replace (Z.to_nat (1 + Z.of_nat j - 1)) with j in H2 by lia. exact H2.
Qed.

Lemma leading_end (pages : list (list strava.Activity)) :
  page_items pages (1 + Z.of_nat (length (leading pages))) = [].
Proof.
  unfold page_items.
  replace (Z.to_nat (1 + Z.of_nat (length (leading pages)) - 1)) with (length (leading pages)) by lia.
  induction pages as [|[|a items0] pages IH]; cbn [leading length nth]; auto.
Qed.

Lemma serves_answers (pages : list (list strava.Activity)) (p : Z) :
  serves env pages → 1 <= p → answers_page env p (page_items pages p).
Proof. intros Hsrv Hp tr after. exact (Hsrv tr p after Hp). Qed.

(** X6. What a fetch returns does not depend on what an observing
    progress callback does, and a delta fetch reads the pages as a full
    fetch does: against a server that serves [pages], both return the
    items of the pages before the first empty one, in order and without
    an error, for the nil callback and for every callback that reads the
    result it is shown and acts on the world (logs, records, counts)
    without writing into the slice of items of that result. *)
Theorem fetch_result_whatever_the_callback (pages : list (list strava.Activity))
    (progress : client.ProgressCallback) (since : gotime.Time) (fuel : nat) (st : St) :
  serves env pages → (length (leading pages) < fuel)%nat →
  fst (client.FetchAllActivities env fuel progress st) = Some (concat (leading pages), None) ∧
  fst (client.FetchActivitiesSince env fuel since progress st)
  = Some (concat (leading pages), None).
Proof.
  intros Hsrv Hfuel.
  assert (Hloop : ∀ after, fst (client.fetchLoop env fuel after progress [] 1 st)
                           = Some (concat (leading pages), None)).
  { intros after.
    destruct fuel as [|fuel]; [lia | ].
    replace (S fuel) with (length (leading pages) + S (fuel - length (leading pages)))%nat by lia.
    destruct (fetchLoop_good_pages (leading pages) 1 [] st
                (S (fuel - length (leading pages))) after progress) as (st' & Heq).
    { intros j items Hj. destruct (leading_lookup pages j items Hj) as [H1 H2].
      split; [exact H1 | ]. rewrite <- H2. apply serves_answers; [exact Hsrv | lia]. }
    rewrite Heq. cbn [app]. apply fetchLoop_last_empty.
    rewrite <- (leading_end pages). apply serves_answers; [exact Hsrv | lia]. }
  split; apply Hloop.
Qed.

(** X7. A failing page ends the fetch with that page's error and the
    items of the pages before it: when the first pages are answered with
    the non-empty [good] and the next request fails (transport error,
    429, another status, or a body that does not decode), both fetches
    return the items of [good] together with the error. *)
Theorem fetch_failure_keeps_earlier_pages (good : list (list strava.Activity)) (e : error)
    (progress : client.ProgressCallback) (since : gotime.Time) (fuel : nat) (st : St) :
  (∀ (j : nat) items, good !! j = Some items →
     items ≠ [] ∧ answers_page env (1 + Z.of_nat j) items) →
  fails_page env (1 + Z.of_nat (length good)) e →
  (length good < fuel)%nat →
  fst (client.FetchAllActivities env fuel progress st) = Some (concat good, Some e) ∧
  fst (client.FetchActivitiesSince env fuel since progress st) = Some (concat good, Some e).
Proof.
  intros Hgood Hfail Hfuel.
  assert (Hloop : ∀ after, fst (client.fetchLoop env fuel after progress [] 1 st)
                           = Some (concat good, Some e)).
  { intros after.
    destruct fuel as [|fuel]; [lia | ].
    replace (S fuel) with (length good + S (fuel - length good))%nat by lia.
    destruct (fetchLoop_good_pages good 1 [] st (S (fuel - length good)) after progress Hgood)
      as (st' & Heq).
    rewrite Heq. cbn [app]. apply fetchLoop_last_failed. exact Hfail. }
  split; apply Hloop.
Qed.

End PageLoopAnyCallback.

(** The page loop under a callback that leaves one event per call and
    does nothing else: [mark] recognises the event, which is neither a
    request nor a statement of the database. *)
Section PageLoopNotified.
Variable env : Env.
Variable f : strava.FetchResult → M unit.
Variable mark : Event → bool.
Hypothesis f_notifies :
  ∀ result st, ∃ e, f result st = (tt, mkSt (trace st ++ [e]) (rateLimit st)) ∧ mark e = true.
Hypothesis mark_not_request : ∀ req out, mark (EvDo req out) = false.

Lemma marked_not_request (e : Event) : mark e = true → requests [e] = [].
Proof.
  intros Hmark. destruct e; try reflexivity.
  rewrite mark_not_request in Hmark. discriminate.
Qed.

(** One turn of the loop: a request, a call of the callback, and the
    decision on what the page brought. *)
Lemma fetchLoop_turn (fuel : nat) (after : Z) (all : list strava.Activity) (p : Z) (st : St) :
  ∃ out acts rl0 err e st2,
    fst (client.fetchActivitiesPage env p after st) = (acts, rl0, err) ∧
    trace st2 = trace st ++ [EvDo (GetActivities p (cursor after)) out; e] ∧
    mark e = true ∧
    client.fetchLoop env (S fuel) after (Some f) all p st
    = match err with
      | Some e' => (Some (all, Some e'), st2)
      | None =>
          if decide (length acts = 0%nat) then (Some (all, None), st2)
          else client.fetchLoop env fuel after (Some f) (all ++ acts) (p + 1) st2
      end.
Proof.
  assert (Hpage : ∃ out res rl,
             client.fetchActivitiesPage env p after st
             = (res, mkSt (trace st ++ [EvDo (GetActivities p (cursor after)) out]) rl)).
  { unfold client.fetchActivitiesPage, client.updateRateLimit. fold (cursor after). mred.
    destruct (env_Do env (trace st) (GetActivities p (cursor after))) as [err|resp]; mred.
    - eexists _, _, _. reflexivity.
    - repeat case_decide; mred;
        try destruct (env_decodeActivities env (http.Body resp)); mred;
        eexists _, _, _; reflexivity. }
  destruct Hpage as (out & [[acts rl0] err] & rl & Hpage).
  set (result := {| strava.Activities := acts;
                    strava.RateLimit := rl0;
                    strava.Page := p;
                    strava.TotalFetched := Z.of_nat (length all) + Z.of_nat (length acts);
                    strava.Error := None;
                    strava.RetryCount := 0;
                    strava.IsRetrying := false |}).
  set (st1 := mkSt (trace st ++ [EvDo (GetActivities p (cursor after)) out]) rl) in *.
  destruct (f_notifies result st1) as (e & Hfe & Hmark).
  exists out, acts, rl0, err, e, (mkSt (trace st1 ++ [e]) (rateLimit st1)).
  split; [rewrite Hpage; reflexivity | ].
  split; [cbn [trace st1]; rewrite <- app_assoc; reflexivity | ].
  split; [exact Hmark | ].
  cbn [client.fetchLoop]. unfold bind at 1. rewrite Hpage.
  cbn [fst snd]. unfold bind at 1. unfold client.runProgress. fold result.
  rewrite Hfe. cbn [fst snd].
  destruct err; [reflexivity | case_decide; reflexivity].
Qed.

Lemma turn_projections (p after : Z) (out : error + http.Response) (e : Event)
    (new : list Event) :
  mark e = true →
  map fst (requests (EvDo (GetActivities p (cursor after)) out :: e :: new))
  = GetActivities p (cursor after) :: map fst (requests new) ∧
  length (List.filter mark (EvDo (GetActivities p (cursor after)) out :: e :: new))
  = S (length (List.filter mark new)) ∧
  (Forall (fun e => is_request e || mark e = true) new →
   Forall (fun e => is_request e || mark e = true)
     (EvDo (GetActivities p (cursor after)) out :: e :: new)).
Proof.
  intros Hmark.
  change (e :: new) with ([e] ++ new).
  split; [ | split].
  - rewrite requests_single, requests_app, (marked_not_request e Hmark). reflexivity.
  - cbn [List.filter app]. rewrite mark_not_request, Hmark. reflexivity.
  - intros Hall. constructor; [reflexivity | ].
    constructor; [rewrite Hmark; apply orb_true_r | exact Hall].
Qed.

Lemma page_requests_S (p after : Z) (n : nat) :
  page_requests p after (S n) = GetActivities p (cursor after) :: page_requests (p + 1) after n.
Proof.
  unfold page_requests. cbn [seq map]. rewrite Z.add_0_r. f_equal.
  rewrite <- seq_shift, map_map. apply map_ext. intros i. f_equal. lia.
Qed.

(** Against any server: the requests are for consecutive pages, with
    one call of the callback after each, and nothing is persisted. *)
Lemma fetchLoop_requests (fuel : nat) :
  ∀ (after : Z) (all : list strava.Activity) (p : Z) (st : St),
  ∃ (n : nat) new,
    (n <= fuel)%nat ∧
    trace (snd (client.fetchLoop env fuel after (Some f) all p st)) = trace st ++ new ∧
    map fst (requests new) = page_requests p after n ∧
    length (List.filter mark new) = n ∧
    Forall (fun e => is_request e || mark e = true) new.
Proof.
  induction fuel as [|fuel IH]; intros after all p st.
  - exists 0%nat, []. cbn. rewrite app_nil_r. repeat split; auto.
  - destruct (fetchLoop_turn fuel after all p st)
      as (out & acts & rl0 & err & e & st2 & _ & Htr2 & Hmark & Hstep).
    rewrite Hstep. clear Hstep.
    destruct (turn_projections p after out e [] Hmark) as (P1 & P2 & P3).
    assert (Hone : ∀ res : list strava.Activity * option error,
              ∃ (n : nat) new,
                (n <= S fuel)%nat ∧
                trace (snd (Some res, st2)) = trace st ++ new ∧
                map fst (requests new) = page_requests p after n ∧
                length (List.filter mark new) = n ∧
                Forall (fun e => is_request e || mark e = true) new).
    { intros res. exists 1%nat, [EvDo (GetActivities p (cursor after)) out; e].
      split; [lia | ]. split; [exact Htr2 | ].
      split; [rewrite P1, page_requests_S; reflexivity | ].
      split; [rewrite P2; reflexivity | apply P3; constructor]. }
    destruct err as [e'|]; [apply Hone | ].
    case_decide; [apply Hone | ].
    destruct (IH after (all ++ acts) (p + 1) st2) as (n & new & Hn & Htr & Hrq & Hmk & Hpa).
    destruct (turn_projections p after out e new Hmark) as (Q1 & Q2 & Q3).
    exists (S n), (EvDo (GetActivities p (cursor after)) out :: e :: new).
    split; [lia | ].
    split; [rewrite Htr, Htr2, <- app_assoc; reflexivity | ].
    split; [rewrite Q1, Hrq, page_requests_S; reflexivity | ].
    split; [rewrite Q2, Hmk; reflexivity | apply Q3; exact Hpa].
Qed.

(** Against a server that serves [pages]: the result, and one request
    more than there are pages before the first empty one. *)
Lemma fetchLoop_served_trace (good : list (list strava.Activity)) :
  ∀ (p : Z) (all : list strava.Activity) (st : St) (fuel : nat) (after : Z),
  (∀ (j : nat) items, good !! j = Some items →
     items ≠ [] ∧ answers_page env (p + Z.of_nat j) items) →
  answers_page env (p + Z.of_nat (length good)) [] →
  ∃ st' new,
    client.fetchLoop env (length good + S fuel) after (Some f) all p st
    = (Some (all ++ concat good, None), st') ∧
    trace st' = trace st ++ new ∧
    map fst (requests new) = page_requests p after (S (length good)) ∧
    length (List.filter mark new) = S (length good) ∧
    Forall (fun e => is_request e || mark e = true) new.
Proof.
  induction good as [|items good IH]; intros p all st fuel after Hgood Hlast.
  - cbn [length Nat.add] in *. rewrite Z.add_0_r in Hlast.
    destruct (fetchLoop_turn fuel after all p st)
      as (out & acts & rl0 & err & e & st2 & Hpage & Htr2 & Hmark & Hstep).
    destruct (fetchActivitiesPage_answered env st p after [] Hlast) as (rl & st1 & Hans).
    rewrite Hans in Hpage. cbn [fst] in Hpage. injection Hpage as <- <- <-.
    rewrite Hstep. cbn [length]. rewrite decide_True by reflexivity.
    destruct (turn_projections p after out e [] Hmark) as (P1 & P2 & P3).
    exists st2, [EvDo (GetActivities p (cursor after)) out; e].
    split; [cbn [concat]; rewrite app_nil_r; reflexivity | ].
    split; [exact Htr2 | ].
    split; [rewrite P1, page_requests_S; reflexivity | ].
    split; [rewrite P2; reflexivity | apply P3; constructor].
  - destruct (Hgood 0%nat items eq_refl) as [Hne Hans0]. rewrite Z.add_0_r in Hans0.
    cbn [length Nat.add].
    destruct (fetchLoop_turn (length good + S fuel) after all p st)
      as (out & acts & rl0 & err & e & st2 & Hpage & Htr2 & Hmark & Hstep).
    destruct (fetchActivitiesPage_answered env st p after items Hans0) as (rl & st1 & Hans).
    rewrite Hans in Hpage. cbn [fst] in Hpage. injection Hpage as <- <- <-.
    rewrite Hstep. rewrite decide_False by (destruct items; [congruence | discriminate]).
    destruct (IH (p + 1) (all ++ items) st2 fuel after) as (st' & new & Heq & Htr & Hrq & Hmk & Hpa).
    { intros j its Hj. destruct (Hgood (S j) its Hj) as [H1 H2]. split; [exact H1 | ].
      replace (p + 1 + Z.of_nat j) with (p + Z.of_nat (S j)) by lia. exact H2. }
    { replace (p + 1 + Z.of_nat (length good)) with (p + Z.of_nat (length (items :: good)))
        by (cbn [length]; lia). exact Hlast. }
    destruct (turn_projections p after out e new Hmark) as (Q1 & Q2 & Q3).
    exists st', (EvDo (GetActivities p (cursor after)) out :: e :: new).
    split; [rewrite Heq; cbn [concat]; rewrite <- app_assoc; reflexivity | ].
    split; [rewrite Htr, Htr2, <- app_assoc; reflexivity | ].
    split; [rewrite Q1, Hrq, (page_requests_S p after (S (length good))); reflexivity | ].
    split; [rewrite Q2, Hmk; reflexivity | apply Q3; exact Hpa].
Qed.

Lemma fetch_phase (pages : list (list strava.Activity)) (after : Z) (fuel : nat) (st : St) :
  serves env pages → (length (leading pages) < fuel)%nat →
  ∃ st' new,
    client.fetchLoop env fuel after (Some f) [] 1 st = (Some (concat (leading pages), None), st') ∧
    trace st' = trace st ++ new ∧
    map fst (requests new) = page_requests 1 after (S (length (leading pages))) ∧
    length (List.filter mark new) = S (length (leading pages)) ∧
    Forall (fun e => is_request e || mark e = true) new.
Proof.
  intros Hsrv Hfuel.
  replace fuel with (length (leading pages) + S (fuel - S (length (leading pages))))%nat by lia.
  apply (fetchLoop_served_trace (leading pages) 1 [] st).
  - intros j items Hj. destruct (leading_lookup pages j items Hj) as [H1 H2].
    split; [exact H1 | ]. rewrite <- H2. apply serves_answers; [exact Hsrv | lia].
  - rewrite <- (leading_end pages). apply serves_answers; [exact Hsrv | lia].
Qed.

Lemma fetch_phase_failed (good : list (list strava.Activity)) (e : error) (after : Z)
    (fuel : nat) (st : St) :
  (∀ (j : nat) items, good !! j = Some items →
     items ≠ [] ∧ answers_page env (1 + Z.of_nat j) items) →
  fails_page env (1 + Z.of_nat (length good)) e →
  (length good < fuel)%nat →
  ∃ st' new,
    client.fetchLoop env fuel after (Some f) [] 1 st = (Some (concat good, Some e), st') ∧
    trace st' = trace st ++ new ∧
    Forall (fun e => is_request e || mark e = true) new.
Proof.
  intros Hgood Hfail Hfuel.
  destruct (fetchLoop_requests fuel after [] 1 st) as (n & new & _ & Htr & _ & _ & Hall).
  assert (Hval : fst (client.fetchLoop env fuel after (Some f) [] 1 st)
                 = Some (concat good, Some e)).
  { destruct fuel as [|fuel]; [lia | ].
    replace (S fuel) with (length good + S (fuel - length good))%nat by lia.
    destruct (fetchLoop_good_pages env good 1 [] st (S (fuel - length good)) after (Some f) Hgood)
      as (st' & Heq).
    rewrite Heq. cbn [app]. apply fetchLoop_last_failed. exact Hfail. }
  destruct (client.fetchLoop env fuel after (Some f) [] 1 st) as [res st'].
  cbn [fst snd] in *. subst res. exists st', new. auto.
Qed.

End PageLoopNotified.

Section PageLoopRecorded.
Variable env : Env.

Lemma recordProgress_notifies (result : strava.FetchResult) (st : St) :
  ∃ e, (fun r => emit (EvFetchProgress r)) result st = (tt, mkSt (trace st ++ [e]) (rateLimit st)) ∧
       is_progress e = true.
Proof. eexists. split; reflexivity. Qed.

(** X8. Against any server, whatever it answers, the page loop asks for
    the pages 1, 2, 3, ... in order, each once, calls the callback once
    per request, and puts the same cursor on every request: the Unix
    time of [since] when that is positive, none otherwise (so a delta
    fetch from the zero time is a full fetch). A full fetch never sends a
    cursor. *)
Theorem page_requests_in_order (since : gotime.Time) (fuel : nat) (st : St) :
  (let r := client.FetchActivitiesSince env fuel since recordProgress st in
   ∃ n : nat,
     (n <= fuel)%nat ∧
     map fst (requests (new_events st (snd r)))
     = map (fun i => GetActivities (1 + Z.of_nat i)
                       (if decide (0 < gotime.unixSec since) then Some (gotime.unixSec since)
                        else None)) (seq 0 n) ∧
     length (List.filter is_progress (new_events st (snd r))) = n) ∧
  (let r := client.FetchAllActivities env fuel recordProgress st in
   ∃ n : nat,
     (n <= fuel)%nat ∧
     map fst (requests (new_events st (snd r)))
     = map (fun i => GetActivities (1 + Z.of_nat i) None) (seq 0 n) ∧
     length (List.filter is_progress (new_events st (snd r))) = n).
Proof.
  split; cbv zeta.
  - unfold client.FetchActivitiesSince, recordProgress.
    destruct (fetchLoop_requests env _ is_progress recordProgress_notifies
                (fun _ _ => eq_refl) fuel (gotime.unixSec since) [] 1 st)
      as (n & new & Hn & Htr & Hreq & Hprog & _).
    exists n. rewrite (new_events_app _ _ _ Htr). auto.
  - unfold client.FetchAllActivities, recordProgress.
    destruct (fetchLoop_requests env _ is_progress recordProgress_notifies
                (fun _ _ => eq_refl) fuel 0 [] 1 st) as (n & new & Hn & Htr & Hreq & Hprog & _).
    exists n. rewrite (new_events_app _ _ _ Htr). auto.
Qed.

End PageLoopRecorded.

Section PageLoopExamples.

(** The three-page server with the callback of the client's tests,
    which records every result it is shown. *)
Lemma fetch_result_whatever_the_callback_witness :
  fst (client.FetchAllActivities paged_env 5 recordProgress st0)
  = Some ([run1; ride2; swim3], None) ∧
  fst (client.FetchActivitiesSince paged_env 5 (gotime.mkTime 1700000000 0 0)
         recordProgress st0)
  = Some ([run1; ride2; swim3], None).
Proof.
  apply (fetch_result_whatever_the_callback paged_env three_pages recordProgress
           (gotime.mkTime 1700000000 0 0) 5 st0 paged_env_serves).
  cbn. lia.
Defined.

Lemma fetch_failure_keeps_earlier_pages_witness :
  fst (client.FetchAllActivities broken_env 5 None st0)
  = Some ([run1; ride2; swim3], Some (ErrUnexpectedStatus 500)) ∧
  fst (client.FetchActivitiesSince broken_env 5 (gotime.mkTime 1700000000 0 0) None st0)
  = Some ([run1; ride2; swim3], Some (ErrUnexpectedStatus 500)).
Proof.
  apply (fetch_failure_keeps_earlier_pages broken_env [[run1; ride2]; [swim3]]
           (ErrUnexpectedStatus 500) None (gotime.mkTime 1700000000 0 0) 5 st0).
  - intros [|[|j]] items Hj; try discriminate; injection Hj as <-;
      (split; [discriminate | ]); intros tr after; eexists; cbn;
      (split; [reflexivity | split; reflexivity]).
  - intros tr after. cbn.
    apply (failure_status broken_env (http.mkResponse 500 ∅ "")); cbn; discriminate.
  - cbn. lia.
Defined.

End PageLoopExamples.

(* ================================================================== *)
(** * Further properties of the persisting of fetched records           *)
(* ================================================================== *)

Section Projections.

Lemma omap_none {B : Type} (g : Event → option B) (l : list Event) :
  Forall (fun e => g e = None) l → omap g l = [].
Proof.
  induction 1 as [|e l He _ IH]; [reflexivity | ].
  rewrite omap_step, He. exact IH.
Qed.

Lemma persist_attempts_app (l1 l2 : list Event) :
  persist_attempts (l1 ++ l2) = persist_attempts l1 ++ persist_attempts l2.
Proof. apply omap_app. Qed.

Lemma save_calls_app (l1 l2 : list Event) : save_calls (l1 ++ l2) = save_calls l1 ++ save_calls l2.
Proof. apply omap_app. Qed.

Lemma fetch_events_persist_nothing (mark : Event → bool) (new : list Event) :
  (∀ p res, mark (EvCreateActivity p res) = false) →
  Forall (fun e => is_request e || mark e = true) new → persist_attempts new = [].
Proof.
  intros Hmark Hall. apply omap_none. eapply Forall_impl; [exact Hall | ].
  intros e He. destruct e; try reflexivity. cbn in He. rewrite Hmark in He. discriminate.
Qed.

Lemma fetch_events_save_nothing (mark : Event → bool) (new : list Event) :
  (∀ c t n, mark (EvSaveProgress c t n) = false) →
  Forall (fun e => is_request e || mark e = true) new → save_calls new = [].
Proof.
  intros Hmark Hall. apply omap_none. eapply Forall_impl; [exact Hall | ].
  intros e He. destruct e; try reflexivity. cbn in He. rewrite Hmark in He. discriminate.
Qed.

End Projections.

Section DeltaSaveLoop.
Variable env : Env.
Variable f : Z → Z → string → M unit.
Hypothesis f_records :
  ∀ current total name st,
    f current total name st = (tt, mkSt (trace st ++ [EvSaveProgress current total name]) (rateLimit st)).

(** The save loop of [SyncDelta] from index [i]: the records before the
    first failure are saved and reported, the failing one ends the loop. *)
Lemma SyncDelta_save_run (activities : list strava.Activity) :
  ∀ (total i : Z) (st : St),
  let r := syncsvc.SyncDelta_save env (Some f) total i activities st in
  ∃ (k : nat) new,
    trace (snd r) = trace st ++ new ∧
    save_calls new
    = imap (fun j a => (i + Z.of_nat j + 1, total, strava.Name a)) (take k activities) ∧
    ((k = length activities ∧ fst r = (total, None) ∧
      persist_attempts new = map saved_ok activities) ∨
     (∃ a e, activities !! k = Some a ∧
             fst r = (i + Z.of_nat k, Some (Wrapped "saving activity" e)) ∧
             persist_attempts new = map saved_ok (take k activities) ++ [(strava.ID a, Some e)])).
Proof.
  induction activities as [|a rest IH]; intros total i st; cbv zeta.
  - exists 0%nat, []. cbn. rewrite app_nil_r. split; [reflexivity | ]. split; [reflexivity | ].
    left. auto.
  - cbn [syncsvc.SyncDelta_save]. mred.
    destruct (env_CreateActivity env (trace st) (syncsvc.ConvertActivityToParams a)) as [e|] eqn:Hc.
    + exists 0%nat, [EvCreateActivity (syncsvc.ConvertActivityToParams a) (Some e)].
      cbn [fst snd trace take]. split; [reflexivity | ]. split; [reflexivity | ].
      right. exists a, e. split; [reflexivity | ].
      split; [rewrite Z.add_0_r; reflexivity | reflexivity].
    + rewrite f_records. cbn [fst snd trace rateLimit].
      match goal with
      | |- context [syncsvc.SyncDelta_save env _ total (i + 1) rest ?s] =>
          destruct (IH total (i + 1) s) as (k & new & Htr & Hcalls & Hres)
      end.
      cbv zeta in Htr, Hcalls, Hres.
      exists (S k), (EvCreateActivity (syncsvc.ConvertActivityToParams a) None
                     :: EvSaveProgress (i + 1) total (strava.Name a) :: new).
      split; [rewrite Htr; cbn [trace]; rewrite <- !app_assoc; reflexivity | ].
      split.
      { unfold save_calls. rewrite !omap_step. fold (save_calls new). rewrite Hcalls.
        cbn [take]. rewrite imap_cons. f_equal; [f_equal; f_equal; lia | ].
        apply imap_ext. intros j b _. cbn. f_equal. f_equal. lia. }
      destruct Hres as [(Hk & Hfst & Hpa) | (b & e & Hb & Hfst & Hpa)].
      * left. split; [cbn [length]; lia | ]. split; [exact Hfst | ].
        unfold persist_attempts. rewrite !omap_step. fold (persist_attempts new).
        rewrite Hpa. reflexivity.
      * right. exists b, e. split; [exact Hb | ].
        split; [rewrite Hfst; f_equal; lia | ].
        unfold persist_attempts. rewrite !omap_step. fold (persist_attempts new).
        rewrite Hpa. reflexivity.
Qed.

End DeltaSaveLoop.

Section DeltaSave.
Variable env : Env.

(** X9. A delta sync saves the fetched records in the order fetched and
    stops at the first one the database refuses. The number it returns
    is the number of records saved: all of them with no error, or the
    position of the refused record with its error. The save callback is
    called after each saved record with its 1-based position, the total
    and the record's name. *)
Theorem SyncDelta_counts_saved_records (pages : list (list strava.Activity))
    (since : gotime.Time) (fuel : nat) (st : St) :
  serves env pages → (length (leading pages) < fuel)%nat →
  let fetched := concat (leading pages) in
  let r := syncsvc.SyncDelta env fuel since recordProgress recordSave st in
  let new := new_events st (snd r) in
  ∃ k : nat,
    save_calls new = imap (save_call (Z.of_nat (length fetched))) (take k fetched) ∧
    ((k = length fetched ∧ fst r = Some (Z.of_nat (length fetched), None) ∧
      persist_attempts new = map saved_ok fetched) ∨
     (∃ a e, fetched !! k = Some a ∧
             fst r = Some (Z.of_nat k, Some (Wrapped "saving activity" e)) ∧
             persist_attempts new = map saved_ok (take k fetched) ++ [(strava.ID a, Some e)])).
Proof.
  intros Hsrv Hfuel. cbv zeta.
  destruct (fetch_phase env _ is_progress (recordProgress_notifies) (fun _ _ => eq_refl)
              pages (gotime.unixSec since) fuel st Hsrv Hfuel)
    as (st1 & newf & Hfetch & Htrf & _ & _ & Hall).
  pose proof (fetch_events_persist_nothing is_progress newf (fun _ _ => eq_refl) Hall) as Hpf.
  pose proof (fetch_events_save_nothing is_progress newf (fun _ _ _ => eq_refl) Hall) as Hsf.
  set (fetched := concat (leading pages)) in *.
  assert (Hrun : syncsvc.SyncDelta env fuel since recordProgress recordSave st
                 = if decide (length fetched = 0%nat) then (Some (0, None), st1)
                   else (Some (fst (syncsvc.SyncDelta_save env recordSave
                                      (Z.of_nat (length fetched)) 0 fetched st1)),
                         snd (syncsvc.SyncDelta_save env recordSave
                                (Z.of_nat (length fetched)) 0 fetched st1))).
  { unfold syncsvc.SyncDelta, client.FetchActivitiesSince, recordProgress.
    unfold bind at 1. rewrite Hfetch. cbn [fst snd].
    case_decide; reflexivity. }
  rewrite Hrun. clear Hrun.
  destruct (decide (length fetched = 0%nat)) as [Hlen | Hlen].
  - exists 0%nat. cbn [fst snd]. rewrite (new_events_app _ _ _ Htrf), Hpf, Hsf.
    destruct fetched; [ | discriminate]. split; [reflexivity | ]. left. auto.
  - destruct (SyncDelta_save_run env
                (fun current total name => emit (EvSaveProgress current total name))
                (fun _ _ _ _ => eq_refl) fetched
                (Z.of_nat (length fetched)) 0 st1) as (k & new & Htr & Hcalls & Hres).
    fold recordSave in Htr, Hcalls, Hres.
    cbv zeta in Htr, Hcalls, Hres.
    assert (Hnew : new_events st
                     (snd (syncsvc.SyncDelta_save env recordSave (Z.of_nat (length fetched)) 0
                             fetched st1)) = newf ++ new).
    { apply new_events_app. rewrite Htr, Htrf, <- app_assoc. reflexivity. }
    exists k. cbn [fst snd]. rewrite Hnew, save_calls_app, persist_attempts_app, Hpf, Hsf.
    cbn [app]. split; [rewrite Hcalls; apply imap_ext; intros j a _; reflexivity | ].
    destruct Hres as [(Hk & Hfst & Hpa) | (a & e & Ha & Hfst & Hpa)].
    + left. rewrite Hfst. auto.
    + right. exists a, e. rewrite Hfst, Z.add_0_l. auto.
Qed.

End DeltaSave.

Section DeltaSaveExamples.

Lemma SyncDelta_counts_saved_records_witness :
  let r := syncsvc.SyncDelta (refusing_env 3) 5 (gotime.mkTime 1700000000 0 0)
             recordProgress recordSave st0 in
  fst r = Some (2, Some (Wrapped "saving activity" disk_error)) ∧
  persist_attempts (new_events st0 (snd r)) = [(1, None); (2, None); (3, Some disk_error)] ∧
  ∃ k : nat,
    save_calls (new_events st0 (snd r)) = imap (save_call 3) (take k [run1; ride2; swim3]) ∧
    ((k = 3%nat ∧ fst r = Some (3, None) ∧
      persist_attempts (new_events st0 (snd r)) = map saved_ok [run1; ride2; swim3]) ∨
     (∃ a e, [run1; ride2; swim3] !! k = Some a ∧
             fst r = Some (Z.of_nat k, Some (Wrapped "saving activity" e)) ∧
             persist_attempts (new_events st0 (snd r))
             = map saved_ok (take k [run1; ride2; swim3]) ++ [(strava.ID a, Some e)])).
Proof.
  cbv zeta. split; [vm_compute; reflexivity | ]. split; [vm_compute; reflexivity | ].
  refine (SyncDelta_counts_saved_records (refusing_env 3) three_pages
            (gotime.mkTime 1700000000 0 0) 5 st0 _ _).
  - intros tr p after Hp. destruct (paged_env_serves tr p after Hp) as (resp & H1 & H2 & H3).
    exists resp. auto.
  - cbn. lia.
Defined.

End DeltaSaveExamples.

Section WorkerSync.
Variable env : Env.
Hypothesis ctx_alive : ∀ tr, env_ctxErr env tr = None.

Lemma WaitForRateLimit_fresh (tr : list Event) :
  client.WaitForRateLimit env (mkSt tr strava.RateLimitInfo_zero)
  = (None, mkSt tr strava.RateLimitInfo_zero).
Proof. vm_compute. reflexivity. Qed.

Lemma progressCallback_notifies (result : strava.FetchResult) (st : St) :
  ∃ e, workers.progressCallback result st = (tt, mkSt (trace st ++ [e]) (rateLimit st)) ∧
       is_log e = true.
Proof. eexists. split; reflexivity. Qed.

Lemma initialProgressCallback_notifies (result : strava.FetchResult) (st : St) :
  ∃ e, workers.initialProgressCallback result st = (tt, mkSt (trace st ++ [e]) (rateLimit st)) ∧
       is_log e = true.
Proof. eexists. split; reflexivity. Qed.

Lemma save_blocks_saved_count (activities : list strava.Activity) (evs : list Event) (n : Z) :
  save_blocks activities evs n →
  n = Z.of_nat (length (List.filter succeeded (persist_attempts evs))) ∧ requests evs = [].
Proof.
  induction 1 as [|a rest evs n _ [IH1 IH2]|a e rest evs n _ [IH1 IH2]].
  - split; reflexivity.
  - unfold saved_block. cbn [app]. unfold persist_attempts, requests. rewrite !omap_step.
    fold (persist_attempts evs). fold (requests evs).
    cbn [List.filter succeeded snd length]. split; [lia | exact IH2].
  - unfold failed_block. cbn [app]. unfold persist_attempts, requests. rewrite !omap_step.
    fold (persist_attempts evs). fold (requests evs).
    cbn [List.filter succeeded snd length]. split; [exact IH1 | exact IH2].
Qed.

Lemma getLatestActivityDate_trace (st : St) :
  ∃ res, snd (workers.getLatestActivityDate env st)
         = mkSt (trace st ++ [EvGetRecentActivities 1 res]) (rateLimit st).
Proof.
  unfold workers.getLatestActivityDate. mred.
  destruct (env_GetRecentActivities env (trace st) 1) as [e|[|a l]];
    try destruct (db.Valid (db.StartDate a)); eexists; reflexivity.
Qed.

(** A run of [syncActivities] against a server that serves [pages]: what
    precedes the fetch, the fetch, and the saving. *)
Lemma syncActivities_run (pages : list (list strava.Activity)) (fuel : nat) (st : St) :
  serves env pages →
  (∀ tr, ∃ token, env_GetValidAccessToken env tr = inr token) →
  (length (leading pages) < fuel)%nat →
  ∃ st' pre newf post,
    workers.syncActivities env fuel st = (Some tt, st') ∧
    trace st' = trace st ++ pre ++ newf ++ post ∧
    requests pre = [] ∧ persist_attempts pre = [] ∧
    length (requests newf) = S (length (leading pages)) ∧ persist_attempts newf = [] ∧
    requests post = [] ∧
    map fst (persist_attempts post) = map strava.ID (concat (leading pages)) ∧
    (concat (leading pages) ≠ [] →
     last post
     = Some (EvLog InfoLevel "activity sync completed"
               [("fetched", Z.of_nat (length (concat (leading pages))));
                ("saved", Z.of_nat (length (List.filter succeeded (persist_attempts post))))])).
Proof.
  intros Hsrv Htok Hfuel.
  unfold workers.syncActivities. mred.
  destruct (Htok (trace st ++ [EvLog InfoLevel "starting activity sync" []])) as [tok Htk].
  rewrite Htk. rewrite WaitForRateLimit_fresh. cbn [fst snd trace rateLimit].
  match goal with
  | |- context [workers.getLatestActivityDate env ?s] =>
      destruct (getLatestActivityDate_trace s) as (res & Hlatest);
      destruct (workers.getLatestActivityDate env s) as [[latestDate err] st3]
  end.
  cbn [fst snd trace rateLimit] in *. subst st3.
  assert (Hfetch : ∀ stx, ∃ stf lg newf,
            (if negb (gotime.IsZero latestDate)
             then fun st4 : St =>
                    client.FetchActivitiesSince env fuel latestDate (Some workers.progressCallback)
                      {| trace := trace st4 ++ [EvLog InfoLevel "performing delta sync" []];
                         rateLimit := rateLimit st4 |}
             else fun st4 : St =>
                    client.FetchAllActivities env fuel (Some workers.progressCallback)
                      {| trace := trace st4 ++ [EvLog InfoLevel "performing full sync" []];
                         rateLimit := rateLimit st4 |}) stx
            = (Some (concat (leading pages), None), stf) ∧
            trace stf = trace stx ++ EvLog InfoLevel lg [] :: newf ∧
            length (requests newf) = S (length (leading pages)) ∧ persist_attempts newf = []).
  { intros stx.
    destruct (negb (gotime.IsZero latestDate)).
    - unfold client.FetchActivitiesSince.
      destruct (fetch_phase env _ is_log progressCallback_notifies (fun _ _ => eq_refl)
                  pages (gotime.unixSec latestDate) fuel
                  {| trace := trace stx ++ [EvLog InfoLevel "performing delta sync" []];
                     rateLimit := rateLimit stx |} Hsrv Hfuel)
        as (stf & newf & Heq & Htr & Hreq & _ & Hall).
      exists stf, "performing delta sync", newf. split; [exact Heq | ].
      split; [rewrite Htr; cbn [trace]; rewrite <- app_assoc; reflexivity | ].
      split; [rewrite <- (length_map fst), Hreq; unfold page_requests;
              rewrite length_map, length_seq; reflexivity | ].
      exact (fetch_events_persist_nothing is_log newf (fun _ _ => eq_refl) Hall).
    - unfold client.FetchAllActivities.
      destruct (fetch_phase env _ is_log progressCallback_notifies (fun _ _ => eq_refl)
                  pages 0 fuel
                  {| trace := trace stx ++ [EvLog InfoLevel "performing full sync" []];
                     rateLimit := rateLimit stx |} Hsrv Hfuel)
        as (stf & newf & Heq & Htr & Hreq & _ & Hall).
      exists stf, "performing full sync", newf. split; [exact Heq | ].
      split; [rewrite Htr; cbn [trace]; rewrite <- app_assoc; reflexivity | ].
      split; [rewrite <- (length_map fst), Hreq; unfold page_requests;
              rewrite length_map, length_seq; reflexivity | ].
      exact (fetch_events_persist_nothing is_log newf (fun _ _ => eq_refl) Hall). }
  match goal with
  | |- context [?T] =>
      match T with
      | (if negb (gotime.IsZero latestDate) then _ else _) ?stx =>
          set (fetchrun := T) in *;
          destruct (Hfetch stx) as (stf & lg & newf & Heq & Htrf & Hreqf & Hpf);
          change (fetchrun = (Some (concat (leading pages), None), stf)) in Heq;
          clearbody fetchrun; subst fetchrun;
          assert (Hwarn : ∃ w, trace stx = (trace st ++ [EvLog InfoLevel "starting activity sync" []]
                                            ++ [EvGetValidAccessToken (inr tok)]
                                            ++ [EvGetRecentActivities 1 res]) ++ w ∧
                               requests w = [] ∧ persist_attempts w = [])
      end
  end.
  { destruct err; cbn [snd trace].
    - eexists [_]. rewrite <- !app_assoc. split; [reflexivity | split; reflexivity].
    - exists []. rewrite <- !app_assoc. split; [reflexivity | split; reflexivity]. }
  destruct Hwarn as (w & Htrw & Hrw & Hpw).
  clear Hfetch. cbn [fst snd].
  assert (Htr4 : trace stf = trace st ++ ([EvLog InfoLevel "starting activity sync" [];
                                           EvGetValidAccessToken (inr tok);
                                           EvGetRecentActivities 1 res] ++ w
                                          ++ [EvLog InfoLevel lg []]) ++ newf).
  { rewrite Htrf, Htrw, <- !app_assoc. reflexivity. }
  assert (Hpre : requests ([EvLog InfoLevel "starting activity sync" [];
                            EvGetValidAccessToken (inr tok);
                            EvGetRecentActivities 1 res] ++ w ++ [EvLog InfoLevel lg []]) = [] ∧
                 persist_attempts ([EvLog InfoLevel "starting activity sync" [];
                                    EvGetValidAccessToken (inr tok);
                                    EvGetRecentActivities 1 res] ++ w
                                   ++ [EvLog InfoLevel lg []]) = []).
  { rewrite !requests_app, !persist_attempts_app, Hrw, Hpw. split; reflexivity. }
  destruct Hpre as [Hpre1 Hpre2].
  set (pre := [EvLog InfoLevel "starting activity sync" [];
               EvGetValidAccessToken (inr tok);
               EvGetRecentActivities 1 res] ++ w ++ [EvLog InfoLevel lg []]) in *.
  clearbody pre. clear Htrf Htrw.
  set (fetched := concat (leading pages)) in *.
  destruct (decide (length fetched = 0%nat)) as [Hlen | Hlen].
  - eexists _, pre, newf, [EvLog InfoLevel "no new activities to sync" []].
    split; [rewrite GetRateLimit_state; reflexivity | ].
    cbn [trace]. split; [rewrite Htr4, <- !app_assoc; reflexivity | ].
    repeat (split; [assumption || reflexivity | ]).
    split; [destruct fetched; [reflexivity | discriminate] | ].
    intros Hne. destruct fetched; [congruence | discriminate].
  - destruct (saveActivities_blocks env ctx_alive fetched (Z.of_nat (length fetched)) 0
                {| trace := trace stf ++ [EvLog InfoLevel "fetched activities"
                                            [("count", Z.of_nat (length fetched))]];
                   rateLimit := rateLimit stf |})
      as (n & st6 & news & Hsave & Htrs & Hblocks).
    destruct (save_blocks_saved_count _ _ _ Hblocks) as [Hn Hrs].
    pose proof (save_blocks_attempts _ _ _ Hblocks) as Hats.
    eexists _, pre, newf,
      (EvLog InfoLevel "fetched activities" [("count", Z.of_nat (length fetched))]
       :: news ++ [EvLog InfoLevel "activity sync completed"
                     [("fetched", Z.of_nat (length fetched)); ("saved", 0 + n)]]).
    split; [rewrite GetRateLimit_state, Hsave; cbn [fst snd]; rewrite GetRateLimit_state;
            reflexivity | ].
    cbn [trace]. split; [rewrite Htrs; cbn [trace]; rewrite Htr4, <- !app_assoc; reflexivity | ].
    repeat (split; [assumption | ]).
    split; [rewrite requests_log, requests_app, Hrs; reflexivity | ].
    assert (Hpost : persist_attempts
                      (EvLog InfoLevel "fetched activities" [("count", Z.of_nat (length fetched))]
                       :: news ++ [EvLog InfoLevel "activity sync completed"
                                     [("fetched", Z.of_nat (length fetched)); ("saved", 0 + n)]])
                    = persist_attempts news).
    { unfold persist_attempts. rewrite omap_step. rewrite omap_app. cbn. apply app_nil_r. }
    rewrite Hpost. split; [exact Hats | ].
    intros _. rewrite app_comm_cons, last_snoc. rewrite Z.add_0_l, Hn. reflexivity.
Qed.

(** X10. A sync of the activity syncer whose pages are all served and
    whose context stays alive tries to save every record it fetched, in
    the order fetched and whatever the database answers. It makes one
    request per page, the empty last one included, and its closing line
    reports as saved the number of inserts that succeeded. *)
Theorem syncActivities_saves_what_it_fetched (pages : list (list strava.Activity))
    (fuel : nat) (st : St) :
  serves env pages →
  (∀ tr, ∃ token, env_GetValidAccessToken env tr = inr token) →
  (length (leading pages) < fuel)%nat →
  let r := workers.syncActivities env fuel st in
  let new := new_events st (snd r) in
  fst r = Some tt ∧
  length (requests new) = S (length (leading pages)) ∧
  map fst (persist_attempts new) = map strava.ID (concat (leading pages)) ∧
  (concat (leading pages) ≠ [] →
   last new
   = Some (EvLog InfoLevel "activity sync completed"
             [("fetched", Z.of_nat (length (concat (leading pages))));
              ("saved", Z.of_nat (length (List.filter succeeded (persist_attempts new))))])).
Proof.
  intros Hsrv Htok Hfuel.
  destruct (syncActivities_run pages fuel st Hsrv Htok Hfuel)
    as (st' & pre & newf & post & Hrun & Htr & Hr1 & Hp1 & Hr2 & Hp2 & Hr3 & Hp3 & Hlast).
  cbv zeta. rewrite Hrun. cbn [fst snd]. rewrite (new_events_app _ _ _ Htr).
  rewrite !requests_app, !persist_attempts_app, Hr1, Hr3, Hp1, Hp2. cbn [app].
  rewrite app_nil_r.
  split; [reflexivity | ]. split; [exact Hr2 | ]. split; [exact Hp3 | ].
  intros Hne. specialize (Hlast Hne).
  destruct post as [|e post]; [discriminate | ].
  rewrite !app_assoc. rewrite last_app_cons. rewrite <- Hlast.
  destruct post; reflexivity.
Qed.

(** The save loop of [SyncOnce] while the context is alive. *)
Lemma saveInitial_run (activities : list strava.Activity) :
  ∀ (fetched saved : Z) (st : St),
  ∃ n st' new,
    workers.saveInitial env fetched activities saved st = ((saved + n, None), st') ∧
    trace st' = trace st ++ new ∧
    requests new = [] ∧
    map fst (persist_attempts new) = map strava.ID activities ∧
    n = Z.of_nat (length (List.filter succeeded (persist_attempts new))).
Proof.
  induction activities as [|a rest IH]; intros fetched saved st.
  - exists 0, st, []. cbn. rewrite Z.add_0_r, app_nil_r. auto.
  - cbn [workers.saveInitial]. mred. rewrite ctx_alive.
    destruct (env_CreateActivity env (trace st) (syncsvc.ConvertActivityToParams a)) as [e|] eqn:Hc.
    + match goal with
      | |- context [workers.saveInitial env fetched rest saved ?s] =>
          destruct (IH fetched saved s) as (n & st' & new & Heq & Htr & Hrq & Hpa & Hn)
      end.
      exists n, st', (failed_block a e ++ new).
      split; [exact Heq | ].
      split; [rewrite Htr; cbn [trace]; unfold failed_block; rewrite <- !app_assoc; reflexivity | ].
      unfold failed_block. cbn [app]. unfold persist_attempts, requests. rewrite !omap_step.
      fold (persist_attempts new). fold (requests new).
      cbn [map fst List.filter succeeded snd]. rewrite Hpa.
      split; [exact Hrq | ]. split; [reflexivity | exact Hn].
    + match goal with
      | |- context [workers.saveInitial env fetched rest (saved + 1) ?s] =>
          destruct (IH fetched (saved + 1) s) as (n & st' & new & Heq & Htr & Hrq & Hpa & Hn)
      end.
      exists (n + 1), st', (EvCreateActivity (syncsvc.ConvertActivityToParams a) None :: new).
      split; [rewrite Heq; do 2 f_equal; lia | ].
      split; [rewrite Htr; cbn [trace]; rewrite <- !app_assoc; reflexivity | ].
      unfold persist_attempts, requests. rewrite !omap_step.
      fold (persist_attempts new). fold (requests new).
      cbn [map fst List.filter succeeded snd length]. rewrite Hpa.
      split; [exact Hrq | ]. split; [reflexivity | lia].
Qed.

(** X11. [SyncOnce] against a server that serves [pages], with a context
    that stays alive: it returns no error whatever the database answers
    to the inserts, after trying to save every fetched record in the
    order fetched; its closing line reports as saved the number of
    inserts that succeeded. *)
Theorem SyncOnce_hides_save_failures (pages : list (list strava.Activity))
    (fuel : nat) (st : St) :
  serves env pages →
  (length (leading pages) < fuel)%nat →
  let r := workers.SyncOnce env fuel st in
  let new := new_events st (snd r) in
  fst r = Some None ∧
  length (requests new) = S (length (leading pages)) ∧
  map fst (persist_attempts new) = map strava.ID (concat (leading pages)) ∧
  (concat (leading pages) ≠ [] →
   last new
   = Some (EvLog InfoLevel "initial sync completed"
             [("fetched", Z.of_nat (length (concat (leading pages))));
              ("saved", Z.of_nat (length (List.filter succeeded (persist_attempts new))))])).
Proof.
  intros Hsrv Hfuel.
  assert (Hrun : ∃ st' pre newf post,
            workers.SyncOnce env fuel st = (Some None, st') ∧
            trace st' = trace st ++ pre ++ newf ++ post ∧
            requests pre = [] ∧ persist_attempts pre = [] ∧
            length (requests newf) = S (length (leading pages)) ∧ persist_attempts newf = [] ∧
            requests post = [] ∧
            map fst (persist_attempts post) = map strava.ID (concat (leading pages)) ∧
            (concat (leading pages) ≠ [] →
             last post
             = Some (EvLog InfoLevel "initial sync completed"
                       [("fetched", Z.of_nat (length (concat (leading pages))));
                        ("saved",
                         Z.of_nat (length (List.filter succeeded (persist_attempts post))))]))).
  { unfold workers.SyncOnce. mred.
    set (res := env_GetRecentActivities env
                  (trace st ++ [EvLog InfoLevel "performing initial sync" []]) 1).
    clearbody res.
    match goal with
    | |- context [?T] =>
        match T with
        | (if negb (gotime.IsZero ?latestDate) then _ else _) ?stx =>
            set (fetchrun := T) in *;
            assert (Hfetch : ∃ stf lg newf,
                      fetchrun = (Some (concat (leading pages), None), stf) ∧
                      trace stf = trace stx ++ EvLog InfoLevel lg [] :: newf ∧
                      length (requests newf) = S (length (leading pages)) ∧
                      persist_attempts newf = []);
            [ subst fetchrun; destruct (negb (gotime.IsZero latestDate)) | ]
        end
    end.
    - unfold client.FetchActivitiesSince.
      match goal with
      | |- context [client.fetchLoop env fuel ?a _ [] 1 ?s] =>
          destruct (fetch_phase env _ is_log initialProgressCallback_notifies (fun _ _ => eq_refl)
                      pages a fuel s Hsrv Hfuel) as (stf & newf & Heq & Htr & Hreq & _ & Hall)
      end.
      exists stf, "performing delta sync", newf. split; [exact Heq | ].
      split; [rewrite Htr; cbn [trace]; rewrite <- app_assoc; reflexivity | ].
      split; [rewrite <- (length_map fst), Hreq; unfold page_requests;
              rewrite length_map, length_seq; reflexivity | ].
      exact (fetch_events_persist_nothing is_log newf (fun _ _ => eq_refl) Hall).
    - unfold client.FetchAllActivities.
      match goal with
      | |- context [client.fetchLoop env fuel ?a _ [] 1 ?s] =>
          destruct (fetch_phase env _ is_log initialProgressCallback_notifies (fun _ _ => eq_refl)
                      pages a fuel s Hsrv Hfuel) as (stf & newf & Heq & Htr & Hreq & _ & Hall)
      end.
      exists stf, "performing full sync (no existing activities)", newf. split; [exact Heq | ].
      split; [rewrite Htr; cbn [trace]; rewrite <- app_assoc; reflexivity | ].
      split; [rewrite <- (length_map fst), Hreq; unfold page_requests;
              rewrite length_map, length_seq; reflexivity | ].
      exact (fetch_events_persist_nothing is_log newf (fun _ _ => eq_refl) Hall).
    - destruct Hfetch as (stf & lg & newf & Heq & Htrf & Hreqf & Hpf).
      clearbody fetchrun. subst fetchrun. cbn [fst snd trace] in *.
      set (pre := [EvLog InfoLevel "performing initial sync" []; EvGetRecentActivities 1 res;
                   EvLog InfoLevel lg []]).
      assert (Htr4 : trace stf = trace st ++ pre ++ newf).
      { rewrite Htrf. unfold pre. rewrite <- !app_assoc. reflexivity. }
      clear Htrf.
      set (fetched := concat (leading pages)) in *.
      destruct (decide (length fetched = 0%nat)) as [Hlen | Hlen].
      + eexists _, pre, newf, [EvLog InfoLevel "no activities to sync" []].
        split; [reflexivity | ].
        cbn [trace]. split; [rewrite Htr4, <- !app_assoc; reflexivity | ].
        repeat (split; [assumption || reflexivity | ]).
        split; [destruct fetched; [reflexivity | discriminate] | ].
        intros Hne. destruct fetched; [congruence | discriminate].
      + destruct (saveInitial_run fetched (Z.of_nat (length fetched)) 0
                    {| trace := trace stf ++ [EvLog InfoLevel "saving activities"
                                                [("count", Z.of_nat (length fetched))]];
                       rateLimit := rateLimit stf |})
          as (n & st6 & news & Hsave & Htrs & Hrs & Hats & Hn).
        eexists _, pre, newf,
          (EvLog InfoLevel "saving activities" [("count", Z.of_nat (length fetched))]
           :: news ++ [EvLog InfoLevel "initial sync completed"
                         [("fetched", Z.of_nat (length fetched)); ("saved", 0 + n)]]).
        split; [rewrite Hsave; cbn [fst snd]; cbv beta iota; reflexivity | ].
        cbn [trace]. split; [rewrite Htrs; cbn [trace]; rewrite Htr4, <- !app_assoc; reflexivity | ].
        repeat (split; [assumption || reflexivity | ]).
        split; [rewrite requests_log, requests_app, Hrs; reflexivity | ].
        assert (Hpost : persist_attempts
                          (EvLog InfoLevel "saving activities" [("count", Z.of_nat (length fetched))]
                           :: news ++ [EvLog InfoLevel "initial sync completed"
                                         [("fetched", Z.of_nat (length fetched)); ("saved", 0 + n)]])
                        = persist_attempts news).
        { unfold persist_attempts. rewrite omap_step. rewrite omap_app. cbn. apply app_nil_r. }
        rewrite Hpost. split; [exact Hats | ].
        intros _. rewrite app_comm_cons, last_snoc. rewrite Z.add_0_l, Hn. reflexivity. }
  destruct Hrun as (st' & pre & newf & post & Hrun & Htr & Hr1 & Hp1 & Hr2 & Hp2 & Hr3 & Hp3 & Hlast).
  cbv zeta. rewrite Hrun. cbn [fst snd]. rewrite (new_events_app _ _ _ Htr).
  rewrite !requests_app, !persist_attempts_app, Hr1, Hr3, Hp1, Hp2. cbn [app].
  rewrite app_nil_r.
  split; [reflexivity | ]. split; [exact Hr2 | ]. split; [exact Hp3 | ].
  intros Hne. specialize (Hlast Hne).
  destruct post as [|e post]; [discriminate | ].
  rewrite !app_assoc. rewrite last_app_cons. rewrite <- Hlast.
  destruct post; reflexivity.
Qed.

End WorkerSync.

Section WorkerSyncExamples.

Lemma refusing_env_serves (id : Z) : serves (refusing_env id) three_pages.
Proof.
  intros tr p after Hp. destruct (paged_env_serves tr p after Hp) as (resp & H1 & H2 & H3).
  exists resp. auto.
Qed.

Lemma syncActivities_saves_what_it_fetched_witness :
  let r := workers.syncActivities (refusing_env 2) 5 st0 in
  let new := new_events st0 (snd r) in
  fst r = Some tt ∧
  length (requests new) = 3%nat ∧
  map fst (persist_attempts new) = [1; 2; 3] ∧
  last new = Some (EvLog InfoLevel "activity sync completed" [("fetched", 3); ("saved", 2)]).
Proof.
  cbv zeta.
  destruct (syncActivities_saves_what_it_fetched (refusing_env 2) (fun _ => eq_refl) three_pages
              5 st0 (refusing_env_serves 2) (fun _ => ex_intro _ "token" eq_refl)
              ltac:(cbn; lia)) as (H1 & H2 & H3 & H4).
  split; [exact H1 | ]. split; [exact H2 | ]. split; [exact H3 | ].
  rewrite H4 by discriminate. vm_compute. reflexivity.
Defined.

Lemma SyncOnce_hides_save_failures_witness :
  let r := workers.SyncOnce (with_CreateActivity paged_env (fun _ _ => Some disk_error)) 5 st0 in
  let new := new_events st0 (snd r) in
  fst r = Some None ∧
  length (requests new) = 3%nat ∧
  map fst (persist_attempts new) = [1; 2; 3] ∧
  last new = Some (EvLog InfoLevel "initial sync completed" [("fetched", 3); ("saved", 0)]).
Proof.
  cbv zeta.
  destruct (SyncOnce_hides_save_failures
              (with_CreateActivity paged_env (fun _ _ => Some disk_error)) (fun _ => eq_refl)
              three_pages 5 st0) as (H1 & H2 & H3 & H4).
  - intros tr p after Hp. destruct (paged_env_serves tr p after Hp) as (resp & Ha & Hb & Hc).
    exists resp. auto.
  - cbn. lia.
  - split; [exact H1 | ]. split; [exact H2 | ]. split; [exact H3 | ].
    rewrite H4 by discriminate. vm_compute. reflexivity.
Defined.

End WorkerSyncExamples.

(* ================================================================== *)
(** * Further properties of the stored enrichment                       *)
(* ================================================================== *)

Section ZoneStatements.
Variable env : Env.

Lemma bucket_inserts_app (l1 l2 : list db.CreateZoneBucketParams) :
  bucket_inserts (l1 ++ l2) = bucket_inserts l1 ++ bucket_inserts l2.
Proof. apply map_app. Qed.

(** The bucket loop: every insert succeeds, or the first refused insert
    ends the loop. *)
Lemma createBuckets_trace (buckets : list strava.TimedZoneRange) :
  ∀ (zoneID : Z) (i : nat) (st : St),
  (∀ b, b ∈ buckets → fits_int64 (strava.Time b)) →
  let r := syncsvc.createBuckets env zoneID (Z.of_nat i) buckets st in
  let rows := imap (fun j => bucket_row zoneID (i + j)) buckets in
  (fst r = None ∧ trace (snd r) = trace st ++ bucket_inserts rows) ∨
  (∃ (k : nat) b e,
     buckets !! k = Some b ∧ fst r = Some (Wrapped "creating zone bucket" e) ∧
     trace (snd r) = trace st ++ bucket_inserts (take k rows)
                       ++ [EvCreateZoneBucket (bucket_row zoneID (i + k) b) (Some e)]).
Proof.
  induction buckets as [|b rest IH]; intros zoneID i st Hfits; cbv zeta.
  - left. cbn. rewrite app_nil_r. auto.
  - cbn [syncsvc.createBuckets]. mred.
    rewrite (float64_to_int64_whole_seconds (strava.Time b)) by (apply Hfits; left).
    change {| db.ActivityZoneID := zoneID; db.ZoneNumber := Z.of_nat i + 1;
              db.MinValue := strava.Min b; db.MaxValue := strava.Max b;
              db.TimeSeconds := whole_seconds (strava.Time b) |}
      with (bucket_row zoneID i b).
    assert (Hrows : imap (fun j => bucket_row zoneID (i + j)) (b :: rest)
                    = bucket_row zoneID i b :: imap (fun j => bucket_row zoneID (S i + j)) rest).
    { rewrite imap_cons, Nat.add_0_r. f_equal. apply imap_ext. intros j x _. cbn.
      f_equal. lia. }
    rewrite Hrows.
    destruct (env_CreateZoneBucket env (trace st) (bucket_row zoneID i b)) as [e|] eqn:Hres.
    + right. exists 0%nat, b, e. cbn [fst snd trace take bucket_inserts map app lookup].
      rewrite Nat.add_0_r. auto.
    + replace (Z.of_nat i + 1) with (Z.of_nat (S i)) by lia.
      assert (Hfits' : ∀ b', b' ∈ rest → fits_int64 (strava.Time b'))
        by (intros b' Hin; apply Hfits; right; exact Hin).
      match goal with
      | |- context [syncsvc.createBuckets env zoneID (Z.of_nat (S i)) rest ?s] =>
          destruct (IH zoneID (S i) s Hfits') as [[Hok Htr] | (k & b' & e & Hb & Herr & Htr)]
      end.
      * left. split; [exact Hok | ]. rewrite Htr. cbn [trace bucket_inserts map].
        rewrite <- app_assoc. reflexivity.
      * right. exists (S k), b', e. split; [exact Hb | ]. split; [exact Herr | ].
        rewrite Htr. cbn [trace take bucket_inserts map]. rewrite <- !app_assoc.
        replace (S i + k)%nat with (i + S k)%nat by lia. reflexivity.
Qed.

(** The zone loop: every zone is stored, or the first failing statement
    ends the loop, after the blocks of the zones before it. *)
Lemma storeZones_trace (zones : list strava.ActivityZone) :
  ∀ (activityID : Z) (st : St),
  (∀ zone b, zone ∈ zones → b ∈ strava.DistributionBuckets zone → fits_int64 (strava.Time b)) →
  let r := syncsvc.storeZones env activityID zones st in
  ∃ zoneIDs,
    (fst r = None ∧ length zoneIDs = length zones ∧
     trace (snd r) = trace st ++ concat (zip_with (zone_block activityID) zoneIDs zones)) ∨
    (∃ zone tail err,
       zones !! length zoneIDs = Some zone ∧ fst r = Some err ∧
       zone_failure activityID zone tail err ∧
       trace (snd r)
       = trace st ++ concat (zip_with (zone_block activityID) zoneIDs zones) ++ tail).
Proof.
  induction zones as [|zone rest IH]; intros activityID st Hfits; cbv zeta.
  - exists []. left. cbn. rewrite app_nil_r. auto.
  - cbn [syncsvc.storeZones]. mred.
    change {| db.ActivityID := activityID; db.ZoneType := strava.ZoneType zone;
              db.SensorBased := if strava.SensorBased zone then 1 else 0 |}
      with (zone_params activityID zone).
    destruct (env_CreateActivityZone env (trace st) (zone_params activityID zone))
      as [e|zoneID] eqn:Hcreate.
    { exists []. right. exists zone, [EvCreateActivityZone (zone_params activityID zone) (inl e)],
        (Wrapped "creating activity zone" e).
      cbn [fst snd trace length lookup zip_with concat app].
      split; [reflexivity | ]. split; [reflexivity | ]. split; [constructor | reflexivity]. }
    cbn [fst snd trace rateLimit].
    destruct (env_DeleteZoneBucketsForActivityZone env _ zoneID) as [e|] eqn:Hdel.
    { exists []. right.
      exists zone, [EvCreateActivityZone (zone_params activityID zone) (inr zoneID);
                    EvDeleteZoneBucketsForActivityZone zoneID (Some e)],
        (Wrapped "deleting existing zone buckets" e).
      cbn [fst snd trace length lookup zip_with concat app].
      split; [reflexivity | ]. split; [reflexivity | ].
      split; [constructor | rewrite <- app_assoc; reflexivity]. }
    cbn [fst snd trace rateLimit].
    match goal with
    | |- context [syncsvc.createBuckets env zoneID 0 ?bs ?s] =>
        pose proof (createBuckets_trace bs zoneID 0 s) as Hb;
        change (Z.of_nat 0) with 0 in Hb;
        destruct (syncsvc.createBuckets env zoneID 0 bs s) as [res stb] eqn:Hrun
    end.
    cbv zeta in Hb. cbn [fst snd trace Nat.add] in Hb.
    fold (zone_rows zoneID zone) in Hb.
    destruct Hb as [[Hok Htrb] | (k & b & e & Hk & Herr & Htrb)];
      [intros b Hin; apply (Hfits zone b); [left | exact Hin] | | ].
    + subst res. cbn [fst snd].
      assert (Hfits' : ∀ zone' b, zone' ∈ rest → b ∈ strava.DistributionBuckets zone' →
                                 fits_int64 (strava.Time b))
        by (intros zone' b Hz Hin; apply (Hfits zone' b); [right; exact Hz | exact Hin]).
      destruct (IH activityID stb Hfits')
        as (zoneIDs & [(Hok & Hlen & Htr) | (zone' & tail & err & Hz & Herr & Hfail & Htr)]).
      * exists (zoneID :: zoneIDs). left. split; [exact Hok | ].
        split; [cbn [length]; rewrite Hlen; reflexivity | ].
        rewrite Htr, Htrb. cbn [zip_with concat]. unfold zone_block at 2.
        rewrite <- !app_assoc. reflexivity.
      * exists (zoneID :: zoneIDs). right. exists zone', tail, err.
        split; [exact Hz | ]. split; [exact Herr | ]. split; [exact Hfail | ].
        rewrite Htr, Htrb. cbn [zip_with concat]. unfold zone_block at 2.
        rewrite <- !app_assoc. reflexivity.
    + subst res. cbn [fst snd].
      exists []. right.
      exists zone, (EvCreateActivityZone (zone_params activityID zone) (inr zoneID)
                      :: EvDeleteZoneBucketsForActivityZone zoneID None
                      :: bucket_inserts (take k (zone_rows zoneID zone))
                      ++ [EvCreateZoneBucket (bucket_row zoneID k b) (Some e)]),
        (Wrapped "creating zone bucket" e).
      cbn [length lookup zip_with concat app].
      split; [reflexivity | ]. split; [reflexivity | ].
      split; [constructor; exact Hk | ].
      rewrite Htrb, <- !app_assoc. reflexivity.
Qed.

Lemma SyncZonesForActivity_decoded (activityID : Z) (st : St) (resp : http.Response)
    (zones : list strava.ActivityZone) :
  env_Do env (trace st) (GetActivityZones activityID) = inr resp →
  http.StatusCode resp = http.StatusOK →
  env_decodeZones env (http.Body resp) = inr zones →
  ∃ st1,
    trace st1 = trace st ++ [EvDo (GetActivityZones activityID) (inr resp)] ∧
    syncsvc.SyncZonesForActivity env activityID st
    = (if decide (length zones = 0%nat) then ret None
       else syncsvc.storeZones env activityID zones) st1.
Proof.
  intros HDo Hcode Hdec.
  destruct (FetchActivityZones_resp env activityID st resp HDo) as (st1 & Htr1 & Hfetch).
  assert (Hres : zones_result env resp = (zones, None)).
  { unfold zones_result. rewrite Hcode, Hdec.
    unfold http.StatusOK, http.StatusPaymentRequired, http.StatusTooManyRequests,
      http.StatusNotFound.
    repeat case_decide; first [reflexivity | lia]. }
  rewrite Hres in Hfetch. exists st1. split; [exact Htr1 | ].
  unfold syncsvc.SyncZonesForActivity, bind. rewrite Hfetch. reflexivity.
Qed.

(** X12. The statements that store the zones of an activity, in the
    order they are sent: for each zone the upsert of the zone row (sensor
    based stored as 1 or 0), then the delete of the buckets under the
    identity the database handed out, then the bucket inserts. When a
    statement fails it is the last one sent: the zones before it stay
    stored and the failing zone keeps the rows inserted before the
    failure, already without its old buckets. *)
Theorem zone_statements_in_order (activityID : Z) (st : St) (resp : http.Response)
    (zones : list strava.ActivityZone) :
  env_Do env (trace st) (GetActivityZones activityID) = inr resp →
  http.StatusCode resp = http.StatusOK →
  env_decodeZones env (http.Body resp) = inr zones →
  (∀ zone b, zone ∈ zones → b ∈ strava.DistributionBuckets zone → fits_int64 (strava.Time b)) →
  let r := syncsvc.SyncZonesForActivity env activityID st in
  let request := EvDo (GetActivityZones activityID) (inr resp) in
  ∃ zoneIDs,
    (fst r = None ∧ length zoneIDs = length zones ∧
     new_events st (snd r)
     = request :: concat (zip_with (zone_block activityID) zoneIDs zones)) ∨
    (∃ zone tail err,
       zones !! length zoneIDs = Some zone ∧ fst r = Some err ∧
       zone_failure activityID zone tail err ∧
       new_events st (snd r)
       = request :: concat (zip_with (zone_block activityID) zoneIDs zones) ++ tail).
Proof.
  intros HDo Hcode Hdec Hfits. cbv zeta.
  destruct (SyncZonesForActivity_decoded activityID st resp zones HDo Hcode Hdec)
    as (st1 & Htr1 & Hsfa).
  rewrite Hsfa. clear Hsfa.
  destruct (decide (length zones = 0%nat)) as [Hlen | Hlen].
  - exists []. left. destruct zones; [ | discriminate].
    cbn [ret fst snd]. rewrite (new_events_app st st1 _ Htr1). auto.
  - destruct (storeZones_trace zones activityID st1 Hfits)
      as (zoneIDs & [(Hok & Hl & Htr) | (zone & tail & err & Hz & Herr & Hfail & Htr)]);
      exists zoneIDs; [left | right].
    + split; [exact Hok | ]. split; [exact Hl | ].
      apply new_events_app. rewrite Htr, Htr1, <- app_assoc. reflexivity.
    + exists zone, tail, err. split; [exact Hz | ]. split; [exact Herr | ].
      split; [exact Hfail | ].
      apply new_events_app. rewrite Htr, Htr1, <- app_assoc. reflexivity.
Qed.

End ZoneStatements.

Section ZoneStatementsExamples.

Lemma zone_statements_in_order_witness :
  let r := syncsvc.SyncZonesForActivity bucket_refusing_env 42 st0 in
  fst r = Some (Wrapped "creating zone bucket" disk_error) ∧
  new_events st0 (snd r)
  = [EvDo (GetActivityZones 42) (inr (http.mkResponse 200 ∅ "zones"));
     EvCreateActivityZone (db.mkCreateActivityZoneParams 42 "heartrate" 1) (inr 7);
     EvDeleteZoneBucketsForActivityZone 7 None;
     EvCreateZoneBucket (db.mkCreateZoneBucketParams 7 1 0 120 12) None;
     EvCreateZoneBucket (db.mkCreateZoneBucketParams 7 2 120 150 (-3)) None;
     EvCreateZoneBucket (db.mkCreateZoneBucketParams 7 3 150 (-1) 61) (Some disk_error)] ∧
  ∃ zoneIDs,
    (fst r = None ∧ length zoneIDs = 1%nat ∧
     new_events st0 (snd r)
     = EvDo (GetActivityZones 42) (inr (http.mkResponse 200 ∅ "zones"))
         :: concat (zip_with (zone_block 42) zoneIDs [hr_zone])) ∨
    (∃ zone tail err,
       [hr_zone] !! length zoneIDs = Some zone ∧ fst r = Some err ∧
       zone_failure 42 zone tail err ∧
       new_events st0 (snd r)
       = EvDo (GetActivityZones 42) (inr (http.mkResponse 200 ∅ "zones"))
           :: concat (zip_with (zone_block 42) zoneIDs [hr_zone]) ++ tail).
Proof.
  cbv zeta. split; [vm_compute; reflexivity | ]. split; [vm_compute; reflexivity | ].
  exact (zone_statements_in_order bucket_refusing_env 42 st0 (http.mkResponse 200 ∅ "zones")
           [hr_zone] eq_refl eq_refl eq_refl hr_zone_fits).
Defined.

End ZoneStatementsExamples.

(* ================================================================== *)
(** * Further properties of the enrichment runs                         *)
(* ================================================================== *)

Section NoZoneData.
Variable env : Env.
Hypothesis ctx_alive : ∀ tr, env_ctxErr env tr = None.
Hypothesis no_data :
  ∀ tr id, ∃ resp,
    env_Do env tr (GetActivityZones id) = inr resp ∧
    (http.StatusCode resp = http.StatusNotFound ∨
     (http.StatusCode resp = http.StatusOK ∧ env_decodeZones env (http.Body resp) = inr [])).

Lemma SyncZonesForActivity_no_data (id : Z) (st : St) :
  ∃ out st1,
    syncsvc.SyncZonesForActivity env id st = (None, st1) ∧
    trace st1 = trace st ++ [EvDo (GetActivityZones id) out].
Proof.
  destruct (no_data (trace st) id) as (resp & HDo & Hcase).
  destruct (FetchActivityZones_resp env id st resp HDo) as (st1 & Htr1 & Hfetch).
  assert (Hres : zones_result env resp = ([], None)).
  { unfold zones_result, http.StatusNotFound, http.StatusOK, http.StatusPaymentRequired,
      http.StatusTooManyRequests in *.
    destruct Hcase as [H404 | [H200 Hdec]].
    - rewrite H404. repeat case_decide; first [reflexivity | lia].
    - rewrite H200, Hdec. repeat case_decide; first [reflexivity | lia]. }
  rewrite Hres in Hfetch. exists (inr resp), st1. split; [ | exact Htr1].
  unfold syncsvc.SyncZonesForActivity, bind. rewrite Hfetch. reflexivity.
Qed.

Lemma SyncZones_loop_no_data (ids : list Z) :
  ∀ (total i synced consec : Z) (st : St),
  let r := syncsvc.SyncZones_loop env None total i ids synced consec st in
  ∃ new,
    fst r = (synced + Z.of_nat (length ids), None) ∧
    trace (snd r) = trace st ++ new ∧
    map fst (requests new) = map GetActivityZones ids ∧
    List.filter is_zone_write new = [].
Proof.
  induction ids as [|id rest IH]; intros total i synced consec st; cbv zeta.
  - exists []. cbn. rewrite Z.add_0_r, app_nil_r. auto.
  - destruct (SyncZonesForActivity_no_data id st) as (out & st1 & Hitem & Htr1).
    rewrite (loop_turn_synced env total i id rest synced consec st st1 Hitem), ctx_alive.
    match goal with
    | |- context [syncsvc.SyncZones_loop env None total (i + 1) rest (synced + 1) 0 ?s] =>
        destruct (IH total (i + 1) (synced + 1) 0 s) as (new & Hres & Htr & Hreq & Hw)
    end.
    exists (EvDo (GetActivityZones id) out :: pacing_wait :: new).
    split; [rewrite Hres; cbn [length]; f_equal; lia | ].
    split; [rewrite Htr; cbn [trace]; rewrite Htr1, <- !app_assoc; reflexivity | ].
    split; [rewrite requests_single; unfold pacing_wait; rewrite requests_wait; cbn [map fst];
            rewrite Hreq; reflexivity | ].
    cbn [List.filter is_zone_write pacing_wait]. exact Hw.
Qed.

(** X13. Activities the server has no zone data for (a 404, or an empty
    list) are counted as synced although nothing is stored for them: a
    batch over such a backlog asks for every item once, in order, sends
    no statement to the zone tables, and returns the length of the
    backlog with no error. *)
Theorem no_zone_data_counts_as_synced (batchSize : Z) (ids : list Z) (st : St) :
  env_GetActivitiesWithoutZones env (trace st) batchSize = inr ids →
  let r := syncsvc.SyncZones env batchSize None st in
  fst r = (Z.of_nat (length ids), None) ∧
  map fst (requests (new_events st (snd r))) = map GetActivityZones ids ∧
  List.filter is_zone_write (new_events st (snd r)) = [].
Proof.
  intros Hbacklog. cbv zeta.
  assert (Hrun : ∃ new, syncsvc.SyncZones env batchSize None st
                        = ((Z.of_nat (length ids), None),
                           snd (syncsvc.SyncZones env batchSize None st)) ∧
                        trace (snd (syncsvc.SyncZones env batchSize None st))
                        = trace st ++ EvGetActivitiesWithoutZones batchSize (inr ids) :: new ∧
                        map fst (requests new) = map GetActivityZones ids ∧
                        List.filter is_zone_write new = []).
  { unfold syncsvc.SyncZones. mred. rewrite Hbacklog.
    destruct (decide (length ids = 0%nat)) as [Hlen | Hlen].
    - exists []. destruct ids; [ | discriminate]. cbn. auto.
    - match goal with
      | |- context [syncsvc.SyncZones_loop env None ?t 0 ids 0 0 ?s] =>
          destruct (SyncZones_loop_no_data ids t 0 0 0 s) as (new & Hres & Htr & Hreq & Hw);
          destruct (syncsvc.SyncZones_loop env None t 0 ids 0 0 s) as [res st'] eqn:Hloop
      end.
      cbn [fst snd trace] in *. subst res. exists new.
      split; [reflexivity | ]. split; [rewrite Htr, <- app_assoc; reflexivity | ].
      split; assumption. }
  destruct Hrun as (new & Hres & Htr & Hreq & Hw).
  rewrite (new_events_app _ _ _ Htr). rewrite Hres at 1. cbn [fst].
  split; [reflexivity | ]. split; [exact Hreq | exact Hw].
Qed.

End NoZoneData.

Section NoZoneDataExample.

Lemma no_zone_data_counts_as_synced_witness :
  let r := syncsvc.SyncZones (no_zone_data_env [1; 2; 3]) 25 None st0 in
  fst r = (3, None) ∧
  map fst (requests (new_events st0 (snd r)))
  = [GetActivityZones 1; GetActivityZones 2; GetActivityZones 3] ∧
  List.filter is_zone_write (new_events st0 (snd r)) = [].
Proof.
  refine (no_zone_data_counts_as_synced (no_zone_data_env [1; 2; 3]) (fun _ => eq_refl) _
            25 [1; 2; 3] st0 _).
  - intros tr id. eexists. split; [reflexivity | left; reflexivity].
  - reflexivity.
Defined.

End NoZoneDataExample.

Section BatchRequests.
Variable env : Env.

Lemma SyncZones_loop_requests (ids : list Z) :
  ∀ (total i synced consec : Z) (st : St),
  let r := syncsvc.SyncZones_loop env None total i ids synced consec st in
  ∃ (k : nat) new,
    (k <= length ids)%nat ∧
    trace (snd r) = trace st ++ new ∧
    map fst (requests new) = map GetActivityZones (take k ids) ∧
    synced <= fst (fst r) <= synced + Z.of_nat k ∧
    (snd (fst r) = None → k = length ids).
Proof.
  induction ids as [|id rest IH]; intros total i synced consec st; cbv zeta.
  - exists 0%nat, []. cbn. rewrite app_nil_r. repeat split; auto; lia.
  - destruct (SyncZonesForActivity_shape env id st)
      as (out & newi & _ & Htri & Hreqi & _ & _ & _).
    destruct (syncsvc.SyncZonesForActivity env id st) as [res st1] eqn:Hitem.
    cbn [fst snd] in Htri.
    assert (Hone : ∀ (result : Z * option error) (st' : St) (tail : list Event),
              trace st' = trace st1 ++ tail → requests tail = [] →
              synced <= fst result <= synced + 1 → snd result ≠ None →
              ∃ (k : nat) new,
                (k <= length (id :: rest))%nat ∧
                trace (snd (result, st')) = trace st ++ new ∧
                map fst (requests new) = map GetActivityZones (take k (id :: rest)) ∧
                synced <= fst (fst (result, st')) <= synced + Z.of_nat k ∧
                (snd (fst (result, st')) = None → k = length (id :: rest))).
    { intros result st' tail Htr Htail Hcount Herr.
      exists 1%nat, (EvDo (GetActivityZones id) out :: newi ++ tail).
      split; [cbn; lia | ].
      split; [cbn [snd]; rewrite Htr, Htri, <- app_assoc; reflexivity | ].
      split; [rewrite requests_single, requests_app, Hreqi, Htail; reflexivity | ].
      cbn [fst snd]. split; [lia | ]. intros Hn. contradiction. }
    assert (Hmore : ∀ (synced' consec' : Z) (st' : St) (tail : list Event),
              trace st' = trace st1 ++ tail → requests tail = [] →
              synced <= synced' <= synced + 1 →
              let r' := syncsvc.SyncZones_loop env None total (i + 1) rest synced' consec' st' in
              ∃ (k : nat) new,
                (k <= length (id :: rest))%nat ∧
                trace (snd r') = trace st ++ new ∧
                map fst (requests new) = map GetActivityZones (take k (id :: rest)) ∧
                synced <= fst (fst r') <= synced + Z.of_nat k ∧
                (snd (fst r') = None → k = length (id :: rest))).
    { intros synced' consec' st' tail Htr Htail Hcount. cbv zeta.
      destruct (IH total (i + 1) synced' consec' st') as (k & new & Hk & Htrr & Hreq & Hc & Hall).
      exists (S k), (EvDo (GetActivityZones id) out :: (newi ++ tail) ++ new).
      split; [cbn [length]; lia | ].
      split; [rewrite Htrr, Htr, Htri, <- !app_assoc; reflexivity | ].
      split; [rewrite requests_single, !requests_app, Hreqi, Htail; cbn [app map fst take];
              rewrite Hreq; reflexivity | ].
      split; [lia | ]. intros Hn. cbn [length]. rewrite (Hall Hn). reflexivity. }
    destruct res as [e|].
    + destruct (decide (e = ErrPremiumRequired)) as [-> | Hnp].
      { rewrite (loop_turn_premium env total i id rest synced consec st st1 Hitem).
        apply (Hone _ _ []); [rewrite app_nil_r; reflexivity | reflexivity | cbn; lia | discriminate]. }
      destruct (decide (e = ErrRateLimited)) as [-> | Hnr].
      * destruct (decide (syncsvc.maxConsecutiveRateLimits <= consec + 1)) as [Hreached | Hbelow].
        -- rewrite (loop_turn_breaker env total i id rest synced consec st st1 Hitem Hreached).
           apply (Hone _ _ [breaker_log (consec + 1) synced]);
             [reflexivity | reflexivity | cbn; lia | discriminate].
        -- rewrite (loop_turn_rate_limited env total i id rest synced consec st st1 Hitem) by lia.
           apply (Hmore synced (consec + 1) st1 []);
             [rewrite app_nil_r; reflexivity | reflexivity | lia].
      * rewrite (loop_turn_other env total i id rest synced consec st st1 e Hitem Hnp Hnr).
        apply (Hmore synced 0 _ [EvLog WarnLevel "failed to sync zones" [("activity_id", id)]]);
          [reflexivity | reflexivity | lia].
    + rewrite (loop_turn_synced env total i id rest synced consec st st1 Hitem).
      destruct (env_ctxErr env (trace st1 ++ [pacing_wait])) as [e|] eqn:Hctx.
      * apply (Hone _ _ [pacing_wait]); [reflexivity | reflexivity | cbn; lia | discriminate].
      * apply (Hmore (synced + 1) 0 _ [pacing_wait]); [reflexivity | reflexivity | lia].
Qed.

(** X14. Whatever the server and the database answer, a batch asks for
    the zones of a prefix of the backlog it read, each item once and in
    the backlog's order; the number it reports as synced is never
    negative and never more than the number of requests it made, and a
    batch that ends without an error has asked for every item. A failed
    backlog query makes no request at all. *)
Theorem batch_requests_follow_backlog (batchSize : Z) (st : St) :
  let r := syncsvc.SyncZones env batchSize None st in
  match env_GetActivitiesWithoutZones env (trace st) batchSize with
  | inl err =>
      fst r = (0, Some (Wrapped "getting activities without zones" err)) ∧
      requests (new_events st (snd r)) = []
  | inr ids =>
      ∃ k : nat,
        (k <= length ids)%nat ∧
        map fst (requests (new_events st (snd r))) = map GetActivityZones (take k ids) ∧
        0 <= fst (fst r) <= Z.of_nat k ∧
        (snd (fst r) = None → k = length ids)
  end.
Proof.
  cbv zeta. unfold syncsvc.SyncZones. mred.
  destruct (env_GetActivitiesWithoutZones env (trace st) batchSize) as [err|ids] eqn:Hbacklog.
  - cbn [fst snd]. split; [reflexivity | ].
    erewrite new_events_app by (cbn [trace]; reflexivity). reflexivity.
  - destruct (decide (length ids = 0%nat)) as [Hlen | Hlen].
    + exists 0%nat. destruct ids; [ | discriminate]. cbn [fst snd length take map].
      erewrite new_events_app by (cbn [trace]; reflexivity).
      repeat split; auto; lia.
    + match goal with
      | |- context [syncsvc.SyncZones_loop env None ?t 0 ids 0 0 ?s] =>
          destruct (SyncZones_loop_requests ids t 0 0 0 s) as (k & new & Hk & Htr & Hreq & Hc & Hall);
          destruct (syncsvc.SyncZones_loop env None t 0 ids 0 0 s) as [res st'] eqn:Hloop
      end.
      cbn [fst snd trace] in *. exists k.
      rewrite <- app_assoc in Htr. rewrite (new_events_app _ _ _ Htr).
      split; [exact Hk | ]. split; [exact Hreq | ]. split; [lia | exact Hall].
Qed.

End BatchRequests.

Section DisabledOnlyBy402.
Variable env : Env.
Hypothesis ctx_ok : ctx_errors_only env.

Lemma SyncZones_loop_premium_only (ids : list Z) :
  ∀ (total i synced consec : Z) (st : St),
  let r := syncsvc.SyncZones_loop env None total i ids synced consec st in
  ∃ new, trace (snd r) = trace st ++ new ∧
         (snd (fst r) = Some ErrPremiumRequired → saw 402 new = true).
Proof.
  induction ids as [|id rest IH]; intros total i synced consec st; cbv zeta.
  - exists []. cbn. rewrite app_nil_r. split; [reflexivity | discriminate].
  - destruct (SyncZonesForActivity_shape env id st)
      as (out & newi & _ & Htri & Hreqi & Hp & _ & _).
    destruct (syncsvc.SyncZonesForActivity env id st) as [res st1] eqn:Hitem.
    cbn [fst snd] in Htri, Hp.
    assert (Hmore : ∀ (synced' consec' : Z) (st' : St) (tail : list Event),
              trace st' = trace st1 ++ tail →
              let r' := syncsvc.SyncZones_loop env None total (i + 1) rest synced' consec' st' in
              ∃ new, trace (snd r') = trace st ++ new ∧
                     (snd (fst r') = Some ErrPremiumRequired → saw 402 new = true)).
    { intros synced' consec' st' tail Htr. cbv zeta.
      destruct (IH total (i + 1) synced' consec' st') as (new & Htrr & Hsaw).
      exists ((EvDo (GetActivityZones id) out :: newi ++ tail) ++ new).
      split; [rewrite Htrr, Htr, Htri; cbn [app]; rewrite <- !app_assoc; reflexivity | ].
      intros Herr. rewrite saw_app, (Hsaw Herr). apply orb_true_r. }
    destruct res as [e|].
    + destruct (decide (e = ErrPremiumRequired)) as [-> | Hnp].
      { rewrite (loop_turn_premium env total i id rest synced consec st st1 Hitem).
        exists (EvDo (GetActivityZones id) out :: newi).
        split; [exact Htri | ]. intros _. cbn [snd fst].
        unfold saw. rewrite requests_single. cbn [existsb].
        rewrite (proj1 Hp eq_refl). reflexivity. }
      destruct (decide (e = ErrRateLimited)) as [-> | Hnr].
      * destruct (decide (syncsvc.maxConsecutiveRateLimits <= consec + 1)) as [Hreached | Hbelow].
        -- rewrite (loop_turn_breaker env total i id rest synced consec st st1 Hitem Hreached).
           eexists. cbn [fst snd trace]. split; [rewrite Htri, <- app_assoc; reflexivity | ].
           discriminate.
        -- rewrite (loop_turn_rate_limited env total i id rest synced consec st st1 Hitem) by lia.
           apply (Hmore synced (consec + 1) st1 []). rewrite app_nil_r. reflexivity.
      * rewrite (loop_turn_other env total i id rest synced consec st st1 e Hitem Hnp Hnr).
        apply (Hmore synced 0 _ [EvLog WarnLevel "failed to sync zones" [("activity_id", id)]]).
        reflexivity.
    + rewrite (loop_turn_synced env total i id rest synced consec st st1 Hitem).
      destruct (env_ctxErr env (trace st1 ++ [pacing_wait])) as [e|] eqn:Hctx.
      * eexists. cbn [fst snd trace]. split; [rewrite Htri, <- app_assoc; reflexivity | ].
        intros [= ->]. destruct (ctx_ok _ _ Hctx); discriminate.
      * apply (Hmore (synced + 1) 0 _ [pacing_wait]). reflexivity.
Qed.

Lemma SyncZones_premium_only (batchSize : Z) (st : St) :
  let r := syncsvc.SyncZones env batchSize None st in
  ∃ new, trace (snd r) = trace st ++ new ∧
         (snd (fst r) = Some ErrPremiumRequired → saw 402 new = true).
Proof.
  cbv zeta. unfold syncsvc.SyncZones. mred.
  destruct (env_GetActivitiesWithoutZones env (trace st) batchSize) as [err|ids].
  - eexists [_]. cbn [fst snd trace]. split; [reflexivity | discriminate].
  - destruct (decide (length ids = 0%nat)).
    + eexists [_]. cbn [fst snd trace]. split; [reflexivity | discriminate].
    + match goal with
      | |- context [syncsvc.SyncZones_loop env None ?t 0 ids 0 0 ?s] =>
          destruct (SyncZones_loop_premium_only ids t 0 0 0 s) as (new & Htr & Hsaw)
      end.
      cbn [trace] in Htr. rewrite Htr, <- app_assoc.
      eexists. split; [reflexivity | ].
      intros Herr. change (?a :: new) with ([a] ++ new). rewrite saw_app, (Hsaw Herr).
      apply orb_true_r.
Qed.

Lemma enabled_outcome_return (z : workers.ZoneSyncer) (st st' : St) (new : list Event) :
  trace st' = trace st ++ new → enabled_outcome z st (Some z, st').
Proof. intros Htr. exists new. split; [exact Htr | right; left; reflexivity]. Qed.

Lemma enabled_outcome_after (z : workers.ZoneSyncer) (st st1 : St)
    (r : option workers.ZoneSyncer * St) (seg : list Event) :
  trace st1 = trace st ++ seg → enabled_outcome z st1 r → enabled_outcome z st r.
Proof.
  intros Htr (new & Htr' & Hcases). exists (seg ++ new).
  split; [rewrite Htr', Htr, app_assoc; reflexivity | ].
  destruct Hcases as [H | [H | [H Hsaw]]]; [left; exact H | right; left; exact H | ].
  right; right. split; [exact H | ]. rewrite saw_app, Hsaw. apply orb_true_r.
Qed.

Lemma zoneLoop_enabled (fuel : nat) :
  ∀ (z : workers.ZoneSyncer) (totalSynced batchNum withoutZones : Z) (st : St),
  enabled_outcome z st (workers.zoneLoop env fuel z totalSynced batchNum withoutZones st).
Proof.
  induction fuel as [|fuel IH]; intros z totalSynced batchNum withoutZones st.
  - exists []. cbn. rewrite app_nil_r. split; [reflexivity | left; reflexivity].
  - cbn [workers.zoneLoop]. mred. rewrite !GetRateLimit_state.
    destruct (strava.IsApproachingDailyLimit (fst (client.GetRateLimit env st))).
    { eapply enabled_outcome_return. reflexivity. }
    destruct (strava.IsApproaching15MinLimit (fst (client.GetRateLimit env st))).
    { match goal with |- context [client.WaitForRateLimit env ?s] =>
        destruct (WaitForRateLimit_quiet env s) as (neww & Htrw & _);
        destruct (client.WaitForRateLimit env s) as [waited stw] eqn:Hwait end.
      cbn [fst snd trace] in Htrw |- *.
      destruct waited as [e|].
      - eapply enabled_outcome_return. cbn [trace]. rewrite Htrw, <- !app_assoc. reflexivity.
      - eapply enabled_outcome_after; [ | apply IH].
        rewrite Htrw, <- app_assoc. reflexivity. }
    destruct (SyncZones_premium_only (workers.batchSize z) st) as (news & Htrs & Hsaw).
    destruct (syncsvc.SyncZones env (workers.batchSize z) None st) as [[synced err] sts] eqn:Hsz.
    cbn [fst snd] in Htrs, Hsaw |- *.
    destruct err as [e|].
    + destruct (decide (e = ErrPremiumRequired)) as [-> | Hnp].
      { exists (news ++ [zone_sync_disabled]). cbn [fst snd trace].
        split; [rewrite Htrs, app_assoc; reflexivity | ].
        right; right. split; [reflexivity | ]. rewrite saw_app, (Hsaw eq_refl). reflexivity. }
      destruct (decide (e = ErrRateLimited)).
      * match goal with |- context [client.WaitForRateLimit env ?s] =>
          destruct (WaitForRateLimit_quiet env s) as (neww & Htrw & _);
          destruct (client.WaitForRateLimit env s) as [waited stw] eqn:Hwait end.
        cbn [fst snd trace] in Htrw |- *.
        destruct waited as [e'|].
        -- eapply enabled_outcome_return. cbn [trace]. rewrite Htrw, Htrs, <- !app_assoc.
           reflexivity.
        -- eapply enabled_outcome_after; [ | apply IH].
           rewrite Htrw, Htrs, <- !app_assoc. reflexivity.
      * eapply enabled_outcome_return. cbn [snd trace]. rewrite Htrs, <- app_assoc. reflexivity.
    + rewrite !GetRateLimit_state. cbn [fst snd trace rateLimit].
      destruct (decide (synced < workers.batchSize z)).
      { eapply enabled_outcome_return. cbn [snd trace]. rewrite Htrs, <- app_assoc. reflexivity. }
      destruct (decide (withoutZones - synced <= 0)).
      { eapply enabled_outcome_return. cbn [snd trace]. rewrite Htrs, <- !app_assoc. reflexivity. }
      cbn [fst snd trace rateLimit].
      destruct (env_ctxErr env _) as [e|].
      * eapply enabled_outcome_return. cbn [snd trace]. rewrite Htrs, <- !app_assoc. reflexivity.
      * eapply enabled_outcome_after; [ | apply IH].
        cbn [trace]. rewrite Htrs, <- !app_assoc. reflexivity.
Qed.

(** X15. The zone syncer is disabled by nothing but a 402: a run of
    [syncZonesContinuously] that starts enabled and returns a disabled
    syncer has made a request that was answered 402; every other run
    that returns, returns the syncer as it was. *)
Theorem disabled_only_after_402 (fuel : nat) (z : workers.ZoneSyncer) (st : St) :
  workers.premiumRequired z = false →
  let r := workers.syncZonesContinuously env fuel z st in
  ∀ z1, fst r = Some z1 →
    (workers.premiumRequired z1 = true → saw 402 (new_events st (snd r)) = true) ∧
    (workers.premiumRequired z1 = false → z1 = z).
Proof.
  intros Hz. cbv zeta.
  assert (Hout : enabled_outcome z st (workers.syncZonesContinuously env fuel z st)).
  { unfold workers.syncZonesContinuously. rewrite Hz. mred.
    destruct (env_CountActivitiesWithoutZones env (trace st)) as [err|withoutZones].
    { eapply enabled_outcome_return. cbn [trace]. rewrite <- app_assoc. reflexivity. }
    destruct (decide (withoutZones = 0)).
    { eapply enabled_outcome_return. cbn [trace]. rewrite <- app_assoc. reflexivity. }
    cbn [fst snd trace rateLimit].
    destruct (env_GetValidAccessToken env _) as [err|token].
    { eapply enabled_outcome_return. cbn [trace]. rewrite <- !app_assoc. reflexivity. }
    eapply enabled_outcome_after; [ | apply zoneLoop_enabled].
    cbn [trace]. rewrite <- !app_assoc. reflexivity. }
  destruct Hout as (new & Htr & Hcases).
  rewrite (new_events_app _ _ _ Htr).
  intros z1 Hz1. rewrite Hz1 in Hcases.
  destruct Hcases as [H | [H | [H Hsaw]]]; [discriminate | | ].
  - injection H as ->. split; [intros Hp; congruence | reflexivity].
  - injection H as ->. split; [intros _; exact Hsaw | intros Hp; discriminate].
Qed.

End DisabledOnlyBy402.

Section DisabledOnlyBy402Example.

Lemma premium_env_ctx : ctx_errors_only premium_env.
Proof. intros tr e H. discriminate. Qed.

Lemma disabled_only_after_402_witness :
  let z := workers.NewZoneSyncer (15 * gotime.Minute) in
  let r := workers.syncZonesContinuously premium_env 10 z st0 in
  fst r = Some (workers.setPremiumRequired z) ∧
  saw 402 (new_events st0 (snd r)) = true.
Proof.
  cbv zeta.
  assert (Hr : fst (workers.syncZonesContinuously premium_env 10
                      (workers.NewZoneSyncer (15 * gotime.Minute)) st0)
               = Some (workers.setPremiumRequired (workers.NewZoneSyncer (15 * gotime.Minute))))
    by (vm_compute; reflexivity).
  split; [exact Hr | ].
  apply (disabled_only_after_402 premium_env premium_env_ctx 10
           (workers.NewZoneSyncer (15 * gotime.Minute)) st0 eq_refl _ Hr).
  reflexivity.
Defined.

End DisabledOnlyBy402Example.

(* ================================================================== *)
(** * Further properties of the sync service                            *)
(* ================================================================== *)

Section FullSaveLoop.
Variable env : Env.
Variable f : Z → Z → string → M unit.
Hypothesis f_records :
  ∀ current total name st,
    f current total name st = (tt, mkSt (trace st ++ [EvSaveProgress current total name]) (rateLimit st)).

(** The save loop of [Sync] from index [i]. *)
Lemma Sync_save_run (activities : list strava.Activity) :
  ∀ (total i : Z) (st : St),
  let r := syncsvc.Sync_save env (Some f) total i activities st in
  ∃ (k : nat) new,
    trace (snd r) = trace st ++ new ∧
    save_calls new
    = imap (fun j a => (i + Z.of_nat j + 1, total, strava.Name a)) (take k activities) ∧
    ((k = length activities ∧ fst r = None ∧
      persist_attempts new = map saved_ok activities) ∨
     (∃ a e, activities !! k = Some a ∧
             fst r = Some (Wrapped "saving activity" e) ∧
             persist_attempts new = map saved_ok (take k activities) ++ [(strava.ID a, Some e)])).
Proof.
  induction activities as [|a rest IH]; intros total i st; cbv zeta.
  - exists 0%nat, []. cbn. rewrite app_nil_r. split; [reflexivity | ]. split; [reflexivity | ].
    left. auto.
  - cbn [syncsvc.Sync_save]. mred.
    destruct (env_CreateActivity env (trace st) (syncsvc.ConvertActivityToParams a)) as [e|] eqn:Hc.
    + exists 0%nat, [EvCreateActivity (syncsvc.ConvertActivityToParams a) (Some e)].
      cbn [fst snd trace take]. split; [reflexivity | ]. split; [reflexivity | ].
      right. exists a, e. split; [reflexivity | ]. split; reflexivity.
    + rewrite f_records. cbn [fst snd trace rateLimit].
      match goal with
      | |- context [syncsvc.Sync_save env _ total (i + 1) rest ?s] =>
          destruct (IH total (i + 1) s) as (k & new & Htr & Hcalls & Hres)
      end.
      cbv zeta in Htr, Hcalls, Hres.
      exists (S k), (EvCreateActivity (syncsvc.ConvertActivityToParams a) None
                     :: EvSaveProgress (i + 1) total (strava.Name a) :: new).
      split; [rewrite Htr; cbn [trace]; rewrite <- !app_assoc; reflexivity | ].
      split.
      { unfold save_calls. rewrite !omap_step. fold (save_calls new). rewrite Hcalls.
        cbn [take]. rewrite imap_cons. f_equal; [f_equal; f_equal; lia | ].
        apply imap_ext. intros j b _. cbn. f_equal. f_equal. lia. }
      destruct Hres as [(Hk & Hfst & Hpa) | (b & e & Hb & Hfst & Hpa)].
      * left. split; [cbn [length]; lia | ]. split; [exact Hfst | ].
        unfold persist_attempts. rewrite !omap_step. fold (persist_attempts new).
        rewrite Hpa. reflexivity.
      * right. exists b, e. split; [exact Hb | ]. split; [exact Hfst | ].
        unfold persist_attempts. rewrite !omap_step. fold (persist_attempts new).
        rewrite Hpa. reflexivity.
Qed.

End FullSaveLoop.

Section ServiceSync.
Variable env : Env.

(** X16. A full sync of the sync service saves the fetched records in
    the order fetched and stops at the first one the database refuses,
    returning that failure; the records before it stay saved and the
    ones after it are not tried. With no refusal every record is saved
    and no error is returned. The save callback is called after each
    saved record with its 1-based position, the total and the name. *)
Theorem Sync_stops_at_first_refusal (pages : list (list strava.Activity))
    (fuel : nat) (st : St) :
  serves env pages → (length (leading pages) < fuel)%nat →
  let fetched := concat (leading pages) in
  let r := syncsvc.Sync env fuel recordProgress recordSave st in
  let new := new_events st (snd r) in
  ∃ k : nat,
    save_calls new = imap (save_call (Z.of_nat (length fetched))) (take k fetched) ∧
    ((k = length fetched ∧ fst r = Some None ∧
      persist_attempts new = map saved_ok fetched) ∨
     (∃ a e, fetched !! k = Some a ∧
             fst r = Some (Some (Wrapped "saving activity" e)) ∧
             persist_attempts new = map saved_ok (take k fetched) ++ [(strava.ID a, Some e)])).
Proof.
  intros Hsrv Hfuel. cbv zeta.
  destruct (fetch_phase env _ is_progress (recordProgress_notifies) (fun _ _ => eq_refl)
              pages 0 fuel
              (mkSt (trace st ++ [EvPrint "Fetching activities from Strava..."]) (rateLimit st))
              Hsrv Hfuel)
    as (st1 & newf & Hfetch & Htrf & _ & _ & Hall).
  pose proof (fetch_events_persist_nothing is_progress newf (fun _ _ => eq_refl) Hall) as Hpf.
  pose proof (fetch_events_save_nothing is_progress newf (fun _ _ _ => eq_refl) Hall) as Hsf.
  set (fetched := concat (leading pages)) in *.
  set (st2 := mkSt ((trace st1 ++ [EvPrint "Fetched %d total activities"])
                    ++ [EvPrint "Saving activities to database..."]) (rateLimit st1)).
  assert (Hrun : syncsvc.Sync env fuel recordProgress recordSave st
                 = (Some (fst (syncsvc.Sync_save env recordSave
                                 (Z.of_nat (length fetched)) 0 fetched st2)),
                    snd (syncsvc.Sync_save env recordSave
                           (Z.of_nat (length fetched)) 0 fetched st2))).
  { unfold syncsvc.Sync, client.FetchAllActivities.
    unfold bind at 1. cbv beta zeta.
    change (emit (EvPrint "Fetching activities from Strava...") st)
      with (tt, mkSt (trace st ++ [EvPrint "Fetching activities from Strava..."]) (rateLimit st)).
    cbn [fst snd]. unfold bind at 1. cbv beta zeta. unfold recordProgress. rewrite Hfetch.
    cbn [fst snd]. unfold bind, emit, ret. cbn [fst snd trace rateLimit]. reflexivity. }
  rewrite Hrun. clear Hrun.
  destruct (Sync_save_run env
              (fun current total name => emit (EvSaveProgress current total name))
              (fun _ _ _ _ => eq_refl) fetched
              (Z.of_nat (length fetched)) 0 st2) as (k & new & Htr & Hcalls & Hres).
  fold recordSave in Htr, Hcalls, Hres. cbv zeta in Htr, Hcalls, Hres.
  assert (Hnew : new_events st
                   (snd (syncsvc.Sync_save env recordSave (Z.of_nat (length fetched)) 0
                           fetched st2))
                 = [EvPrint "Fetching activities from Strava..."] ++ newf
                   ++ [EvPrint "Fetched %d total activities";
                       EvPrint "Saving activities to database..."] ++ new).
  { apply new_events_app. rewrite Htr. cbn [trace st2]. rewrite Htrf. cbn [trace].
    rewrite <- !app_assoc. reflexivity. }
  exists k. cbn [fst snd].
  rewrite Hnew, !save_calls_app, !persist_attempts_app, Hpf, Hsf.
  cbn [app]. change (save_calls [EvPrint "Fetching activities from Strava..."]) with (@nil (Z * Z * string)).
  cbn [app].
  split; [rewrite Hcalls; apply imap_ext; intros j a _; reflexivity | ].
  destruct Hres as [(Hk & Hfst & Hpa) | (a & e & Ha & Hfst & Hpa)].
  - left. rewrite Hfst. auto.
  - right. exists a, e. rewrite Hfst. auto.
Qed.

End ServiceSync.

Section ServiceSyncExample.

Lemma Sync_stops_at_first_refusal_witness :
  let r := syncsvc.Sync (refusing_env 2) 5 recordProgress recordSave st0 in
  fst r = Some (Some (Wrapped "saving activity" disk_error)) ∧
  persist_attempts (new_events st0 (snd r)) = [(1, None); (2, Some disk_error)] ∧
  ∃ k : nat,
    save_calls (new_events st0 (snd r)) = imap (save_call 3) (take k [run1; ride2; swim3]) ∧
    ((k = 3%nat ∧ fst r = Some None ∧
      persist_attempts (new_events st0 (snd r)) = map saved_ok [run1; ride2; swim3]) ∨
     (∃ a e, [run1; ride2; swim3] !! k = Some a ∧
             fst r = Some (Some (Wrapped "saving activity" e)) ∧
             persist_attempts (new_events st0 (snd r))
             = map saved_ok (take k [run1; ride2; swim3]) ++ [(strava.ID a, Some e)])).
Proof.
  cbv zeta. split; [vm_compute; reflexivity | ]. split; [vm_compute; reflexivity | ].
  refine (Sync_stops_at_first_refusal (refusing_env 2) three_pages 5 st0
            (refusing_env_serves 2) _).
  cbn. lia.
Defined.

End ServiceSyncExample.

(* ================================================================== *)
(** * Further properties of the quota state and of failed fetches       *)
(* ================================================================== *)

Section QuotaAfterRequest.
Variable env : Env.




End QuotaAfterRequest.

Section QuotaPairs.

Lemma Split_cons (a s : string) :
  comma_free a = true →
  gostrings.Split (a +:+ String ","%char s) ","%char = a :: gostrings.Split s ","%char.
Proof.
  intros Ha. induction a as [|c a IH].
  - change (EmptyString +:+ String ","%char s) with (String ","%char s).
    cbn [gostrings.Split]. case_decide; [reflexivity | contradiction].
  - change (String c a +:+ String ","%char s) with (String c (a +:+ String ","%char s)).
    cbn [gostrings.Split]. cbn [comma_free] in Ha. apply andb_prop in Ha as [Hc Ha].
    apply negb_true_iff, bool_decide_eq_false in Hc.
    case_decide; [contradiction | ].
    rewrite (IH Ha). reflexivity.
Qed.

Lemma append_not_empty (a s : string) : a +:+ String ","%char s ≠ EmptyString.
Proof. destruct a; discriminate. Qed.

(** X18. A quota header is read leniently: of its comma-separated parts
    the first is the short-window value and the second the daily value,
    and any further part is ignored; a header with a single part gives
    the short-window value and leaves the daily value at zero, as an
    absent header leaves both. *)
Theorem parsePair_reads_two_parts (a b rest : string) :
  comma_free a = true → comma_free b = true →
  strava.parsePair EmptyString = (0, 0) ∧
  (a ≠ EmptyString → strava.parsePair a = (fst (strconv.Atoi a), 0)) ∧
  strava.parsePair (a +:+ String ","%char b) = (fst (strconv.Atoi a), fst (strconv.Atoi b)) ∧
  strava.parsePair (a +:+ String ","%char (b +:+ String ","%char rest))
  = (fst (strconv.Atoi a), fst (strconv.Atoi b)).
Proof.
  intros Ha Hb. split; [reflexivity | ]. split; [ | split].
  - intros Hne. unfold strava.parsePair. rewrite decide_False by exact Hne.
    rewrite (Split_comma_free a Ha). reflexivity.
  - unfold strava.parsePair. rewrite decide_False by apply append_not_empty.
    rewrite (Split_pair a b Ha Hb). reflexivity.
  - unfold strava.parsePair. rewrite decide_False by apply append_not_empty.
    rewrite (Split_cons a _ Ha), (Split_cons b _ Hb). reflexivity.
Qed.

Lemma parsePair_reads_two_parts_witness :
  strava.parsePair "600" = (600, 0) ∧
  strava.parsePair "600,30000,7" = (600, 30000).
Proof.
  destruct (parsePair_reads_two_parts "600" "30000" "7" eq_refl eq_refl) as (_ & H1 & _ & H3).
  split; [apply H1; discriminate | exact H3].
Defined.

End QuotaPairs.

Section FailedFetch.
Variable env : Env.

(** X19. A fetch that fails on a later page has its earlier pages thrown
    away by every caller: the sync service (full and delta), the initial
    sync and the activity syncer all return or log the failure and send
    no insert to the database, however many records the pages before the
    failing one held. *)
Theorem failed_fetch_saves_nothing (good : list (list strava.Activity)) (e : error)
    (since : gotime.Time) (fuel : nat) (st : St) :
  (∀ (j : nat) items, good !! j = Some items →
     items ≠ [] ∧ answers_page env (1 + Z.of_nat j) items) →
  fails_page env (1 + Z.of_nat (length good)) e →
  (length good < fuel)%nat →
  (let r := syncsvc.Sync env fuel recordProgress recordSave st in
   fst r = Some (Some (Wrapped "fetching activities" e)) ∧
   persist_attempts (new_events st (snd r)) = []) ∧
  (let r := syncsvc.SyncDelta env fuel since recordProgress recordSave st in
   fst r = Some (0, Some (Wrapped "fetching activities" e)) ∧
   persist_attempts (new_events st (snd r)) = []) ∧
  (let r := workers.SyncOnce env fuel st in
   fst r = Some (Some e) ∧ persist_attempts (new_events st (snd r)) = []) ∧
  (let r := workers.syncActivities env fuel st in
   fst r = Some tt ∧ persist_attempts (new_events st (snd r)) = []).
Proof.
  intros Hgood Hfail Hfuel.
  assert (Hrec : ∀ after stx, ∃ stf newf,
            client.fetchLoop env fuel after recordProgress [] 1 stx
            = (Some (concat good, Some e), stf) ∧
            trace stf = trace stx ++ newf ∧ persist_attempts newf = []).
  { intros after stx.
    destruct (fetch_phase_failed env _ is_progress recordProgress_notifies (fun _ _ => eq_refl)
                good e after fuel stx Hgood Hfail Hfuel) as (stf & newf & Heq & Htr & Hall).
    exists stf, newf. split; [exact Heq | ]. split; [exact Htr | ].
    exact (fetch_events_persist_nothing is_progress newf (fun _ _ => eq_refl) Hall). }
  assert (Hlog : ∀ f, (∀ result st, ∃ e, f result st = (tt, mkSt (trace st ++ [e]) (rateLimit st)) ∧
                                       is_log e = true) →
            ∀ after stx, ∃ stf newf,
              client.fetchLoop env fuel after (Some f) [] 1 stx
              = (Some (concat good, Some e), stf) ∧
              trace stf = trace stx ++ newf ∧ persist_attempts newf = []).
  { intros f Hf after stx.
    destruct (fetch_phase_failed env f is_log Hf (fun _ _ => eq_refl)
                good e after fuel stx Hgood Hfail Hfuel) as (stf & newf & Heq & Htr & Hall).
    exists stf, newf. split; [exact Heq | ]. split; [exact Htr | ].
    exact (fetch_events_persist_nothing is_log newf (fun _ _ => eq_refl) Hall). }
  split; [ | split; [ | split]]; cbv zeta.
  - destruct (Hrec 0 (mkSt (trace st ++ [EvPrint "Fetching activities from Strava..."])
                        (rateLimit st))) as (stf & newf & Heq & Htr & Hpa).
    assert (Hrun : syncsvc.Sync env fuel recordProgress recordSave st
                   = (Some (Some (Wrapped "fetching activities" e)), stf)).
    { unfold syncsvc.Sync, client.FetchAllActivities.
      unfold bind at 1. cbv beta zeta.
      change (emit (EvPrint "Fetching activities from Strava...") st)
        with (tt, mkSt (trace st ++ [EvPrint "Fetching activities from Strava..."]) (rateLimit st)).
      cbn [fst snd]. unfold bind at 1. cbv beta zeta. rewrite Heq. reflexivity. }
    rewrite Hrun. cbn [fst snd]. split; [reflexivity | ].
    erewrite new_events_app by (rewrite Htr; cbn [trace]; rewrite <- app_assoc; reflexivity).
    rewrite persist_attempts_app, Hpa. reflexivity.
  - destruct (Hrec (gotime.unixSec since) st) as (stf & newf & Heq & Htr & Hpa).
    assert (Hrun : syncsvc.SyncDelta env fuel since recordProgress recordSave st
                   = (Some (0, Some (Wrapped "fetching activities" e)), stf)).
    { unfold syncsvc.SyncDelta, client.FetchActivitiesSince.
      unfold bind at 1. cbv beta zeta. rewrite Heq. reflexivity. }
    rewrite Hrun. cbn [fst snd]. split; [reflexivity | ].
    rewrite (new_events_app _ _ _ Htr). exact Hpa.
  - assert (Hrun : ∃ st' pre newf,
              workers.SyncOnce env fuel st = (Some (Some e), st') ∧
              trace st' = trace st ++ pre ++ newf ∧
              persist_attempts pre = [] ∧ persist_attempts newf = []).
    { unfold workers.SyncOnce. mred.
      set (res := env_GetRecentActivities env
                    (trace st ++ [EvLog InfoLevel "performing initial sync" []]) 1).
      clearbody res.
      match goal with
      | |- context [?T] =>
          match T with
          | (if negb (gotime.IsZero ?latestDate) then _ else _) ?stx =>
              set (fetchrun := T) in *;
              assert (Hfetch : ∃ stf lg newf,
                        fetchrun = (Some (concat good, Some e), stf) ∧
                        trace stf = trace stx ++ EvLog InfoLevel lg [] :: newf ∧
                        persist_attempts newf = []);
              [ subst fetchrun; destruct (negb (gotime.IsZero latestDate)) | ]
          end
      end.
      - unfold client.FetchActivitiesSince.
        match goal with
        | |- context [client.fetchLoop env fuel ?a _ [] 1 ?s] =>
            destruct (Hlog _ initialProgressCallback_notifies a s) as (stf & newf & Heq & Htr & Hpa)
        end.
        exists stf, "performing delta sync", newf. split; [exact Heq | ].
        split; [rewrite Htr; cbn [trace]; rewrite <- app_assoc; reflexivity | exact Hpa].
      - unfold client.FetchAllActivities.
        match goal with
        | |- context [client.fetchLoop env fuel ?a _ [] 1 ?s] =>
            destruct (Hlog _ initialProgressCallback_notifies a s) as (stf & newf & Heq & Htr & Hpa)
        end.
        exists stf, "performing full sync (no existing activities)", newf. split; [exact Heq | ].
        split; [rewrite Htr; cbn [trace]; rewrite <- app_assoc; reflexivity | exact Hpa].
      - destruct Hfetch as (stf & lg & newf & Heq & Htrf & Hpf).
        clearbody fetchrun. subst fetchrun. cbn [fst snd trace] in *.
        eexists _, [EvLog InfoLevel "performing initial sync" []; EvGetRecentActivities 1 res;
                    EvLog InfoLevel lg []], newf.
        split; [reflexivity | ].
        split; [rewrite Htrf, <- !app_assoc; reflexivity | ].
        split; [reflexivity | exact Hpf]. }
    destruct Hrun as (st' & pre & newf & Hrun & Htr & Hp1 & Hp2).
    rewrite Hrun. cbn [fst snd]. split; [reflexivity | ].
    rewrite (new_events_app _ _ _ Htr), persist_attempts_app, Hp1, Hp2. reflexivity.
  - assert (Hrun : ∃ st' new,
              workers.syncActivities env fuel st = (Some tt, st') ∧
              trace st' = trace st ++ new ∧ persist_attempts new = []).
    { unfold workers.syncActivities. mred.
      destruct (env_GetValidAccessToken env
                  (trace st ++ [EvLog InfoLevel "starting activity sync" []])) as [terr|tok].
      { eexists _, [_; _; _]. split; [reflexivity | ].
        cbn [trace]. split; [rewrite <- !app_assoc; reflexivity | reflexivity]. }
      rewrite WaitForRateLimit_fresh. cbn [fst snd trace rateLimit].
      match goal with
      | |- context [workers.getLatestActivityDate env ?s] =>
          destruct (getLatestActivityDate_trace env s) as (res & Hlatest);
          destruct (workers.getLatestActivityDate env s) as [[latestDate err] st3]
      end.
      cbn [fst snd trace rateLimit] in *. subst st3.
      match goal with
      | |- context [?T] =>
          match T with
          | (if negb (gotime.IsZero latestDate) then _ else _) ?stx =>
              set (fetchrun := T) in *;
              assert (Hfetch : ∃ stf lg newf,
                        fetchrun = (Some (concat good, Some e), stf) ∧
                        trace stf = trace stx ++ EvLog InfoLevel lg [] :: newf ∧
                        persist_attempts newf = []);
              [ subst fetchrun; destruct (negb (gotime.IsZero latestDate))
              | assert (Hwarn : ∃ w, trace stx
                                     = (trace st ++ [EvLog InfoLevel "starting activity sync" []]
                                        ++ [EvGetValidAccessToken (inr tok)]
                                        ++ [EvGetRecentActivities 1 res]) ++ w ∧
                                     persist_attempts w = []) ]
          end
      end.
      - unfold client.FetchActivitiesSince.
        match goal with
        | |- context [client.fetchLoop env fuel ?a _ [] 1 ?s] =>
            destruct (Hlog _ progressCallback_notifies a s) as (stf & newf & Heq & Htr & Hpa)
        end.
        exists stf, "performing delta sync", newf. split; [exact Heq | ].
        split; [rewrite Htr; cbn [trace]; rewrite <- app_assoc; reflexivity | exact Hpa].
      - unfold client.FetchAllActivities.
        match goal with
        | |- context [client.fetchLoop env fuel ?a _ [] 1 ?s] =>
            destruct (Hlog _ progressCallback_notifies a s) as (stf & newf & Heq & Htr & Hpa)
        end.
        exists stf, "performing full sync", newf. split; [exact Heq | ].
        split; [rewrite Htr; cbn [trace]; rewrite <- app_assoc; reflexivity | exact Hpa].
      - destruct err; cbn [snd trace].
        + eexists [_]. rewrite <- !app_assoc. split; reflexivity.
        + exists []. rewrite <- !app_assoc. split; reflexivity.
      - destruct Hfetch as (stf & lg & newf & Heq & Htrf & Hpf).
        destruct Hwarn as (w & Htrw & Hpw).
        clearbody fetchrun. subst fetchrun. cbn [fst snd trace] in *.
        eexists _, (([EvLog InfoLevel "starting activity sync" [];
                      EvGetValidAccessToken (inr tok);
                      EvGetRecentActivities 1 res] ++ w ++ [EvLog InfoLevel lg []])
                    ++ newf ++ [EvLog ErrorLevel "failed to fetch activities" []]).
        split; [reflexivity | ].
        split; [cbn [trace]; rewrite Htrf, Htrw, <- !app_assoc; reflexivity | ].
        rewrite !persist_attempts_app, Hpw, Hpf. reflexivity. }
    destruct Hrun as (st' & new & Hrun & Htr & Hpa).
    rewrite Hrun. cbn [fst snd]. split; [reflexivity | ].
    rewrite (new_events_app _ _ _ Htr). exact Hpa.
Qed.

End FailedFetch.

Section FailedFetchExample.

Lemma failed_fetch_saves_nothing_witness :
  fst (workers.SyncOnce broken_env 5 st0) = Some (Some (ErrUnexpectedStatus 500)) ∧
  persist_attempts (new_events st0 (snd (workers.SyncOnce broken_env 5 st0))) = [] ∧
  fst (syncsvc.Sync broken_env 5 recordProgress recordSave st0)
  = Some (Some (Wrapped "fetching activities" (ErrUnexpectedStatus 500))).
Proof.
  destruct (failed_fetch_saves_nothing broken_env [[run1; ride2]; [swim3]]
              (ErrUnexpectedStatus 500) (gotime.mkTime 1700000000 0 0) 5 st0)
    as ((H1 & _) & _ & (H3 & H4) & _).
  - intros [|[|j]] items Hj; try discriminate; injection Hj as <-;
      (split; [discriminate | ]); intros tr after; eexists; cbn;
      (split; [reflexivity | split; reflexivity]).
  - intros tr after. cbn.
    apply (failure_status broken_env (http.mkResponse 500 ∅ "")); cbn; discriminate.
  - cbn. lia.
  - split; [exact H3 | ]. split; [exact H4 | exact H1].
Defined.

End FailedFetchExample.

(* ================================================================== *)
(** * Properties of the token storage and the token refresher           *)
(* ================================================================== *)

Section TokenStorage.
Variable env : auth.Env.

Lemma new_auth_events_app (st st' : auth.St) (new : list auth.Event) :
  auth.trace st' = auth.trace st ++ new → new_auth_events st st' = new.
Proof.
  intros H. unfold new_auth_events. rewrite H. rewrite drop_app_length. reflexivity.
Qed.

(** X20. Saving tokens and loading them again. With a configuration row
    in place and a database that does not fail, [SaveTokens] succeeds,
    [LoadTokens] then returns the tokens saved, and the client
    credentials are what they were. Without a row, [SaveTokens] fails
    and stores nothing. *)
Theorem saved_tokens_are_loaded (tokens : auth.TokenResponse) (st : auth.St) :
  (∀ tr, auth.env_dbError env tr = None) →
  let r := auth.SaveTokens env tokens st in
  match auth.row st with
  | None =>
      fst r = Some (ErrExternal "no client config found: run 'strava-mcp auth login' first") ∧
      auth.row (snd r) = None
  | Some c =>
      fst r = None ∧
      fst (auth.LoadTokens env (snd r))
      = inr (auth.mkStoredTokens (auth.AccessToken tokens) (auth.RefreshToken tokens)
               (auth.ExpiresAt tokens)) ∧
      fst (auth.LoadClientConfig env (snd r))
      = inr (auth.mkClientConfig (authdb.ClientID c) (authdb.ClientSecret c))
  end.
Proof.
  intros Hdb. cbv zeta.
  unfold auth.SaveTokens, auth.LoadTokens, auth.LoadClientConfig. amred.
  rewrite !Hdb.
  destruct (auth.row st) as [c|]; amred.
  - rewrite !Hdb. cbn. repeat split.
  - rewrite decide_True by reflexivity. amred. split; reflexivity.
Qed.

(** X21. A token [GetValidAccessToken] hands out is the access token the
    database holds when it returns: the stored one, returned after a
    single query when five minutes or more are left on it, or a
    refreshed one that has been written to the row. The token endpoint
    is called exactly when fewer than five minutes are left. *)
Theorem handed_out_token_is_stored (st : auth.St) (tok : string) :
  let r := auth.GetValidAccessToken env st in
  fst r = inr tok →
  ∃ c0 c,
    auth.row st = Some c0 ∧
    auth.row (snd r) = Some c ∧
    authdb.AccessToken c = sql.mkNullString tok true ∧
    authdb.ClientID c = authdb.ClientID c0 ∧
    authdb.ClientSecret c = authdb.ClientSecret c0 ∧
    called_token_endpoint (new_auth_events st (snd r))
    = bool_decide (goint.wrap (sql.Int64 (authdb.ExpiresAt c0) - 300)
                   < gotime.unixSec (auth.env_Now env
                                       (auth.trace st ++ [auth.EvGetAuthConfig (inr c0)]))) ∧
    (called_token_endpoint (new_auth_events st (snd r)) = false → c = c0).
Proof.
  cbv zeta. unfold auth.GetValidAccessToken, auth.LoadTokens. amred.
  destruct (auth.env_dbError env (auth.trace st)) as [e0|] eqn:Hdb0.
  { destruct (decide (e0 = sql.ErrNoRows)); cbn; discriminate. }
  destruct (auth.row st) as [c0|] eqn:Hrow; [ | rewrite decide_True by reflexivity; discriminate].
  destruct (sql.StringValid (authdb.AccessToken c0)) eqn:Hvalid; [ | discriminate].
  cbn [negb]. amred.
  set (tr1 := auth.trace st ++ [auth.EvGetAuthConfig (inr c0)]).
  destruct (bool_decide (goint.wrap (sql.Int64 (authdb.ExpiresAt c0) - 300)
                         < gotime.unixSec (auth.env_Now env tr1))) eqn:Hexp; cbn [negb].
  - (* expired: the refresh path *)
    unfold auth.LoadClientConfig. amred.
    destruct (auth.env_dbError env tr1) as [e1|] eqn:Hdb1.
    { destruct (decide (e1 = sql.ErrNoRows)); cbn; discriminate. }
    amred. fold tr1.
    set (tr2 := tr1 ++ [auth.EvGetAuthConfig (inr c0)]).
    destruct (auth.env_Token env tr2 (authdb.ClientID c0) (authdb.ClientSecret c0)
                (sql.String_ (authdb.RefreshToken c0))) as [e2|newToken] eqn:Htok;
      [discriminate | ].
    unfold auth.SaveTokens. amred.
    set (tr3 := tr2 ++ [auth.EvToken (authdb.ClientID c0) (authdb.ClientSecret c0)
                          (sql.String_ (authdb.RefreshToken c0)) (inr newToken)]).
    destruct (auth.env_dbError env tr3) as [e3|] eqn:Hdb3.
    { destruct (decide (e3 = sql.ErrNoRows)); cbn; discriminate. }
    amred.
    destruct (auth.env_dbError env (tr3 ++ [auth.EvGetAuthConfig (inr c0)])) as [e4|] eqn:Hdb4;
      [discriminate | ].
    amred. intros [= <-].
    eexists c0, _. split; [reflexivity | ]. split; [reflexivity | ].
    split; [reflexivity | ]. split; [reflexivity | ]. split; [reflexivity | ].
    erewrite new_auth_events_app
      by (cbn [auth.trace]; unfold tr3, tr2, tr1; rewrite <- !app_assoc; reflexivity).
    fold tr1. rewrite Hexp. split; [reflexivity | discriminate].
  - (* five minutes or more are left *)
    intros [= <-]. exists c0, c0.
    split; [reflexivity | ]. split; [reflexivity | ].
    split; [destruct (authdb.AccessToken c0) as [s v]; cbn in *; subst v; reflexivity | ].
    split; [reflexivity | ]. split; [reflexivity | ].
    erewrite new_auth_events_app by (cbn [auth.trace]; reflexivity).
    fold tr1. rewrite Hexp. split; reflexivity.
Qed.

Lemma internalSec_small (unix : Z) :
  goint.MinInt64 <= unix <= goint.MaxInt64 - auth.unixToInternal →
  auth.internalSec unix = unix + auth.unixToInternal.
Proof.
  intros H. unfold auth.internalSec. apply wrap_in_range.
  unfold goint.in_range, goint.MinInt64, goint.MaxInt64, auth.unixToInternal in *. lia.
Qed.

Lemma internalSec_wrapped (unix : Z) :
  goint.MaxInt64 - auth.unixToInternal < unix <= goint.MaxInt64 →
  auth.internalSec unix = unix + auth.unixToInternal - 2 ^ 64.
Proof.
  intros H. unfold auth.internalSec, goint.wrap.
  unfold goint.MaxInt64, auth.unixToInternal in H.
  replace (unix + auth.unixToInternal + 2 ^ 63)
    with (unix + auth.unixToInternal - 2 ^ 63 + 1 * 2 ^ 64) by lia.
  rewrite Z.mod_add by lia. unfold auth.unixToInternal. rewrite Z.mod_small; lia.
Qed.

(** Ten minutes left on the clock of the refresher are ten minutes
    between the two Unix times, for a clock of the Unix era. *)
Lemma untilUnix_ten_minutes (sec : Z) (now : gotime.Time) :
  gotime.wf now → goint.in_range sec →
  0 <= gotime.unixSec now <= goint.MaxInt64 - auth.unixToInternal →
  10 * gotime.Minute <= auth.untilUnix sec now →
  gotime.unixSec now + 600 <= sec.
Proof.
  intros Hwf Hsec Hnow. unfold auth.untilUnix. cbv zeta.
  rewrite (internalSec_small (gotime.unixSec now))
    by (unfold goint.MinInt64, goint.MaxInt64, auth.unixToInternal in *; lia).
  destruct (decide (sec <= goint.MaxInt64 - auth.unixToInternal)) as [Hsmall|Hlarge].
  - rewrite (internalSec_small sec) by (unfold goint.in_range in Hsec; lia).
    unfold gotime.wf, goint.MinInt64, goint.MaxInt64, gotime.Minute, gotime.Second in *.
    repeat case_decide; lia.
  - rewrite (internalSec_wrapped sec) by (unfold goint.in_range in Hsec; lia).
    unfold gotime.wf, goint.in_range, goint.MinInt64, goint.MaxInt64, auth.unixToInternal,
      gotime.Minute, gotime.Second in *.
    repeat case_decide; lia.
Qed.

(** X22. The refresher keeps the storage ahead of its callers. On a
    clock of the Unix era, when the refresher finds ten minutes or more
    left on the stored token it leaves it alone; and then, for five more
    minutes of the clock, with the same row in place,
    [GetValidAccessToken] returns the stored token after a single query,
    without calling the token endpoint. *)
Theorem refresher_keeps_token_valid (st : auth.St) (c : authdb.AuthConfig) :
  auth.row st = Some c →
  sql.StringValid (authdb.AccessToken c) = true →
  (∀ tr, auth.env_dbError env tr = None) →
  let checking := auth.EvLog DebugLevel "checking token validity" in
  let read := auth.EvGetAuthConfig (inr c) in
  let now := auth.env_Now env (auth.trace st ++ [checking; read]) in
  gotime.wf now →
  0 <= gotime.unixSec now <= goint.MaxInt64 - auth.unixToInternal →
  goint.in_range (sql.Int64 (authdb.ExpiresAt c)) →
  10 * gotime.Minute <= auth.untilUnix (sql.Int64 (authdb.ExpiresAt c)) now →
  auth.checkAndRefresh env st
  = (tt, auth.mkSt (Some c)
           (auth.trace st ++ [checking; read; auth.EvLog DebugLevel "token still valid"])) ∧
  ∀ st' : auth.St,
    auth.row st' = Some c →
    gotime.unixSec (auth.env_Now env (auth.trace st' ++ [read])) <= gotime.unixSec now + 300 →
    auth.GetValidAccessToken env st'
    = (inr (sql.String_ (authdb.AccessToken c)), auth.mkSt (Some c) (auth.trace st' ++ [read])).
Proof.
  intros Hrow Hvalid Hdb. cbv zeta. intros Hwf Hnow Hexp Hleft.
  split.
  - unfold auth.checkAndRefresh, auth.LoadTokens. amred.
    rewrite Hdb, Hrow, Hvalid. cbn [negb]. amred.
    rewrite <- !app_assoc. cbn [app].
    rewrite decide_False by lia. amred. rewrite <- !app_assoc. reflexivity.
  - intros st' Hrow' Hlater.
    pose proof (untilUnix_ten_minutes _ _ Hwf Hexp Hnow Hleft) as Hsecs.
    unfold auth.GetValidAccessToken, auth.LoadTokens. amred.
    rewrite Hdb, Hrow', Hvalid. cbn [negb]. amred.
    rewrite wrap_in_range
      by (unfold goint.in_range, goint.MinInt64, goint.MaxInt64, auth.unixToInternal in *; lia).
    rewrite bool_decide_eq_false_2 by lia. reflexivity.
Qed.

End TokenStorage.

Section TokenStorageExamples.

Lemma saved_tokens_are_loaded_witness :
  let st := auth.mkSt (Some (stored_config 1700000000)) [] in
  let r := auth.SaveTokens (token_env (gotime.mkTime 1700000000 0 0))
             (auth.mkTokenResponse "a" "r" 1700021600) st in
  fst r = None ∧
  fst (auth.LoadTokens (token_env (gotime.mkTime 1700000000 0 0)) (snd r))
  = inr (auth.mkStoredTokens "a" "r" 1700021600) ∧
  fst (auth.LoadClientConfig (token_env (gotime.mkTime 1700000000 0 0)) (snd r))
  = inr (auth.mkClientConfig "client" "secret").
Proof.
  exact (saved_tokens_are_loaded (token_env (gotime.mkTime 1700000000 0 0))
           (auth.mkTokenResponse "a" "r" 1700021600)
           (auth.mkSt (Some (stored_config 1700000000)) []) (fun _ => eq_refl)).
Defined.

Lemma handed_out_token_is_stored_witness :
  let env := token_env (gotime.mkTime 1700000000 0 0) in
  let st := auth.mkSt (Some (stored_config 1700000100)) [] in
  let r := auth.GetValidAccessToken env st in
  fst r = inr "new-access" ∧
  auth.row (snd r)
  = Some (authdb.mkAuthConfig "client" "secret" (sql.mkNullString "new-access" true)
            (sql.mkNullString "new-refresh" true) (sql.mkNullInt64 1700021600 true)) ∧
  called_token_endpoint (new_auth_events st (snd r)) = true.
Proof.
  cbv zeta. split; [vm_compute; reflexivity | ]. split; [vm_compute; reflexivity | ].
  destruct (handed_out_token_is_stored (token_env (gotime.mkTime 1700000000 0 0))
              (auth.mkSt (Some (stored_config 1700000100)) []) "new-access"
              ltac:(vm_compute; reflexivity)) as (c0 & c & H0 & _ & _ & _ & _ & Hcalled & _).
  injection H0 as <-. rewrite Hcalled. vm_compute. reflexivity.
Defined.

(** A stored expiry within [unixToInternal] of the largest [int64] reads
    as long past: the refresher finds no time left on it. *)
Lemma untilUnix_largest_expiry :
  auth.untilUnix goint.MaxInt64 (gotime.mkTime 1700000000 0 0) = goint.MinInt64.
Proof. vm_compute. reflexivity. Qed.

Lemma refresher_keeps_token_valid_witness :
  let env := token_env (gotime.mkTime 1700000000 0 0) in
  let c := stored_config 1700000600 in
  auth.checkAndRefresh env (auth.mkSt (Some c) [])
  = (tt, auth.mkSt (Some c)
           [auth.EvLog DebugLevel "checking token validity"; auth.EvGetAuthConfig (inr c);
            auth.EvLog DebugLevel "token still valid"]) ∧
  auth.GetValidAccessToken env (auth.mkSt (Some c) [])
  = (inr "old-access", auth.mkSt (Some c) [auth.EvGetAuthConfig (inr c)]).
Proof.
  cbv zeta.
  destruct (refresher_keeps_token_valid (token_env (gotime.mkTime 1700000000 0 0))
              (auth.mkSt (Some (stored_config 1700000600)) []) (stored_config 1700000600)
              eq_refl eq_refl (fun _ => eq_refl)) as [Hcheck Hget].
  - unfold gotime.wf. cbn. lia.
  - unfold goint.MaxInt64, auth.unixToInternal. cbn. lia.
  - unfold goint.in_range, goint.MinInt64, goint.MaxInt64. cbn. lia.
  - vm_compute. discriminate.
  - split; [exact Hcheck | ].
    apply (Hget (auth.mkSt (Some (stored_config 1700000600)) []) eq_refl).
    cbn. lia.
Defined.

End TokenStorageExamples.

(* ================================================================== *)
(** * Properties of the retrying client and of the runs behind it       *)
(* ================================================================== *)

Lemma bind_run {A B : Type} (m : M A) (k : A → M B) (st : St) :
  bind m k st = k (fst (m st)) (snd (m st)).
Proof. reflexivity. Qed.

Section RetryingClient.
Variable env : Env.
Variable baseURL : string.
Variable traceEnabled : bool.
Variable cfg : strava.RetryConfig.

Lemma RequestLogHook_run (retry : Z) (st : St) :
  retryablehttp.RequestLogHook traceEnabled retry st
  = (tt, mkSt (trace st ++ request_hook_events traceEnabled retry) (rateLimit st)).
Proof.
  destruct st as [tr rl]. unfold retryablehttp.RequestLogHook, request_hook_events.
  destruct (decide (0 < retry)), traceEnabled; mred;
    rewrite ?app_nil_r, <- ?app_assoc; reflexivity.
Qed.

Lemma ResponseLogHook_run (resp : http.Response) (st : St) :
  retryablehttp.ResponseLogHook env traceEnabled resp st
  = (tt, mkSt (trace st ++ response_hook_events traceEnabled resp) (rateLimit st)).
Proof.
  destruct st as [tr rl]. unfold retryablehttp.ResponseLogHook, response_hook_events.
  destruct (decide (http.StatusCode resp = http.StatusTooManyRequests)), traceEnabled; mred;
    rewrite ?app_nil_r, <- ?app_assoc; reflexivity.
Qed.





(** The backoff logs one line, whatever it is asked. *)
Lemma Backoff_run (min max : gotime.Duration) (attemptNum : Z)
    (resp : option http.Response) (st : St) :
  ∃ line, snd (client.Backoff env min max attemptNum resp st)
          = mkSt (trace st ++ [line]) (rateLimit st).
Proof.
  unfold client.Backoff.
  destruct resp as [r|]; [ | eexists; mred; reflexivity ].
  destruct (decide (http.StatusCode r = http.StatusTooManyRequests));
    [ | eexists; mred; reflexivity ].
  destruct (decide (http.Get (http.Headers r) "Retry-After" ≠ EmptyString));
    [ | eexists; mred; reflexivity ].
  destruct (strconv.Atoi (http.Get (http.Headers r) "Retry-After")) as [seconds [|]];
    eexists; mred; reflexivity.
Qed.

(** One pass of the loop, event by event. *)
Lemma attempts_pass (remain : nat) (i : Z) (req : Request) (st : St) :
  let tr1 := trace st ++ request_hook_events traceEnabled i in
  let out := env_Do env tr1 req in
  let tr2 := tr1 ++ [EvDo req out] in
  let v := verdict (env_ctxErr env tr2) out in
  let tr3 := tr2 ++ outcome_events traceEnabled out in
  let broke := (retryablehttp.Broke out (fst v) (snd v) (goint.wrap (i + 1)),
                mkSt tr3 (rateLimit st)) in
  retryablehttp.attempts env traceEnabled cfg remain i req st
  = if negb (fst v) then broke
    else match remain with
         | O => broke
         | S remain' =>
             let b := client.Backoff env (strava.MinWait cfg) (strava.MaxWait cfg) i
                        (retryablehttp.response out) (mkSt tr3 (rateLimit st)) in
             let tr4 := trace (snd b)
                        ++ [EvLog DebugLevel "retrying request"
                              [("remaining", Z.of_nat remain)];
                            EvWait (fst b)] in
             match env_ctxErr env tr4 with
             | Some e => (retryablehttp.Cancelled e, mkSt tr4 (rateLimit st))
             | None =>
                 retryablehttp.attempts env traceEnabled cfg remain' (i + 1) req
                   (mkSt tr4 (rateLimit st))
             end
         end.
Proof.
  intros tr1 out tr2 v tr3 broke.
  assert (Hhook : match out with
                  | inl _ => client.log ErrorLevel "request failed" []
                  | inr resp => retryablehttp.ResponseLogHook env traceEnabled resp
                  end (mkSt tr2 (rateLimit st))
                  = (tt, mkSt tr3 (rateLimit st))).
  { unfold tr3, outcome_events. destruct out as [e|resp].
    - reflexivity.
    - rewrite ResponseLogHook_run. reflexivity. }
  assert (Hcheck : retryablehttp.checkRetry env out (mkSt tr2 (rateLimit st))
                   = (v, mkSt tr2 (rateLimit st))) by reflexivity.
  assert (HDo : client.Do env req (mkSt tr1 (rateLimit st))
                = (out, mkSt tr2 (rateLimit st))) by reflexivity.
  destruct remain as [|remain']; cbn [retryablehttp.attempts].
  - rewrite bind_run, RequestLogHook_run. cbn [fst snd]. fold tr1.
    rewrite bind_run, HDo. cbn [fst snd].
    rewrite bind_run, Hcheck. cbn [fst snd].
    destruct v as [shouldRetry checkErr]. cbn [fst snd].
    rewrite bind_run, Hhook. cbn [fst snd].
    destruct shouldRetry; reflexivity.
  - rewrite bind_run, RequestLogHook_run. cbn [fst snd]. fold tr1.
    rewrite bind_run, HDo. cbn [fst snd].
    rewrite bind_run, Hcheck. cbn [fst snd].
    destruct v as [shouldRetry checkErr]. cbn [fst snd].
    rewrite bind_run, Hhook. cbn [fst snd].
    destruct shouldRetry; cbn [negb]; [ | reflexivity ].
    destruct (Backoff_run (strava.MinWait cfg) (strava.MaxWait cfg) i
                (retryablehttp.response out) (mkSt tr3 (rateLimit st))) as (line & Hb).
    cbv zeta. rewrite bind_run. cbn [fst snd]. rewrite !Hb.
    mred. rewrite <- !app_assoc. cbn [app].
    match goal with |- context [env_ctxErr env ?t] => destruct (env_ctxErr env t) end;
      reflexivity.
Qed.


(** A run of the loop begins with the request, after the lines of the
    request hook, and a [break] leaves it with the verdict of the
    policy on the last outcome. *)
Lemma attempts_run (remain : nat) :
  ∀ (i : Z) (req : Request) (st : St),
  let tr1 := trace st ++ request_hook_events traceEnabled i in
  let r := retryablehttp.attempts env traceEnabled cfg remain i req st in
  (∃ rest, trace (snd r) = tr1 ++ EvDo req (env_Do env tr1 req) :: rest) ∧
  policy_said (fst r).
Proof.
  induction remain as [|remain IH]; intros i req st tr1 r; subst r;
    rewrite attempts_pass; cbv zeta; fold tr1;
    set (out := env_Do env tr1 req);
    set (v := verdict (env_ctxErr env (tr1 ++ [EvDo req out])) out);
    assert (Hv : v = (fst v, snd v)) by apply surjective_pairing.
  - destruct (negb (fst v)); cbn [fst snd trace policy_said];
      (split; [ rewrite <- app_assoc; eexists; reflexivity | exists (env_ctxErr env (tr1 ++ [EvDo req out])); exact Hv ]).
  - destruct (negb (fst v)); cbn [fst snd trace policy_said];
      [ split; [ rewrite <- app_assoc; eexists; reflexivity | exists (env_ctxErr env (tr1 ++ [EvDo req out])); exact Hv ] | ].
    match goal with |- context [client.Backoff env ?a ?b ?c ?d ?s] =>
      destruct (Backoff_run a b c d s) as (line & Hb); rewrite !Hb end.
    cbn [trace rateLimit].
    match goal with |- context [env_ctxErr env ?t] =>
      destruct (env_ctxErr env t) as [e|] eqn:Hctx end.
    + cbn [fst snd trace policy_said]. split; [ | exact I ].
      rewrite <- !app_assoc. eexists. reflexivity.
    + match goal with |- context [retryablehttp.attempts env traceEnabled cfg remain (i + 1) req ?s] =>
        destruct (IH (i + 1) req s) as ((rest & Htr) & Hsaid) end.
      split; [ | exact Hsaid ].
      rewrite Htr. cbn [trace]. rewrite <- !app_assoc. eexists. reflexivity.
Qed.

Lemma verdict_final (ctxErr : option error) (resp : http.Response) :
  verdict ctxErr (inr resp) = (false, None) →
  strava.CheckRetry None (Some resp) None = Some (false, None).
Proof.
  unfold verdict. cbn [retryablehttp.response retryablehttp.failure].
  destruct ctxErr as [e|]; [ discriminate | ].
  unfold strava.CheckRetry. repeat case_decide; cbn; congruence.
Qed.

(** The response [Do] hands to its caller is one the policy does not
    retry. *)
Lemma Do_answer_is_final (req : Request) (st : St) (resp : http.Response) :
  fst (retryablehttp.Do env baseURL traceEnabled cfg req st) = inr resp →
  strava.CheckRetry None (Some resp) None = Some (false, None).
Proof.
  unfold retryablehttp.Do. rewrite bind_run. cbn [fst snd]. rewrite bind_run.
  match goal with |- context [retryablehttp.attempts env traceEnabled cfg ?n ?i req ?s] =>
    destruct (attempts_run n i req s) as (_ & Hsaid);
    destruct (retryablehttp.attempts env traceEnabled cfg n i req s) as [ended st1] end.
  cbn [fst snd] in Hsaid |- *.
  destruct ended as [out shouldRetry checkErr attempt|e]; [ | discriminate ].
  destruct Hsaid as (ctxErr & Hv).
  destruct out as [err|resp0].
  - destruct checkErr; discriminate.
  - destruct checkErr as [e|]; [ discriminate | ].
    destruct shouldRetry; [ discriminate | ].
    cbn [fst ret]. intros [= <-]. exact (verdict_final ctxErr resp0 Hv).
Qed.




End RetryingClient.

Section BehindRetries.
Variable transport : Env.
Variable baseURL : string.
Variable traceEnabled : bool.
Variable cfg : strava.RetryConfig.

Local Abbreviation env' := (retrying baseURL traceEnabled cfg transport).

(** The retrying client never hands its caller a response that the
    policy retries: no 429 and no 5xx. *)
Lemma retrying_answer (tr : list Event) (req : Request) (resp : http.Response) :
  env_Do env' tr req = inr resp →
  http.StatusCode resp ≠ http.StatusTooManyRequests ∧ http.StatusCode resp < 500.
Proof.
  intros HDo. cbn [retrying env_Do] in HDo.
  apply Do_answer_is_final in HDo. revert HDo. unfold strava.CheckRetry.
  destruct (decide (http.StatusCode resp = http.StatusPaymentRequired)) as [H402|_].
  { intros _. rewrite H402. split; [ discriminate | reflexivity ]. }
  destruct (decide (http.StatusCode resp = http.StatusNotFound)) as [H404|_].
  { intros _. rewrite H404. split; [ discriminate | reflexivity ]. }
  destruct (decide (http.StatusCode resp = http.StatusTooManyRequests)); [ discriminate | ].
  destruct (decide (500 <= http.StatusCode resp)); [ discriminate | ].
  intros _. split; [ assumption | lia ].
Qed.

Lemma retrying_item_not_rate_limited (id : Z) (st : St) :
  fst (syncsvc.SyncZonesForActivity env' id st) ≠ Some ErrRateLimited.
Proof.
  destruct (SyncZonesForActivity_shape env' id st) as (out & new & Hout & _ & _ & _ & Hr & _).
  intros Hres. apply Hr in Hres. unfold answered in Hres. cbn [snd] in Hres.
  destruct out as [e|resp]; [ discriminate | ].
  apply bool_decide_eq_true in Hres.
  destruct (retrying_answer _ _ _ Hout) as [Hne _]. contradiction.
Qed.

Lemma retrying_loop_not_rate_limited (ids : list Z) :
  ctx_errors_only transport →
  ∀ (total i synced consec : Z) (st : St),
  snd (fst (syncsvc.SyncZones_loop env' None total i ids synced consec st))
  ≠ Some ErrRateLimited.
Proof.
  intros Hctx. induction ids as [|id rest IH]; intros total i synced consec st.
  - discriminate.
  - pose proof (retrying_item_not_rate_limited id st) as Hitem.
    destruct (syncsvc.SyncZonesForActivity env' id st) as [res st1] eqn:Hrun.
    cbn [fst] in Hitem. destruct res as [e|].
    + destruct (decide (e = ErrPremiumRequired)) as [->|Hnp].
      { rewrite (loop_turn_premium env' total i id rest synced consec st st1 Hrun).
        discriminate. }
      assert (Hnr : e ≠ ErrRateLimited) by congruence.
      rewrite (loop_turn_other env' total i id rest synced consec st st1 e Hrun Hnp Hnr).
      apply IH.
    + rewrite (loop_turn_synced env' total i id rest synced consec st st1 Hrun).
      destruct (env_ctxErr env' (trace st1 ++ [pacing_wait])) as [e|] eqn:Hc.
      * cbn [fst snd]. intros [= ->].
        destruct (Hctx _ _ Hc) as [H|H]; discriminate H.
      * apply IH.
Qed.


End BehindRetries.

Section RateLimitedItem.
Variable transport : Env.
Variable baseURL : string.
Variable traceEnabled : bool.
Variable cfg : strava.RetryConfig.

Local Abbreviation env' := (retrying baseURL traceEnabled cfg transport).


(** Behind the retrying client a run of [SyncZones] does not end with
    the rate-limit error, whatever the server does. *)
Lemma retrying_run_not_rate_limited (batchSize : Z) (st : St) :
  ctx_errors_only transport →
  snd (fst (syncsvc.SyncZones env' batchSize None st)) ≠ Some ErrRateLimited.
Proof.
  intros Hctx. unfold syncsvc.SyncZones. rewrite bind_run.
  unfold call. cbn [fst snd].
  destruct (env_GetActivitiesWithoutZones env' (trace st) batchSize) as [err|ids];
    [ discriminate | ].
  destruct (decide (length ids = 0%nat)); [ discriminate | ].
  apply retrying_loop_not_rate_limited. exact Hctx.
Qed.

End RateLimitedItem.

Section RateLimitedItemExamples.




End RateLimitedItemExamples.

Section BreakerBehindRetries.

(** C5, on the code. Behind the retrying client the breaker of
    [SyncZones] cannot trip: whatever the server does, a run does not
    end with the rate-limit error. With a backlog of five activities,
    the default settings and a server that answers every request with
    429, each of the five item attempts is rate limited (six round
    trips each, all answered 429), and the run does not halt after the
    third: it asks for all five items and returns nothing synced and no
    error. *)
Theorem rate_limited_backlog_is_not_halted :
  (∀ (transport : Env) (baseURL : string) (traceEnabled : bool) (cfg : strava.RetryConfig)
     (batchSize : Z) (st : St),
     ctx_errors_only transport →
     snd (fst (syncsvc.SyncZones (retrying baseURL traceEnabled cfg transport)
                 batchSize None st))
     ≠ Some ErrRateLimited) ∧
  (let transport := rate_limited_env [1; 2; 3; 4; 5] in
   let r := syncsvc.SyncZones
              (retrying strava.baseURL false strava.DefaultRetryConfig transport)
              25 None st0 in
   fst r = (0, None) ∧
   requests (new_events st0 (snd r))
   = map (fun id => (GetActivityZones id, gave_up id)) [1; 2; 3; 4; 5] ∧
   round_trips transport strava.baseURL false strava.DefaultRetryConfig [] (trace (snd r))
   = flat_map (fun id => replicate 6 (GetActivityZones id, inr too_many_requests))
       [1; 2; 3; 4; 5]).
Proof.
  split.
  - intros transport baseURL traceEnabled cfg batchSize st Hctx.
    apply retrying_run_not_rate_limited. exact Hctx.
  - vm_compute. repeat split; reflexivity.
Qed.

(** A server that answers 429 to a backlog of three: the run ends with
    no error at all. *)
Lemma rate_limited_backlog_is_not_halted_witness :
  let r := syncsvc.SyncZones
             (retrying strava.baseURL false strava.DefaultRetryConfig
                (rate_limited_env [1; 2; 3])) 25 None st0 in
  fst r = (0, None) ∧ snd (fst r) ≠ Some ErrRateLimited.
Proof.
  split; [ vm_compute; reflexivity | ].
  apply (proj1 rate_limited_backlog_is_not_halted (rate_limited_env [1; 2; 3])
           strava.baseURL false strava.DefaultRetryConfig 25 st0).
  apply rate_limited_env_ctx.
Defined.

End BreakerBehindRetries.
